(** * LUXBIN web mirror and gaming mirror: a shallow embedding

    The classes [QuantumWebMirror] of [luxbin_web_mirror.py] and
    [LUXBINGamingMirror] of [luxbin_gaming_mirror.py] are embedded as
    functions of a state-and-exception monad over one program state; the
    coroutines run one at a time, each [await] to its end.  What the two
    classes reach through an import that is not part of them (HTTP, the
    light converter, the DHT, the entangler, the name system, the clock,
    the URL and HTML parsers, the choice of [set.pop]) is a collaborator: an
    oracle that is asked together with the number of collaborator calls made
    so far, so that the same question may get another answer later.
    [hashlib] is embedded as the digests themselves.

    The file has the program first, then the vocabulary of the properties
    and the test doubles, then the properties. *)

From Stdlib Require Import ZArith QArith List String Ascii Lia.
From stdpp Require Import base option list gmap strings pretty.

Local Open Scope Z_scope.

(** ** hashlib: SHA-256 and MD5 over lists of bytes *)

Module hashlib.

Definition w32 (x : Z) : Z := Z.land x 0xffffffff.

Definition add32 (x y : Z) : Z := w32 (x + y).

Definition not32 (x : Z) : Z := Z.lxor x 0xffffffff.

Definition rotr (n x : Z) : Z :=
  Z.lor (Z.shiftr x n) (w32 (Z.shiftl x (32 - n))).

Definition rotl (n x : Z) : Z :=
  Z.lor (w32 (Z.shiftl x n)) (Z.shiftr x (32 - n)).

(** The [n] low bytes of [x], most significant first. *)
Fixpoint be_bytes (n : nat) (x : Z) : list Z :=
  match n with
  | O => []
  | S n' => be_bytes n' (Z.shiftr x 8) ++ [Z.land x 255]
  end.

Definition le_bytes (n : nat) (x : Z) : list Z := rev (be_bytes n x).

Definition be_word (bs : list Z) : Z := fold_left (fun acc b => acc * 256 + b) bs 0.

Definition le_word (bs : list Z) : Z := be_word (rev bs).

Fixpoint chunks {A} (fuel k : nat) (l : list A) : list (list A) :=
  match fuel, l with
  | O, _ | _, [] => []
  | S fuel', _ => take k l :: chunks fuel' k (drop k l)
  end.

(** Message, the byte 0x80, zero bytes up to 56 modulo 64; the 64-bit bit
    length follows in the byte order of the digest. *)
Definition pad_to_56 (msg : list Z) : list Z :=
  msg ++ [0x80] ++ replicate ((119 - length msg mod 64) mod 64)%nat 0.

Definition bit_length (msg : list Z) : Z := 8 * Z.of_nat (length msg).

Definition hex_digit (d : Z) : ascii :=
  match d with
  | 0 => "0" | 1 => "1" | 2 => "2" | 3 => "3" | 4 => "4" | 5 => "5" | 6 => "6"
  | 7 => "7" | 8 => "8" | 9 => "9" | 10 => "a" | 11 => "b" | 12 => "c"
  | 13 => "d" | 14 => "e" | _ => "f"
  end%char.

Fixpoint hex_of_bytes (bs : list Z) : string :=
  match bs with
  | [] => EmptyString
  | b :: bs' =>
      String (hex_digit (Z.shiftr b 4)) (String (hex_digit (Z.land b 15)) (hex_of_bytes bs'))
  end.

Definition bytes_to_Z (bs : list Byte.byte) : list Z :=
  map (fun b => Z.of_N (Byte.to_N b)) bs.

(** *** SHA-256 (FIPS 180-4) *)

(** The largest [r] below [2 ^ bits] with [r ^ k <= n]. *)
Fixpoint floor_root (bits : nat) (k n r : Z) : Z :=
  match bits with
  | O => r
  | S bits' =>
      let r' := Z.lor r (Z.shiftl 1 (Z.of_nat bits')) in
      floor_root bits' k n (if r' ^ k <=? n then r' else r)
  end.

Definition first_primes : list Z :=
  [ 2; 3; 5; 7; 11; 13; 17; 19; 23; 29; 31; 37; 41; 43; 47; 53;
    59; 61; 67; 71; 73; 79; 83; 89; 97; 101; 103; 107; 109; 113; 127; 131;
    137; 139; 149; 151; 157; 163; 167; 173; 179; 181; 191; 193; 197; 199; 211; 223;
    227; 229; 233; 239; 241; 251; 257; 263; 269; 271; 277; 281; 283; 293; 307; 311 ].

(** The round constants: the first 32 bits of the fractional parts of the
    cube roots of the first 64 primes. *)
Definition K256 : list Z :=
  Eval vm_compute in map (fun p => w32 (floor_root 40 3 (p * 2 ^ 96) 0)) first_primes.

(** The initial hash value: the same of the square roots of the first 8. *)
Definition H256 : list Z :=
  Eval vm_compute in map (fun p => w32 (floor_root 40 2 (p * 2 ^ 64) 0)) (take 8 first_primes).

Definition Ch (x y z : Z) : Z := Z.lxor (Z.land x y) (Z.land (not32 x) z).
Definition Maj (x y z : Z) : Z :=
  Z.lxor (Z.lxor (Z.land x y) (Z.land x z)) (Z.land y z).
Definition Sigma0 (x : Z) : Z := Z.lxor (Z.lxor (rotr 2 x) (rotr 13 x)) (rotr 22 x).
Definition Sigma1 (x : Z) : Z := Z.lxor (Z.lxor (rotr 6 x) (rotr 11 x)) (rotr 25 x).
Definition sigma0 (x : Z) : Z := Z.lxor (Z.lxor (rotr 7 x) (rotr 18 x)) (Z.shiftr x 3).
Definition sigma1 (x : Z) : Z := Z.lxor (Z.lxor (rotr 17 x) (rotr 19 x)) (Z.shiftr x 10).

(** The message schedule: [k] more words after the ones in [w]. *)
Fixpoint schedule (k : nat) (w : list Z) : list Z :=
  match k with
  | O => w
  | S k' =>
      let t := length w in
      let at_ (i : nat) := nth (t - i) w 0 in
      schedule k'
        (w ++ [add32 (add32 (sigma1 (at_ 2%nat)) (at_ 7%nat))
                     (add32 (sigma0 (at_ 15%nat)) (at_ 16%nat))])
  end.

Definition round256 (s : list Z) (kw : Z * Z) : list Z :=
  match s with
  | [a; b; c; d; e; f; g; h] =>
      let t1 := add32 (add32 (add32 h (Sigma1 e)) (add32 (Ch e f g) kw.1)) kw.2 in
      let t2 := add32 (Sigma0 a) (Maj a b c) in
      [add32 t1 t2; a; b; c; add32 d t1; e; f; g]
  | _ => s
  end.

Definition compress256 (h : list Z) (block : list Z) : list Z :=
  let w := schedule 48 (map be_word (chunks 16 4 block)) in
  zip_with add32 h (fold_left round256 (zip K256 w) h).

Definition sha256_digest (msg : list Z) : list Z :=
  let padded := pad_to_56 msg ++ be_bytes 8 (bit_length msg) in
  let blocks := chunks (length padded) 64 padded in
  concat (map (be_bytes 4) (fold_left compress256 blocks H256)).

(** [hashlib.sha256(data).hexdigest()] *)
Definition sha256_hexdigest (data : list Byte.byte) : string :=
  hex_of_bytes (sha256_digest (bytes_to_Z data)).

(** *** MD5 (RFC 1321) *)

Definition T5 : list Z :=
  [ 0xd76aa478; 0xe8c7b756; 0x242070db; 0xc1bdceee;
    0xf57c0faf; 0x4787c62a; 0xa8304613; 0xfd469501;
    0x698098d8; 0x8b44f7af; 0xffff5bb1; 0x895cd7be;
    0x6b901122; 0xfd987193; 0xa679438e; 0x49b40821;
    0xf61e2562; 0xc040b340; 0x265e5a51; 0xe9b6c7aa;
    0xd62f105d; 0x02441453; 0xd8a1e681; 0xe7d3fbc8;
    0x21e1cde6; 0xc33707d6; 0xf4d50d87; 0x455a14ed;
    0xa9e3e905; 0xfcefa3f8; 0x676f02d9; 0x8d2a4c8a;
    0xfffa3942; 0x8771f681; 0x6d9d6122; 0xfde5380c;
    0xa4beea44; 0x4bdecfa9; 0xf6bb4b60; 0xbebfbc70;
    0x289b7ec6; 0xeaa127fa; 0xd4ef3085; 0x04881d05;
    0xd9d4d039; 0xe6db99e5; 0x1fa27cf8; 0xc4ac5665;
    0xf4292244; 0x432aff97; 0xab9423a7; 0xfc93a039;
    0x655b59c3; 0x8f0ccc92; 0xffeff47d; 0x85845dd1;
    0x6fa87e4f; 0xfe2ce6e0; 0xa3014314; 0x4e0811a1;
    0xf7537e82; 0xbd3af235; 0x2ad7d2bb; 0xeb86d391 ].

Definition S5 : list Z :=
  [ 7; 12; 17; 22; 7; 12; 17; 22; 7; 12; 17; 22; 7; 12; 17; 22;
    5; 9; 14; 20; 5; 9; 14; 20; 5; 9; 14; 20; 5; 9; 14; 20;
    4; 11; 16; 23; 4; 11; 16; 23; 4; 11; 16; 23; 4; 11; 16; 23;
    6; 10; 15; 21; 6; 10; 15; 21; 6; 10; 15; 21; 6; 10; 15; 21 ].

Definition H5 : list Z := [ 0x67452301; 0xefcdab89; 0x98badcfe; 0x10325476 ].

Definition round5 (m : list Z) (s : list Z) (i : nat) : list Z :=
  match s with
  | [a; b; c; d] =>
      let '(f, g) :=
        if (i <? 16)%nat then (Z.lor (Z.land b c) (Z.land (not32 b) d), i)
        else if (i <? 32)%nat then
          (Z.lor (Z.land d b) (Z.land (not32 d) c), ((5 * i + 1) mod 16)%nat)
        else if (i <? 48)%nat then (Z.lxor (Z.lxor b c) d, ((3 * i + 5) mod 16)%nat)
        else (Z.lxor c (Z.lor b (not32 d)), ((7 * i) mod 16)%nat) in
      let f' := add32 (add32 f a) (add32 (nth i T5 0) (nth g m 0)) in
      [d; add32 b (rotl (nth i S5 0) f'); b; c]
  | _ => s
  end.

Definition compress5 (h : list Z) (block : list Z) : list Z :=
  let m := map le_word (chunks 16 4 block) in
  zip_with add32 h (fold_left (round5 m) (seq 0 64) h).

Definition md5_digest (msg : list Z) : list Z :=
  let padded := pad_to_56 msg ++ le_bytes 8 (bit_length msg) in
  let blocks := chunks (length padded) 64 padded in
  concat (map (le_bytes 4) (fold_left compress5 blocks H5)).

(** [hashlib.md5(data).hexdigest()] *)
Definition md5_hexdigest (data : list Byte.byte) : string :=
  hex_of_bytes (md5_digest (bytes_to_Z data)).

End hashlib.

(** ** The Python run time: exceptions, floats, objects, ordered dicts *)

(** Subclasses of [Exception]; [except Exception] catches each of them. *)
Inductive exn : Type :=
| ValueError (msg : string)
| KeyError (key : string)
| TypeError
| AttributeError
| CollaboratorError (who : string).

Inductive outcome (A : Type) : Type :=
| Ok (a : A)
| Raise (e : exn).

Arguments Ok {A} a.
Arguments Raise {A} e.

(** A float: its exact value and the text [float.__repr__] prints for it. *)
Record pyfloat : Type := { float_value : Q; float_repr : string }.

(** [x > y] on floats that are numbers. *)
Definition Qgtb (x y : Q) : bool := negb (Qle_bool x y).

Definition loc : Type := positive.

Inductive value : Type :=
| VNone
| VBool (b : bool)
| VInt (z : Z)
| VFloat (q : Q)
| VStr (s : string)
| VRef (l : loc).

(** The objects a reference may point to: dicts with string keys, lists. *)
Inductive object : Type :=
| ODict (d : gmap string value)
| OList (l : list value).

(** [dict] keeps insertion order, and assigning to a key that is present
    keeps the key's place. *)
Module pydict.
Section ordered.
Context {K V : Type} `{EqDecision K}.

Fixpoint get (k : K) (d : list (K * V)) : option V :=
  match d with
  | [] => None
  | (k', v) :: d' => if decide (k = k') then Some v else get k d'
  end.

Fixpoint set (k : K) (v : V) (d : list (K * V)) : list (K * V) :=
  match d with
  | [] => [(k, v)]
  | (k', v') :: d' => if decide (k = k') then (k, v) :: d' else (k', v') :: set k v d'
  end.

Definition keys (d : list (K * V)) : list K := d.*1.

Definition values (d : list (K * V)) : list V := d.*2.

End ordered.
End pydict.

(** [l[:n]] for an [int] [n]: a negative [n] counts from the end. *)
Definition slice_to {A} (n : Z) (l : list A) : list A :=
  if 0 <=? n then take (Z.to_nat n) l
  else take (length l - Z.to_nat (- n))%nat l.

(** ** The data classes *)

Record MirrorRecord : Type := {
  http_url : string;
  luxbin_address : string;
  content_hash : string;
  mirror_nodes : list string;
  last_updated : pyfloat;
  wavelength_encoded : bool;
  acoustic_encoded : bool;
  entanglement_verified : bool
}.

Inductive GamingPlatform : Type :=
| EPIC_GAMES | FORTNITE | UNREAL_ENGINE | STEAM | XBOX | PLAYSTATION
| NINTENDO | ROBLOX | MINECRAFT | VRCHAT | UNITY
| AXIE_INFINITY | GODS_UNCHAINED | DECENTRALAND | THE_SANDBOX.

#[global] Instance GamingPlatform_eq_dec : EqDecision GamingPlatform.
Proof. solve_decision. Defined.

(** [platform.value] *)
Definition platform_value (p : GamingPlatform) : string :=
  match p with
  | EPIC_GAMES => "epic_games" | FORTNITE => "fortnite"
  | UNREAL_ENGINE => "unreal_engine" | STEAM => "steam" | XBOX => "xbox"
  | PLAYSTATION => "playstation" | NINTENDO => "nintendo" | ROBLOX => "roblox"
  | MINECRAFT => "minecraft" | VRCHAT => "vrchat" | UNITY => "unity"
  | AXIE_INFINITY => "axie_infinity" | GODS_UNCHAINED => "gods_unchained"
  | DECENTRALAND => "decentraland" | THE_SANDBOX => "the_sandbox"
  end.

Record GamingMirror : Type := {
  platform : GamingPlatform;
  platform_name : string;
  gm_luxbin_address : string;
  http_urls : list string;
  data_types : list string;
  wavelength : Z;
  mirrored_at : pyfloat;
  quantum_secured : bool;
  gm_entanglement_verified : bool;
  gm_mirror_nodes : list string
}.

(** ** The program state *)

(** The dict [metadata] of [store_with_quantum_mirrors]. *)
Record Metadata : Type := {
  source_url : string;
  encoding : string;
  md_acoustic_encoded : value;
  md_mirror_nodes : list string;
  mirror_timestamp : pyfloat
}.

(** The handle [create_ghz_network_state] returns; only passed on. *)
Definition ghz_state : Type := nat.

(** Calls that leave the two classes, with their arguments. *)
Inductive event : Type :=
| session_get (url : string)
| create_light_show (content : list Byte.byte)
| dht_store_content (content : list Byte.byte) (metadata : Metadata)
| dht_retrieve_content (address : string)
| create_ghz_network_state (num_qubits : nat)
| measure_entanglement_correlation (ghz : ghz_state) (content_hash : string)
| register_name (name address owner_public_key : string)
| time_time.

(** [mirror_replication] is 4 and [crawl_depth_limit] is 3 from [__init__]
    on; no method assigns to them. *)
Record QuantumWebMirror : Type := {
  quantum_backends : list string;
  mirrors : list (string * MirrorRecord);
  crawl_queue : gset string;
  visited_urls : gset string;
  mirror_replication : nat;
  crawl_depth_limit : nat;
  acoustic_encoding_enabled : bool
}.

(** [game_data], which [mirror_fortnite_data] alone writes, is left out. *)
Record LUXBINGamingMirror : Type := {
  g_quantum_backends : list string;
  gaming_mirrors : list (GamingPlatform * GamingMirror)
}.

(** The heap of dicts and lists, the calls made so far (oldest first), and
    the two service objects; the gaming mirror's [web_mirror] is [web]. *)
Record State : Type := {
  heap : gmap loc object;
  trace : list event;
  web : QuantumWebMirror;
  gaming : LUXBINGamingMirror
}.

Definition with_heap (f : gmap loc object -> gmap loc object) (s : State) : State :=
  {| heap := f (heap s); trace := trace s; web := web s; gaming := gaming s |}.

Definition with_trace (f : list event -> list event) (s : State) : State :=
  {| heap := heap s; trace := f (trace s); web := web s; gaming := gaming s |}.

Definition with_web (f : QuantumWebMirror -> QuantumWebMirror) (s : State) : State :=
  {| heap := heap s; trace := trace s; web := f (web s); gaming := gaming s |}.

Definition with_gaming (f : LUXBINGamingMirror -> LUXBINGamingMirror) (s : State) : State :=
  {| heap := heap s; trace := trace s; web := web s; gaming := f (gaming s) |}.

Definition set_mirrors (m : list (string * MirrorRecord)) (w : QuantumWebMirror) :=
  {| quantum_backends := quantum_backends w; mirrors := m;
     crawl_queue := crawl_queue w; visited_urls := visited_urls w;
     mirror_replication := mirror_replication w;
     crawl_depth_limit := crawl_depth_limit w;
     acoustic_encoding_enabled := acoustic_encoding_enabled w |}.

Definition set_crawl_queue (q : gset string) (w : QuantumWebMirror) :=
  {| quantum_backends := quantum_backends w; mirrors := mirrors w;
     crawl_queue := q; visited_urls := visited_urls w;
     mirror_replication := mirror_replication w;
     crawl_depth_limit := crawl_depth_limit w;
     acoustic_encoding_enabled := acoustic_encoding_enabled w |}.

Definition set_visited_urls (v : gset string) (w : QuantumWebMirror) :=
  {| quantum_backends := quantum_backends w; mirrors := mirrors w;
     crawl_queue := crawl_queue w; visited_urls := v;
     mirror_replication := mirror_replication w;
     crawl_depth_limit := crawl_depth_limit w;
     acoustic_encoding_enabled := acoustic_encoding_enabled w |}.

Definition set_gaming_mirrors (m : list (GamingPlatform * GamingMirror))
    (g : LUXBINGamingMirror) :=
  {| g_quantum_backends := g_quantum_backends g; gaming_mirrors := m |}.

(** ** The monad: state that survives an exception *)

Definition M (A : Type) : Type := State -> outcome A * State.

Definition ret {A} (a : A) : M A := fun s => (Ok a, s).

Definition bind {A B} (m : M A) (k : A -> M B) : M B :=
  fun s => match m s with
           | (Ok a, s') => k a s'
           | (Raise e, s') => (Raise e, s')
           end.

Definition raise {A} (e : exn) : M A := fun s => (Raise e, s).

(** [try: m  except Exception as e: h e]; what [m] did to the state stays. *)
Definition try_except {A} (m : M A) (h : exn -> M A) : M A :=
  fun s => match m s with
           | (Ok a, s') => (Ok a, s')
           | (Raise e, s') => h e s'
           end.

Definition gets {A} (f : State -> A) : M A := fun s => (Ok (f s), s).

Definition modify (f : State -> State) : M unit := fun s => (Ok tt, f s).

Definition lift {A} (o : outcome A) : M A := fun s => (o, s).

Notation "'let!' x ':=' m 'in' k" := (bind m (fun x => k))
  (at level 10, x binder, m at level 100, k at level 200).

Notation "'do!' m 'in' k" := (bind m (fun _ => k))
  (at level 10, m at level 100, k at level 200).

(** [for x in l: body x] over a list that the body does not change. *)
Fixpoint for_each {A} (l : list A) (body : A -> M unit) : M unit :=
  match l with
  | [] => ret tt
  | x :: l' => do! body x in for_each l' body
  end.

(** ** Collaborators

    Each answer is a function of the number of calls already in [trace]. *)
Class Collaborators : Type := {
  (** aiohttp: status and body of [session.get(url)], or a network error *)
  answer_session_get : nat -> string -> outcome (Z * list Byte.byte);
  (** [LuxbinLightConverter.create_light_show]: builds its dict in the heap *)
  answer_create_light_show :
    nat -> list Byte.byte -> gmap loc object -> outcome value * gmap loc object;
  answer_dht_store_content : nat -> list Byte.byte -> Metadata -> outcome string;
  answer_dht_retrieve_content : nat -> string -> outcome (option (list Byte.byte));
  answer_create_ghz_network_state : nat -> nat -> outcome ghz_state;
  answer_measure_entanglement_correlation : nat -> ghz_state -> string -> outcome Q;
  (** what [register_name] returns; its callers here drop it *)
  answer_register_name : nat -> string -> string -> string -> outcome bool;
  answer_time_time : nat -> pyfloat;
  (** [urlparse(u)]: its [netloc] and [path] *)
  urlparse : string -> outcome (string * string);
  urljoin : string -> string -> outcome string;
  (** the [href]s of [BeautifulSoup(content).find_all('a', href=True)] *)
  anchor_hrefs : list Byte.byte -> outcome (list string);
  (** the element [set.pop] takes out of a set that is not empty *)
  set_pop : nat -> gset string -> string;
  set_pop_elem : forall n (s : gset string), s ≠ ∅ -> set_pop n s ∈ s
}.

Section program.
Context `{Collaborators}.

(** A call to a collaborator: logged, answered by the oracle. *)
Definition call {A} (ev : event) (answer : nat -> outcome A) : M A :=
  fun s => (answer (length (trace s)), with_trace (fun t => t ++ [ev]) s).

(** ** Dicts and lists in the heap *)

Definition alloc (o : object) : M value :=
  fun s => let l := fresh (dom (heap s)) in (Ok (VRef l), with_heap (insert l o) s).

Definition deref (l : loc) : M object :=
  fun s => match heap s !! l with
           | Some o => (Ok o, s)
           | None => (Raise (CollaboratorError "dangling reference"), s)
           end.

(** [v.copy()] *)
Definition py_copy (v : value) : M value :=
  match v with
  | VRef l => let! o := deref l in alloc o
  | _ => raise AttributeError
  end.

(** [v[k]] *)
Definition getitem (v : value) (k : string) : M value :=
  match v with
  | VRef l =>
      let! o := deref l in
      match o with
      | ODict d => match d !! k with Some x => ret x | None => raise (KeyError k) end
      | OList _ => raise TypeError
      end
  | _ => raise TypeError
  end.

(** [v[k] = x] *)
Definition setitem (v : value) (k : string) (x : value) : M unit :=
  match v with
  | VRef l =>
      let! o := deref l in
      match o with
      | ODict d => modify (with_heap (insert l (ODict (<[k:=x]> d))))
      | OList _ => raise TypeError
      end
  | _ => raise TypeError
  end.

(** [v.get(k, default)] *)
Definition py_get (v : value) (k : string) (dflt : value) : M value :=
  match v with
  | VRef l =>
      let! o := deref l in
      match o with
      | ODict d => ret (default dflt (d !! k))
      | OList _ => raise AttributeError
      end
  | _ => raise AttributeError
  end.

(** [v < n] for an [int] literal [n]; [bool] counts as 0 or 1. *)
Definition py_lt (v : value) (n : Z) : outcome bool :=
  match v with
  | VInt z => Ok (z <? n)
  | VBool b => Ok ((if b then 1 else 0) <? n)
  | VFloat q => Ok (negb (Qle_bool (inject_Z n) q))
  | _ => Raise TypeError
  end.

(** What [for item in v] runs over: the elements of a list, the keys of a
    dict, the characters of a string. *)
Definition py_iter (v : value) : M (list value) :=
  match v with
  | VRef l =>
      let! o := deref l in
      match o with
      | OList items => ret items
      | ODict d => ret (VStr <$> (map_to_list d).*1)
      end
  | VStr s => ret ((fun c => VStr (String c EmptyString)) <$> list_ascii_of_string s)
  | _ => raise TypeError
  end.

(** ** QuantumWebMirror *)

(** The body of the loop of [apply_acoustic_encoding]. *)
Definition add_morse_timing (item : value) : M unit :=
  let! wavelength := getitem item "wavelength" in
  let! blue := lift (py_lt wavelength 500) in
  do! (if blue then
         do! setitem item "timing_pattern" (VStr "dit") in
         setitem item "duration_ms" (VInt 50)
       else
         let! green := lift (py_lt wavelength 600) in
         if green then
           do! setitem item "timing_pattern" (VStr "dit-dah") in
           setitem item "duration_ms" (VInt 100)
         else
           do! setitem item "timing_pattern" (VStr "dah") in
           setitem item "duration_ms" (VInt 150)) in
  setitem item "gap_ms" (VInt 30).

Definition apply_acoustic_encoding (light_show : value) : M value :=
  let! acoustic_show := py_copy light_show in
  let! sequence := getitem light_show "light_sequence" in
  let! items := py_iter sequence in
  do! for_each items add_morse_timing in
  do! setitem acoustic_show "acoustic_encoded" (VBool true) in
  do! setitem acoustic_show "timing_standard" (VStr "morse_light") in
  ret acoustic_show.

(** Prints and passes. *)
Definition replicate_to_quantum_node (luxbin_address : string)
    (content : list Byte.byte) (quantum_backend : string) : M unit :=
  ret tt.

Definition store_with_quantum_mirrors (content : list Byte.byte)
    (light_show : value) (url : string) : M string :=
  let! acoustic := py_get light_show "acoustic_encoded" (VBool false) in
  let! self := gets web in
  let! now := call time_time (fun t => Ok (answer_time_time t)) in
  let metadata :=
    {| source_url := url;
       encoding := "luxbin_wavelength";
       md_acoustic_encoded := acoustic;
       md_mirror_nodes := take (mirror_replication self) (quantum_backends self);
       mirror_timestamp := now |} in
  let! luxbin_address :=
    call (dht_store_content content metadata)
         (fun t => answer_dht_store_content t content metadata) in
  do! for_each (take (mirror_replication self) (quantum_backends self))
        (replicate_to_quantum_node luxbin_address content) in
  ret luxbin_address.

(** The threshold is the literal [0.7].  The float it denotes is the float
    next below 7/10, and no float lies between the two, so on floats
    [correlation > 0.7] is the comparison with 7/10. *)
Definition entangle_mirrors (luxbin_address content_hash : string) : M bool :=
  let! self := gets web in
  let! ghz_state :=
    call (create_ghz_network_state (mirror_replication self))
         (fun t => answer_create_ghz_network_state t (mirror_replication self)) in
  let! correlation :=
    call (measure_entanglement_correlation ghz_state content_hash)
         (fun t => answer_measure_entanglement_correlation t ghz_state content_hash) in
  if Qgtb correlation 0.7 then ret true else ret false.

(** [s.replace('.', '_')] *)
Fixpoint replace_dots (s : string) : string :=
  match s with
  | EmptyString => EmptyString
  | String c s' => String (if Ascii.eqb c "." then "_"%char else c) (replace_dots s')
  end.

Definition register_url_mapping (http_url luxbin_address : string) : M unit :=
  let! parsed := lift (urlparse http_url) in
  let domain_name := replace_dots parsed.1 in
  let path_hash :=
    String.substring 0 8 (hashlib.md5_hexdigest (list_byte_of_string parsed.2)) in
  let name := domain_name +:+ "_" +:+ path_hash in
  do! call (register_name name luxbin_address "web_mirror_gateway")
        (fun t => answer_register_name t name luxbin_address "web_mirror_gateway") in
  ret tt.

(** [self.converter.create_light_show(content)]: a call that is logged
    like the others and works on the heap. *)
Definition converter_create_light_show (content : list Byte.byte) : M value :=
  fun s =>
    let r := answer_create_light_show (length (trace s)) content (heap s) in
    (r.1, with_heap (fun _ => r.2)
            (with_trace (fun t => t ++ [create_light_show content]) s)).

Definition mirror_page (url : string) : M (option MirrorRecord) :=
  try_except
    (let! resp := call (session_get url) (fun t => answer_session_get t url) in
     if negb (resp.1 =? 200) then ret None
     else
       let content := resp.2 in
       let! light_show := converter_create_light_show content in
       let! self := gets web in
       let! acoustic_encoded :=
         if acoustic_encoding_enabled self then apply_acoustic_encoding light_show
         else ret light_show in
       let content_hash := String.substring 0 16 (hashlib.sha256_hexdigest content) in
       let! luxbin_address := store_with_quantum_mirrors content acoustic_encoded url in
       let! entanglement_verified := entangle_mirrors luxbin_address content_hash in
       do! register_url_mapping url luxbin_address in
       let! self := gets web in
       let! now := call time_time (fun t => Ok (answer_time_time t)) in
       let mirror_record :=
         {| http_url := url;
            luxbin_address := luxbin_address;
            content_hash := content_hash;
            mirror_nodes := take (mirror_replication self) (quantum_backends self);
            last_updated := now;
            wavelength_encoded := true;
            acoustic_encoded := acoustic_encoding_enabled self;
            entanglement_verified := entanglement_verified |} in
       do! modify (with_web (fun w => set_mirrors (pydict.set url mirror_record (mirrors w)) w)) in
       ret (Some mirror_record))
    (fun e => ret None).

(** The loop of [extract_links] over the anchors: [links] grows in place, and
    an exception ends the loop with what was added so far. *)
Fixpoint same_domain_links (base_url : string) (hrefs : list string)
    (links : gset string) : gset string :=
  match hrefs with
  | [] => links
  | href :: hrefs' =>
      match urljoin base_url href with
      | Ok absolute_url =>
          match urlparse absolute_url, urlparse base_url with
          | Ok a, Ok b =>
              same_domain_links base_url hrefs'
                (if decide (a.1 = b.1) then links ∪ {[absolute_url]} else links)
          | _, _ => links
          end
      | Raise _ => links
      end
  end.

Definition extract_links (base_url : string) (mirror_record : MirrorRecord)
    : M (gset string) :=
  try_except
    (let! content :=
       call (dht_retrieve_content (luxbin_address mirror_record))
            (fun t => answer_dht_retrieve_content t (luxbin_address mirror_record)) in
     match content with
     | None | Some [] => ret ∅
     | Some content =>
         match anchor_hrefs content with
         | Ok hrefs => ret (same_domain_links base_url hrefs ∅)
         | Raise _ => ret ∅
         end
     end)
    (fun e => ret ∅).

(** [self.crawl_queue.pop()] *)
Definition crawl_queue_pop : M string :=
  fun s =>
    let q := crawl_queue (web s) in
    if decide (q = ∅) then (Raise (KeyError "pop from an empty set"), s)
    else
      let u := set_pop (length (trace s)) q in
      (Ok u, with_web (set_crawl_queue (q ∖ {[u]})) s).

(** The body of the [while] loop of [mirror_website]: the pages mirrored
    after one more iteration.  [continue] leaves them as they are. *)
Definition crawl_iteration (recursive : bool) (max_pages : Z)
    (mirrored_pages : list (string * MirrorRecord))
    : M (list (string * MirrorRecord)) :=
  let! current_url := crawl_queue_pop in
  let! self := gets web in
  if bool_decide (current_url ∈ visited_urls self) then ret mirrored_pages
  else
    do! modify (with_web (fun w =>
          set_visited_urls (visited_urls w ∪ {[current_url]}) w)) in
    let! mirror_record := mirror_page current_url in
    match mirror_record with
    | Some mirror_record =>
        let mirrored_pages := pydict.set current_url mirror_record mirrored_pages in
        do! (if recursive && (Z.of_nat (length mirrored_pages) <? max_pages)
             then
               let! links := extract_links current_url mirror_record in
               modify (with_web (fun w => set_crawl_queue (crawl_queue w ∪ links) w))
             else ret tt) in
        ret mirrored_pages
    | None => ret mirrored_pages
    end.

(** The [while] loop; [None] when [fuel] iterations were not enough to
    leave it. *)
Fixpoint crawl (fuel : nat) (recursive : bool) (max_pages : Z)
    (mirrored_pages : list (string * MirrorRecord))
    : M (option (list (string * MirrorRecord))) :=
  match fuel with
  | O => ret None
  | S fuel' =>
      let! self := gets web in
      if bool_decide (crawl_queue self ≠ ∅)
         && (Z.of_nat (length mirrored_pages) <? max_pages)
      then
        let! mirrored_pages := crawl_iteration recursive max_pages mirrored_pages in
        crawl fuel' recursive max_pages mirrored_pages
      else ret (Some mirrored_pages)
  end.

Definition mirror_website (fuel : nat) (url : string) (recursive : bool)
    (max_pages : Z) : M (option (list (string * MirrorRecord))) :=
  do! modify (with_web (fun w => set_visited_urls ∅ (set_crawl_queue {[url]} w))) in
  let! mirrored_pages := crawl fuel recursive max_pages [] in
  match mirrored_pages with
  | None => ret None
  | Some mirrored_pages =>
      (* the closing print formats [urlparse(url).netloc] *)
      let! _ := lift (urlparse url) in
      ret (Some mirrored_pages)
  end.

(** The body of the loop of [sync_mirrors]; what [entangle_mirrors] returns
    is not assigned. *)
Definition re_entangle : string * MirrorRecord -> M unit :=
  fun '(url, mirror) =>
    if negb (entanglement_verified mirror) then
      let! _ := entangle_mirrors (luxbin_address mirror) (content_hash mirror) in
      ret tt
    else ret tt.

Definition sync_mirrors : M unit :=
  let! self := gets web in
  for_each (mirrors self) re_entangle.

End program.

(** [sum(1 for m in ms if p(m))] *)
Definition sum_1_if {A} (p : A -> bool) (ms : list A) : Z :=
  fold_left (fun acc m => if p m then acc + 1 else acc) ms 0.

Record MirrorStatistics : Type := {
  total_mirrors : Z;
  entangled_mirrors : Z;
  entanglement_rate : Q;
  stat_acoustic_encoded : Z;
  stat_quantum_backends : Z;
  replication_factor : nat;
  stat_visited_urls : Z
}.

(** The quotient of two [int]s is a float; it is kept here as the exact
    rational, of which the float is the rounding. *)
Definition get_mirror_statistics (self : QuantumWebMirror) : MirrorStatistics :=
  let total_mirrors := Z.of_nat (length (mirrors self)) in
  let entangled_mirrors := sum_1_if entanglement_verified (pydict.values (mirrors self)) in
  let acoustic_encoded := sum_1_if acoustic_encoded (pydict.values (mirrors self)) in
  {| total_mirrors := total_mirrors;
     entangled_mirrors := entangled_mirrors;
     entanglement_rate :=
       if 0 <? total_mirrors
       then (inject_Z entangled_mirrors / inject_Z total_mirrors)%Q
       else 0%Q;
     stat_acoustic_encoded := acoustic_encoded;
     stat_quantum_backends := Z.of_nat (length (quantum_backends self));
     replication_factor := mirror_replication self;
     stat_visited_urls := Z.of_nat (size (visited_urls self)) |}.

(** [QuantumWebMirror.__init__] *)
Definition QuantumWebMirror_init (quantum_backends : list string) : QuantumWebMirror :=
  {| quantum_backends := quantum_backends;
     mirrors := [];
     crawl_queue := ∅;
     visited_urls := ∅;
     mirror_replication := 4;
     crawl_depth_limit := 3;
     acoustic_encoding_enabled := true |}.

(** ** LUXBINGamingMirror *)

Definition GAMING_WAVELENGTH : Z := 600.

(** [self.platform_urls], the dict literal of [__init__] *)
Definition platform_urls (p : GamingPlatform) : option (list string) :=
  match p with
  | EPIC_GAMES => Some ["https://www.epicgames.com"; "https://store.epicgames.com"]
  | FORTNITE => Some ["https://www.fortnite.com"; "https://fortnitetracker.com/api"]
  | UNREAL_ENGINE =>
      Some ["https://www.unrealengine.com"; "https://www.unrealengine.com/marketplace"]
  | STEAM => Some ["https://store.steampowered.com"; "https://steamcommunity.com"]
  | XBOX => Some ["https://www.xbox.com"]
  | PLAYSTATION => Some ["https://www.playstation.com"]
  | ROBLOX => Some ["https://www.roblox.com"]
  | MINECRAFT => Some ["https://www.minecraft.net"]
  | VRCHAT => Some ["https://vrchat.com"]
  | AXIE_INFINITY => Some ["https://axieinfinity.com"]
  | DECENTRALAND => Some ["https://decentraland.org"]
  | THE_SANDBOX => Some ["https://www.sandbox.game"]
  | NINTENDO | UNITY | GODS_UNCHAINED => None
  end.

(** [LUXBINGamingMirror.__init__] *)
Definition LUXBINGamingMirror_init (quantum_backends : list string) : LUXBINGamingMirror :=
  {| g_quantum_backends := quantum_backends; gaming_mirrors := [] |}.

(** [str(platform)], as the f-string of the [ValueError] prints it *)
Definition platform_str (p : GamingPlatform) : string :=
  "GamingPlatform." +:+
  match p with
  | EPIC_GAMES => "EPIC_GAMES" | FORTNITE => "FORTNITE"
  | UNREAL_ENGINE => "UNREAL_ENGINE" | STEAM => "STEAM" | XBOX => "XBOX"
  | PLAYSTATION => "PLAYSTATION" | NINTENDO => "NINTENDO" | ROBLOX => "ROBLOX"
  | MINECRAFT => "MINECRAFT" | VRCHAT => "VRCHAT" | UNITY => "UNITY"
  | AXIE_INFINITY => "AXIE_INFINITY" | GODS_UNCHAINED => "GODS_UNCHAINED"
  | DECENTRALAND => "DECENTRALAND" | THE_SANDBOX => "THE_SANDBOX"
  end.

(** [json.dumps] of a string; the strings of [platform_urls] and the
    platform values hold printable ASCII only, of which the quote and the
    backslash are the two that are escaped. *)
Definition dquote : string := String "034"%char EmptyString.

Fixpoint json_escape (s : string) : string :=
  match s with
  | EmptyString => EmptyString
  | String c s' =>
      (if Ascii.eqb c "034" then "\" +:+ dquote
       else if Ascii.eqb c "\" then "\\"
       else String c EmptyString) +:+ json_escape s'
  end.

Definition json_string (s : string) : string := dquote +:+ json_escape s +:+ dquote.

Definition json_list (l : list string) : string :=
  "[" +:+ String.concat ", " (map json_string l) +:+ "]".

(** [json.dumps({'platform': platform_name, 'urls': urls, 'timestamp': t})] *)
Definition json_dumps_platform (platform_name : string) (urls : list string)
    (timestamp : pyfloat) : string :=
  "{" +:+ json_string "platform" +:+ ": " +:+ json_string platform_name +:+ ", "
      +:+ json_string "urls" +:+ ": " +:+ json_list urls +:+ ", "
      +:+ json_string "timestamp" +:+ ": " +:+ float_repr timestamp +:+ "}".

(** Modelled from the spec: [LUXBINAddress.create] of the module
    [luxbin_address], which is not among the sources.  The spec gives the
    address the format [scheme://replicaScope.<wavelengthTag>.<hash8>/<path>];
    the scope is [node_id], the tag is the wavelength in nanometres, the
    hash is [content] and [resource] is the path with its leading slash. *)
Definition LUXBINAddress_create (node_id content resource : string)
    (wavelength : Z) : string :=
  "luxbin://" +:+ node_id +:+ "." +:+ pretty wavelength +:+ "nm." +:+ content
              +:+ resource.

(** Lines 208 to 223 of [mirror_gaming_platform]: the address of a platform
    mirrored at [timestamp]. *)
Definition platform_content_hash (platform_name : string) (urls : list string)
    (timestamp : pyfloat) : string :=
  String.substring 0 8
    (hashlib.sha256_hexdigest
       (list_byte_of_string (json_dumps_platform platform_name urls timestamp))).

Definition platform_address (platform_name : string) (urls : list string)
    (timestamp : pyfloat) : string :=
  LUXBINAddress_create platform_name
    (platform_content_hash platform_name urls timestamp) "/" GAMING_WAVELENGTH.

Section gaming.
Context `{Collaborators}.

(** The loop over [urls[:max_pages]]; an exception of one page is printed. *)
Fixpoint mirror_main_pages (urls : list string)
    (mirrored_pages : list (string * MirrorRecord)) : M (list (string * MirrorRecord)) :=
  match urls with
  | [] => ret mirrored_pages
  | url :: urls' =>
      let! mirrored_pages :=
        try_except
          (let! record := mirror_page url in
           match record with
           | Some record => ret (pydict.set url record mirrored_pages)
           | None => ret mirrored_pages
           end)
          (fun e => ret mirrored_pages) in
      mirror_main_pages urls' mirrored_pages
  end.

Definition mirror_gaming_platform (platform : GamingPlatform)
    (include_api_data : bool) (max_pages : Z) : M GamingMirror :=
  let urls := default [] (platform_urls platform) in
  if bool_decide (urls = []) then
    raise (ValueError ("Platform " +:+ platform_str platform +:+ " not supported"))
  else
    let! mirrored_pages := mirror_main_pages (slice_to max_pages urls) [] in
    let platform_name := platform_value platform in
    let! timestamp := call time_time (fun t => Ok (answer_time_time t)) in
    let luxbin_address := platform_address platform_name urls timestamp in
    let! now := call time_time (fun t => Ok (answer_time_time t)) in
    let! self := gets gaming in
    let gaming_mirror :=
      {| platform := platform;
         platform_name := platform_name;
         gm_luxbin_address := luxbin_address;
         http_urls := urls;
         data_types := ["web_pages"; "game_metadata"];
         wavelength := GAMING_WAVELENGTH;
         mirrored_at := now;
         quantum_secured := true;
         gm_entanglement_verified := true;
         gm_mirror_nodes := g_quantum_backends self |} in
    do! modify (with_gaming (fun g =>
          set_gaming_mirrors (pydict.set platform gaming_mirror (gaming_mirrors g)) g)) in
    ret gaming_mirror.

End gaming.

(** ** The rest of the two classes, and a caller *)

(** [content.hex()] *)
Definition bytes_hex (content : list Byte.byte) : string :=
  hashlib.hex_of_bytes (hashlib.bytes_to_Z content).

(** The dict ['digital_space'] of a transaction. *)
Record DigitalSpace : Type := {
  ds_content : string;
  full_content_dht : value;
  ds_wavelength_encoded : bool;
  ds_acoustic_encoded : value
}.

(** The dict [tx] of [store_content_in_blockchain_block]. *)
Record Transaction : Type := {
  tx_type : string;
  tx_url : string;
  tx_content_hash : string;
  content_size : Z;
  digital_space : DigitalSpace;
  tx_timestamp : pyfloat;
  tx_mirror_nodes : list string;
  entangled : bool
}.

(** The dicts that [mirror_web_pages] of [luxbin_superposition_blockchain.py]
    appends. *)
Record MirroredPage : Type := {
  mp_url : string;
  mp_luxbin_address : string;
  mp_content_hash : string;
  mp_mirrored_at : pyfloat
}.

Definition sample_urls : list string :=
  ["https://example.com"; "https://wikipedia.org"; "https://github.com"].

(** The loop of [mirror_web_pages] over the sample URLs; [web_mirror] is the
    attribute of that name, and the method reads nothing else. *)
Fixpoint mirror_web_pages_from (web_mirror : QuantumWebMirror) (urls : list string)
    (mirrored_pages : list MirroredPage) : list MirroredPage :=
  match urls with
  | [] => mirrored_pages
  | url :: urls' =>
      mirror_web_pages_from web_mirror urls'
        match pydict.get url (mirrors web_mirror) with
        | Some mirror =>
            mirrored_pages ++
            [{| mp_url := url;
                mp_luxbin_address := luxbin_address mirror;
                mp_content_hash := content_hash mirror;
                mp_mirrored_at := last_updated mirror |}]
        | None => mirrored_pages
        end
  end.

Definition mirror_web_pages (web_mirror : QuantumWebMirror) : list MirroredPage :=
  mirror_web_pages_from web_mirror sample_urls [].

Record GameData : Type := {
  game_id : string;
  game_name : string;
  gd_platform : GamingPlatform;
  data_type : string;
  gd_content_hash : string;
  gd_luxbin_address : string;
  size_bytes : Z
}.

(** A [GamingMirror] is true as every object without [__bool__] and
    [__len__] is, so [if mirror] asks whether the key was there. *)
Definition get_gaming_address (self : LUXBINGamingMirror) (platform : GamingPlatform)
    : option string :=
  match pydict.get platform (gaming_mirrors self) with
  | Some mirror => Some (gm_luxbin_address mirror)
  | None => None
  end.

Definition get_all_gaming_mirrors (self : LUXBINGamingMirror) : list GamingMirror :=
  pydict.values (gaming_mirrors self).

Definition platforms_to_mirror : list GamingPlatform :=
  [EPIC_GAMES; FORTNITE; STEAM; ROBLOX; MINECRAFT; VRCHAT].

Definition web3_games : list GamingPlatform :=
  [AXIE_INFINITY; DECENTRALAND; THE_SANDBOX].

Definition fortnite_data_types : list string :=
  ["game_metadata"; "item_shop"; "news"; "cosmetics"; "battle_pass"].

Section rest.
Context `{Collaborators}.

(** Lines 415 to 433 of [store_content_in_blockchain_block]: the
    transaction that is handed to [mine_block]. *)
Definition store_content_in_blockchain_block_tx (http_url : string)
    (content : list Byte.byte) (light_show : value) : M Transaction :=
  let! full_content_dht := py_get light_show "luxbin_address" VNone in
  let! acoustic := py_get light_show "acoustic_encoded" (VBool false) in
  let! now := call time_time (fun t => Ok (answer_time_time t)) in
  let! self := gets web in
  ret {| tx_type := "WEB_MIRROR";
         tx_url := http_url;
         tx_content_hash := hashlib.sha256_hexdigest content;
         content_size := Z.of_nat (length content);
         digital_space :=
           {| ds_content := String.substring 0 1000 (bytes_hex content);
              full_content_dht := full_content_dht;
              ds_wavelength_encoded := true;
              ds_acoustic_encoded := acoustic |};
         tx_timestamp := now;
         tx_mirror_nodes := quantum_backends self;
         entangled := true |}.

Definition mirror_epic_games_store : M GamingMirror :=
  mirror_gaming_platform EPIC_GAMES true 50.

(** The loop of [mirror_all_major_platforms] and of [mirror_web3_gaming]: a
    platform that raises is printed and left out. *)
Fixpoint mirror_platforms (max_pages : Z) (platforms : list GamingPlatform)
    (results : list (GamingPlatform * GamingMirror))
    : M (list (GamingPlatform * GamingMirror)) :=
  match platforms with
  | [] => ret results
  | platform :: platforms' =>
      let! results :=
        try_except
          (let! mirror := mirror_gaming_platform platform true max_pages in
           ret (pydict.set platform mirror results))
          (fun e => ret results) in
      mirror_platforms max_pages platforms' results
  end.

Definition mirror_all_major_platforms : M (list (GamingPlatform * GamingMirror)) :=
  mirror_platforms 20 platforms_to_mirror [].

(** [self.web3_entanglement] is what [__init__] was given and no method
    assigns to it; [web3_entanglement] says whether it is an object, which
    is true, or [None]. *)
Definition mirror_web3_gaming (web3_entanglement : bool)
    : M (list (GamingPlatform * GamingMirror)) :=
  if negb web3_entanglement then ret []
  else mirror_platforms 10 web3_games [].

(** The loop of [mirror_fortnite_data] over the data types.  The dict
    [self.game_data], which no other method touches, is passed in and
    returned beside [fortnite_data]. *)
Fixpoint fortnite_records (platform_mirror : GamingMirror) (data_types : list string)
    (fortnite_data game_data : list (string * GameData))
    : M (list (string * GameData) * list (string * GameData)) :=
  match data_types with
  | [] => ret (fortnite_data, game_data)
  | data_type :: data_types' =>
      let! now := call time_time (fun t => Ok (answer_time_time t)) in
      let game_data_record :=
        {| game_id := "fortnite";
           game_name := "Fortnite";
           gd_platform := FORTNITE;
           data_type := data_type;
           gd_content_hash :=
             String.substring 0 16
               (hashlib.sha256_hexdigest
                  (list_byte_of_string
                     ("fortnite_" +:+ data_type +:+ "_" +:+ float_repr now)));
           gd_luxbin_address := gm_luxbin_address platform_mirror +:+ "/" +:+ data_type;
           size_bytes := 0 |} in
      fortnite_records platform_mirror data_types'
        (pydict.set data_type game_data_record fortnite_data)
        (pydict.set ("fortnite_" +:+ data_type) game_data_record game_data)
  end.

Definition mirror_fortnite_data (game_data : list (string * GameData))
    : M (list (string * GameData) * list (string * GameData)) :=
  let! platform_mirror := mirror_gaming_platform FORTNITE true 20 in
  fortnite_records platform_mirror fortnite_data_types [] game_data.

End rest.

(** * The vocabulary of the properties *)

(** [wp m Q s]: running [m] from [s] ends, with a value or an exception, in
    an outcome and a state that satisfy [Q]. *)
Definition wp {A} (m : M A) (Q : outcome A -> State -> Prop) (s : State) : Prop :=
  Q (m s).1 (m s).2.

(** Operations on the heap alone. *)
Definition heap_only (s s' : State) : Prop :=
  trace s' = trace s /\ web s' = web s /\ gaming s' = gaming s.

(** Operations that leave both service objects as they are. *)
Definition objects_kept (s s' : State) : Prop :=
  trace s `prefix_of` trace s' /\ web s' = web s /\ gaming s' = gaming s.

(** [m] relates each state to the state it leaves, whatever the outcome. *)
Definition keeps {A} (R : State -> State -> Prop) (m : M A) : Prop :=
  forall s, wp m (fun _ s' => R s s') s.

Section vocabulary.
Context `{Collaborators}.

(** What a call of [mirror_page] that returns the record [r] has done: the
    page was stored in the DHT, the verifier was asked once and answered
    [c], the name system was asked once and answered without raising, and
    [r] was put under [url] into [mirrors]. *)
Definition mirrored (url : string) (s : State) (r : MirrorRecord) (s' : State) : Prop :=
  exists tr content metadata g c name b,
    trace s `prefix_of` tr /\
    trace s' = (tr ++ [dht_store_content content metadata])
               ++ [create_ghz_network_state (mirror_replication (web s));
                   measure_entanglement_correlation g (content_hash r);
                   register_name name (luxbin_address r) "web_mirror_gateway";
                   time_time] /\
    answer_dht_store_content (length tr) content metadata = Ok (luxbin_address r) /\
    answer_create_ghz_network_state (length tr + 1) (mirror_replication (web s)) = Ok g /\
    answer_measure_entanglement_correlation (length tr + 2) g (content_hash r) = Ok c /\
    entanglement_verified r = Qgtb c 0.7 /\
    answer_register_name (length tr + 3) name (luxbin_address r) "web_mirror_gateway"
      = Ok b /\
    http_url r = url /\
    mirror_nodes r = take (mirror_replication (web s)) (quantum_backends (web s)) /\
    web s' = set_mirrors (pydict.set url r (mirrors (web s))) (web s) /\
    gaming s' = gaming s.

(** The scores the verifier returned for the calls of [tr], the first of
    which is call number [t]: each with the content hash it was asked for. *)
Fixpoint scores_from (t : nat) (tr : list event) : list (string * Q) :=
  match tr with
  | [] => []
  | ev :: tr' =>
      match ev with
      | measure_entanglement_correlation g h =>
          match answer_measure_entanglement_correlation t g h with
          | Ok c => [(h, c)]
          | Raise _ => []
          end
      | _ => []
      end ++ scores_from (S t) tr'
  end.

Definition verifier_scores (s : State) : list (string * Q) := scores_from 0 (trace s).

(** The score of the most recent call of the verifier for [content_hash]. *)
Definition last_score (content_hash : string) (s : State) : option Q :=
  snd <$> last (filter (fun x => x.1 = content_hash) (verifier_scores s)).

End vocabulary.

(** The content hashes the verifier was asked about, and the sizes of the
    GHZ states that were requested, in the order of the calls. *)
Definition verifier_calls (tr : list event) : list string :=
  omap (fun ev => match ev with
                  | measure_entanglement_correlation _ h => Some h
                  | _ => None
                  end) tr.

Definition ghz_requests (tr : list event) : list nat :=
  omap (fun ev => match ev with
                  | create_ghz_network_state n => Some n
                  | _ => None
                  end) tr.

(** The number a wavelength stands for in a comparison. *)
Definition number_value (v : value) : Q :=
  match v with
  | VInt z => inject_Z z
  | VFloat q => q
  | VBool b => inject_Z (if b then 1 else 0)
  | _ => 0
  end.

Definition is_number (v : value) : Prop :=
  match v with
  | VInt _ | VFloat _ | VBool _ => True
  | _ => False
  end.

(** The timing an item gets, in the words of the claim: dit and 50 ms below
    500, dit-dah and 100 ms from 500 to below 600, dah and 150 ms from 600. *)
Definition morse_timing (w : Q) : string * Z :=
  if Qlt_le_dec w 500 then ("dit", 50)
  else if Qlt_le_dec w 600 then ("dit-dah", 100)
  else ("dah", 150).

(** An item's dict with the three keys of the loop. *)
Definition with_timing (w : value) (di : gmap string value) : gmap string value :=
  <["gap_ms" := VInt 30]>
    (<["duration_ms" := VInt (morse_timing (number_value w)).2]>
       (<["timing_pattern" := VStr (morse_timing (number_value w)).1]> di)).

(** The same of an object in the heap, when it is an item. *)
Definition timed (o : object) : object :=
  match o with
  | ODict di =>
      match di !! "wavelength" with
      | Some w => ODict (with_timing w di)
      | None => o
      end
  | OList _ => o
  end.

(** An item the loop can handle: a dict with a number as wavelength. *)
Definition item_ok (h : gmap loc object) (item : value) : Prop :=
  exists i di w,
    item = VRef i /\ h !! i = Some (ODict di) /\
    di !! "wavelength" = Some w /\ is_number w.

(** The number that a decimal numeral without exponent denotes: what
    [float] reads from the text when the number is a float. *)
Fixpoint digits_value (acc : Z) (s : string) : option Z :=
  match s with
  | EmptyString => Some acc
  | String c s' =>
      match Ascii.is_nat c with
      | Some d => digits_value (10 * acc + Z.of_nat d) s'
      | None => None
      end
  end.

Fixpoint split_at_point (s : string) : string * option string :=
  match s with
  | EmptyString => (EmptyString, None)
  | String c s' =>
      if Ascii.eqb c "." then (EmptyString, Some s')
      else let '(a, b) := split_at_point s' in (String c a, b)
  end.

Definition decimal_value (s : string) : option Q :=
  match split_at_point s with
  | (whole, Some fraction) =>
      match digits_value 0 (whole +:+ fraction) with
      | Some n => Some (inject_Z n / inject_Z (10 ^ Z.of_nat (String.length fraction)))%Q
      | None => None
      end
  | (_, None) => None
  end.

(** The text of a float denotes its value. *)
Definition repr_denotes (t : pyfloat) : Prop :=
  exists q, decimal_value (float_repr t) = Some q /\ (q == float_value t)%Q.

#[global] Instance Q_eq_dec : EqDecision Q.
Proof. solve_decision. Defined.

#[global] Instance value_eq_dec : EqDecision value.
Proof. solve_decision. Defined.

(** A text of lower-case hexadecimal digits. *)
Definition is_hex_digit (c : ascii) : bool :=
  bool_decide (c ∈ list_ascii_of_string "0123456789abcdef").

Fixpoint hex_text (s : string) : bool :=
  match s with
  | EmptyString => true
  | String c s' => is_hex_digit c && hex_text s'
  end.

(** The URLs that were asked of the web, in the order of the calls. *)
Definition fetched (tr : list event) : list string :=
  omap (fun ev => match ev with
                  | session_get url => Some url
                  | _ => None
                  end) tr.

(** A run from [s] to [s'] that fetched [urls], in this order. *)
Definition fetches (urls : list string) (s s' : State) : Prop :=
  exists evs, trace s' = trace s ++ evs /\ fetched evs = urls.

(** Runs that touch nothing but the log of calls. *)
Definition log_only (s s' : State) : Prop :=
  heap s' = heap s /\ web s' = web s /\ gaming s' = gaming s /\
  trace s `prefix_of` trace s'.

(** Runs that leave the gaming mirror as it is. *)
Definition gaming_kept (s s' : State) : Prop := gaming s' = gaming s.

(** What no method does: change the configuration, take a URL or a platform
    out of its registry, take a call out of the log. *)
Definition never_undone (s s' : State) : Prop :=
  quantum_backends (web s') = quantum_backends (web s) /\
  mirror_replication (web s') = mirror_replication (web s) /\
  crawl_depth_limit (web s') = crawl_depth_limit (web s) /\
  acoustic_encoding_enabled (web s') = acoustic_encoding_enabled (web s) /\
  g_quantum_backends (gaming s') = g_quantum_backends (gaming s) /\
  pydict.keys (mirrors (web s)) ⊆ pydict.keys (mirrors (web s')) /\
  pydict.keys (gaming_mirrors (gaming s)) ⊆ pydict.keys (gaming_mirrors (gaming s')) /\
  trace s `prefix_of` trace s'.

(** A property of the state that holds after a run when it held before. *)
Definition preserved (P : State -> Prop) (s s' : State) : Prop := P s -> P s'.

(** A registry of platforms as the methods leave it: one record for a
    platform, stored under its own platform, which has URLs. *)
Definition gaming_registry_ok (g : LUXBINGamingMirror) : Prop :=
  NoDup (pydict.keys (gaming_mirrors g)) /\
  forall p m,
    pydict.get p (gaming_mirrors g) = Some m ->
    platform m = p /\
    platform_name m = platform_value p /\
    platform_urls p = Some (http_urls m) /\
    wavelength m = GAMING_WAVELENGTH /\
    quantum_secured m = true /\
    gm_entanglement_verified m = true /\
    gm_mirror_nodes m = g_quantum_backends g.

(** The platforms that have URLs. *)
Definition supported_platforms : list GamingPlatform :=
  [EPIC_GAMES; FORTNITE; UNREAL_ENGINE; STEAM; XBOX; PLAYSTATION; ROBLOX; MINECRAFT;
   VRCHAT; AXIE_INFINITY; DECENTRALAND; THE_SANDBOX].

Section vocabulary_links.
Context `{Collaborators}.

(** An anchor at which the loop of [extract_links] ends with an
    exception. *)
Definition unparsable (base_url href : string) : Prop :=
  match urljoin base_url href with
  | Ok absolute_url =>
      match urlparse absolute_url, urlparse base_url with
      | Ok _, Ok _ => False
      | _, _ => True
      end
  | Raise _ => True
  end.

End vocabulary_links.

(** ** Test doubles

    Collaborators with fixed answers: every page answers with [status] and
    has its own URL as body, a page links to two pages below it, the
    verifier's score and the name system's answer are given per call, and
    the clock shows the number of calls made so far. *)
Module stub.

Definition seconds (t : nat) : pyfloat :=
  {| float_value := inject_Z (Z.of_nat t);
     float_repr := pretty (Z.of_nat t) +:+ ".0" |}.

(** A light show of one violet item. *)
Definition one_item_show (content : list Byte.byte) (h : gmap loc object)
    : outcome value * gmap loc object :=
  let i := fresh (dom h) in
  let h1 := <[i := ODict {["wavelength" := VInt 450]}]> h in
  let q := fresh (dom h1) in
  let h2 := <[q := OList [VRef i]]> h1 in
  let l := fresh (dom h2) in
  (Ok (VRef l), <[l := ODict {["light_sequence" := VRef q]}]> h2).

Definition first_element (t : nat) (s : gset string) : string :=
  default EmptyString (head (elements s)).

Lemma first_element_elem (t : nat) (s : gset string) : s ≠ ∅ -> first_element t s ∈ s.
Proof.
  intros Hne. unfold first_element.
  destruct (elements s) as [|x l] eqn:E.
  - apply elements_empty_inv in E. apply leibniz_equiv in E. contradiction.
  - simpl. apply elem_of_elements. rewrite E. left.
Qed.

Definition collaborators (status : Z) (score : nat -> outcome Q)
    (registered : nat -> outcome bool) (clock : nat -> pyfloat) : Collaborators :=
  {| answer_session_get := fun t url => Ok (status, list_byte_of_string url);
     answer_create_light_show := fun t => one_item_show;
     answer_dht_store_content := fun t content metadata =>
       Ok ("luxbin:" +:+ source_url metadata);
     answer_dht_retrieve_content := fun t address =>
       Ok (Some (list_byte_of_string (String.substring 7 (String.length address) address)));
     answer_create_ghz_network_state := fun t n => Ok t;
     answer_measure_entanglement_correlation := fun t ghz content_hash => score t;
     answer_register_name := fun t name address owner => registered t;
     answer_time_time := clock;
     urlparse := fun u => Ok ("example.com", u);
     urljoin := fun base href => Ok href;
     anchor_hrefs := fun content =>
       Ok [string_of_list_byte content +:+ "/a"; string_of_list_byte content +:+ "/b"];
     set_pop := first_element;
     set_pop_elem := first_element_elem |}.

Definition backends : list string :=
  ["ibm_fez"; "ibm_torino"; "ibm_marrakesh"; "ionq_harmony"].

(** The state after the two constructors. *)
Definition start (quantum_backends : list string) : State :=
  {| heap := ∅;
     trace := [];
     web := QuantumWebMirror_init quantum_backends;
     gaming := LUXBINGamingMirror_init quantum_backends |}.

End stub.

Definition steady (score : Q) : Collaborators :=
  stub.collaborators 200 (fun _ => Ok score) (fun _ => Ok true) stub.seconds.

(** The verifier scores 0.71 during the first eight calls and 0.69 from then
    on. *)
Definition dropping : Collaborators :=
  stub.collaborators 200 (fun t => if (t <? 8)%nat then Ok 0.71%Q else Ok 0.69%Q)
    (fun _ => Ok true) stub.seconds.

(** And the other way round. *)
Definition rising : Collaborators :=
  stub.collaborators 200 (fun t => if (t <? 8)%nat then Ok 0.69%Q else Ok 0.71%Q)
    (fun _ => Ok true) stub.seconds.

(** The name system, and the verifier, out of order. *)
Definition without_name_system : Collaborators :=
  stub.collaborators 200 (fun _ => Ok 0.71%Q)
    (fun _ => Raise (CollaboratorError "register_name")) stub.seconds.

Definition without_verifier : Collaborators :=
  stub.collaborators 200 (fun _ => Raise (CollaboratorError "measure"))
    (fun _ => Ok true) stub.seconds.

(** A light show in the heap: three items, violet, green and red, the first
    of them twice in the sequence. *)
Definition show_heap : gmap loc object :=
  <[5%positive := ODict {["light_sequence" := VRef 4%positive]}]>
    (<[4%positive := OList [VRef 1%positive; VRef 2%positive; VRef 3%positive;
                            VRef 1%positive]]>
       (<[3%positive := ODict {["wavelength" := VInt 650]}]>
          (<[2%positive := ODict {["wavelength" := VFloat 550.5]}]>
             (<[1%positive := ODict {["wavelength" := VInt 450]}]> ∅)))).

Definition show_state : State :=
  with_heap (fun _ => show_heap) (stub.start stub.backends).

Definition show_items : list value :=
  [VRef 1%positive; VRef 2%positive; VRef 3%positive; VRef 1%positive].

(** Two times of the eighth of January 2026, twenty minutes apart. *)
Definition early : pyfloat :=
  {| float_value := 14142652405 # 8; float_repr := "1767831550.625" |}.

Definition late : pyfloat :=
  {| float_value := 7071330971 # 4; float_repr := "1767832742.75" |}.

Definition at_time (t : pyfloat) : Collaborators :=
  stub.collaborators 200 (fun _ => Ok 0.71%Q) (fun _ => Ok true) (fun _ => t).

(** Every page answers 404. *)
Definition not_found : Collaborators :=
  stub.collaborators 404 (fun _ => Ok 0.71%Q) (fun _ => Ok true) stub.seconds.

(** The verifier answers with 0.69 during the first eight calls and is out
    of order from then on. *)
Definition failing_later : Collaborators :=
  stub.collaborators 200
    (fun t => if (t <? 8)%nat then Ok 0.69%Q else Raise (CollaboratorError "measure"))
    (fun _ => Ok true) stub.seconds.

(** A light show whose second item has no wavelength. *)
Definition broken_show_heap : gmap loc object :=
  <[5%positive := ODict {["light_sequence" := VRef 4%positive]}]>
    (<[4%positive := OList [VRef 1%positive; VRef 2%positive; VRef 3%positive]]>
       (<[3%positive := ODict {["wavelength" := VInt 650]}]>
          (<[2%positive := ODict {["colour" := VStr "green"]}]>
             (<[1%positive := ODict {["wavelength" := VInt 450]}]> ∅)))).

Definition broken_show_state : State :=
  with_heap (fun _ => broken_show_heap) (stub.start stub.backends).

(** * Reasoning about the monad *)

#[global] Instance heap_only_preorder : PreOrder heap_only.
Proof.
  unfold heap_only. split; [done|].
  intros s1 s2 s3 (?&?&?) (?&?&?). repeat split; congruence.
Qed.

#[global] Instance objects_kept_preorder : PreOrder objects_kept.
Proof.
  unfold objects_kept. split; [done|].
  intros s1 s2 s3 (?&?&?) (?&?&?). repeat split; [by etrans|congruence..].
Qed.

Lemma wp_run {A} (m : M A) Q s o s' : wp m Q s -> m s = (o, s') -> Q o s'.
Proof. unfold wp. intros HQ E. by rewrite E in HQ. Qed.

Lemma wp_mono {A} (m : M A) (Q Q' : outcome A -> State -> Prop) s :
  wp m Q s -> (forall o s', Q o s' -> Q' o s') -> wp m Q' s.
Proof. unfold wp. auto. Qed.

Lemma wp_ret {A} (a : A) Q s : Q (Ok a) s -> wp (ret a) Q s.
Proof. done. Qed.

Lemma wp_raise {A} e (Q : outcome A -> State -> Prop) s :
  Q (Raise e) s -> wp (raise e) Q s.
Proof. done. Qed.

Lemma wp_lift {A} (o : outcome A) Q s : Q o s -> wp (lift o) Q s.
Proof. done. Qed.

Lemma wp_gets {A} (f : State -> A) Q s : Q (Ok (f s)) s -> wp (gets f) Q s.
Proof. done. Qed.

Lemma wp_modify f Q s : Q (Ok tt) (f s) -> wp (modify f) Q s.
Proof. done. Qed.

Lemma wp_bind {A B} (m : M A) (k : A -> M B) Q s :
  wp m (fun o s' => match o with
                    | Ok a => wp (k a) Q s'
                    | Raise e => Q (Raise e) s'
                    end) s ->
  wp (bind m k) Q s.
Proof. unfold wp, bind. by destruct (m s) as [[a|e] s']. Qed.

Lemma wp_try_except {A} (m : M A) (h : exn -> M A) Q s :
  wp m (fun o s' => match o with
                    | Ok a => Q (Ok a) s'
                    | Raise e => wp (h e) Q s'
                    end) s ->
  wp (try_except m h) Q s.
Proof. unfold wp, try_except. by destruct (m s) as [[a|e] s']. Qed.

Lemma heap_only_objects_kept s s' : heap_only s s' -> objects_kept s s'.
Proof. intros (E&?&?). split; [by rewrite E|done]. Qed.

Section keeps.
Context (R : State -> State -> Prop) `{!PreOrder R}.

Lemma keeps_ret {A} (a : A) : keeps R (ret a).
Proof. intros s. by apply wp_ret. Qed.

Lemma keeps_raise {A} e : keeps R (raise (A := A) e).
Proof. intros s. by apply wp_raise. Qed.

Lemma keeps_lift {A} (o : outcome A) : keeps R (lift o).
Proof. intros s. by apply wp_lift. Qed.

Lemma keeps_gets {A} (f : State -> A) : keeps R (gets f).
Proof. intros s. by apply wp_gets. Qed.

Lemma keeps_bind {A B} (m : M A) (k : A -> M B) :
  keeps R m -> (forall a, keeps R (k a)) -> keeps R (bind m k).
Proof.
  intros Hm Hk s. apply wp_bind. eapply wp_mono; [apply Hm|].
  intros [a|e] s' Hs; simpl; [|done].
  eapply wp_mono; [apply Hk|]. intros o s'' Hs'. by etrans.
Qed.

Lemma keeps_try_except {A} (m : M A) (h : exn -> M A) :
  keeps R m -> (forall e, keeps R (h e)) -> keeps R (try_except m h).
Proof.
  intros Hm Hh s. apply wp_try_except. eapply wp_mono; [apply Hm|].
  intros [a|e] s' Hs; simpl; [done|].
  eapply wp_mono; [apply Hh|]. intros o s'' Hs'. by etrans.
Qed.

Lemma keeps_for_each {A} (l : list A) (body : A -> M unit) :
  (forall x, keeps R (body x)) -> keeps R (for_each l body).
Proof.
  intros Hb. induction l as [|x l IH]; simpl.
  - apply keeps_ret.
  - apply keeps_bind; [apply Hb | intros _; apply IH].
Qed.

Lemma keeps_if {A} (b : bool) (m1 m2 : M A) :
  keeps R m1 -> keeps R m2 -> keeps R (if b then m1 else m2).
Proof. by destruct b. Qed.

End keeps.

Create HintDb keeps.

#[global] Hint Resolve keeps_ret keeps_raise keeps_lift keeps_gets keeps_bind
  keeps_try_except keeps_for_each keeps_if : keeps.
#[global] Hint Extern 1 (PreOrder _) => exact _ : keeps.

(** * Properties *)

(** ** Ordered dicts *)

Section pydict_facts.
Context {K V : Type} `{EqDecision K}.
Implicit Types (d : list (K * V)).

Lemma pydict_get_set_eq k v d : pydict.get k (pydict.set k v d) = Some v.
Proof.
  induction d as [|[k' v'] d IH]; simpl.
  - by rewrite decide_True.
  - destruct (decide (k = k')) as [->|Hne]; simpl.
    + by rewrite decide_True.
    + by rewrite decide_False.
Qed.

Lemma pydict_get_None k d : pydict.get k d = None <-> k ∉ pydict.keys d.
Proof.
  unfold pydict.keys. induction d as [|[k' v'] d IH]; simpl.
  - split; [intros _; apply not_elem_of_nil|done].
  - rewrite not_elem_of_cons. destruct (decide (k = k')) as [->|Hne].
    + split; [done|intros [? _]; done].
    + rewrite IH. tauto.
Qed.

(** A new key adds one entry at the end; a key that is there adds none. *)
Lemma pydict_length_set k v d :
  length (pydict.set k v d)
  = match pydict.get k d with Some _ => length d | None => S (length d) end.
Proof.
  induction d as [|[k' v'] d IH]; simpl; [done|].
  destruct (decide (k = k')); simpl; [done|].
  rewrite IH. by destruct (pydict.get k d).
Qed.

Lemma pydict_length_set_le k v d : (length (pydict.set k v d) <= S (length d))%nat.
Proof. rewrite pydict_length_set. destruct (pydict.get k d); lia. Qed.

End pydict_facts.

Lemma pydict_keys_set {K V} `{EqDecision K} (k x : K) (v : V) (d : list (K * V)) :
  x ∈ pydict.keys (pydict.set k v d) <-> x = k \/ x ∈ pydict.keys d.
Proof.
  unfold pydict.keys. induction d as [|[k' v'] d IH]; simpl.
  - rewrite list_elem_of_singleton. split; [auto|]. intros [?|Hx]; [done|]. inversion Hx.
  - destruct (decide (k = k')) as [->|Hne]; simpl; rewrite !elem_of_cons.
    + tauto.
    + rewrite IH. tauto.
Qed.

(** ** Statistics *)

Lemma sum_1_if_from {A} (p : A -> bool) (ms : list A) (acc : Z) :
  fold_left (fun acc m => if p m then acc + 1 else acc) ms acc
  = acc + Z.of_nat (length (filter (fun m => p m = true) ms)).
Proof.
  revert acc. induction ms as [|m ms IH]; intros acc; simpl.
  - lia.
  - rewrite IH, filter_cons. destruct (p m) eqn:E.
    + rewrite decide_True by done. simpl. lia.
    + rewrite decide_False by congruence. lia.
Qed.

Lemma sum_1_if_count {A} (p : A -> bool) (ms : list A) :
  sum_1_if p ms = Z.of_nat (length (filter (fun m => p m = true) ms)).
Proof. unfold sum_1_if. rewrite sum_1_if_from. lia. Qed.

Lemma ratio_in_unit_interval (k n : nat) :
  (k <= n)%nat -> (0 < n)%nat ->
  (0 <= inject_Z (Z.of_nat k) / inject_Z (Z.of_nat n) <= 1)%Q.
Proof.
  intros Hkn Hn.
  assert (Hpos : (0 < inject_Z (Z.of_nat n))%Q).
  { change 0%Q with (inject_Z 0). rewrite <- Zlt_Qlt. lia. }
  split.
  - apply Qle_shift_div_l; [exact Hpos|].
    rewrite Qmult_0_l. change 0%Q with (inject_Z 0). rewrite <- Zle_Qle. lia.
  - apply Qle_shift_div_r; [exact Hpos|].
    rewrite Qmult_1_l. rewrite <- Zle_Qle. lia.
Qed.

(** C10. [get_mirror_statistics] returns on every state of the mirror.  With
    no record its [entanglement_rate] is 0, and no division takes place;
    with records it is the number of records whose [entanglement_verified]
    is true divided by the number of records, a number between 0 and 1. *)
Theorem get_mirror_statistics_rate (self : QuantumWebMirror) :
  let stats := get_mirror_statistics self in
  let n := length (mirrors self) in
  let k := length (filter (fun m => entanglement_verified m = true)
                          (pydict.values (mirrors self))) in
  total_mirrors stats = Z.of_nat n /\
  entangled_mirrors stats = Z.of_nat k /\
  entanglement_rate stats
    = (if decide (n = 0%nat) then 0
       else inject_Z (Z.of_nat k) / inject_Z (Z.of_nat n))%Q /\
  (0 <= entanglement_rate stats <= 1)%Q.
Proof.
  intros stats n k. subst stats. unfold get_mirror_statistics. simpl.
  rewrite sum_1_if_count. fold k. fold n.
  assert (Hkn : (k <= n)%nat).
  { subst k n. etransitivity; [apply length_filter|].
    unfold pydict.values. by rewrite length_fmap. }
  repeat split.
  - destruct (decide (n = 0%nat)) as [E|E].
    + rewrite E. reflexivity.
    + destruct (0 <? Z.of_nat n) eqn:L; [reflexivity|]. apply Z.ltb_ge in L. lia.
  - destruct (0 <? Z.of_nat n) eqn:L.
    + apply Z.ltb_lt in L. apply ratio_in_unit_interval; lia.
    + apply Qle_refl.
  - destruct (0 <? Z.of_nat n) eqn:L.
    + apply Z.ltb_lt in L. apply ratio_in_unit_interval; lia.
    + discriminate.
Qed.

(** ** The gaming platforms without URLs *)

Lemma platform_urls_none (p : GamingPlatform) :
  platform_urls p = None <-> p = NINTENDO \/ p = UNITY \/ p = GODS_UNCHAINED.
Proof. destruct p; simpl; split; intros Hp; try discriminate; intuition congruence. Qed.

(** C9. For a platform that has no list in [platform_urls] (these are
    NINTENDO, UNITY and GODS_UNCHAINED) [mirror_gaming_platform] raises a
    [ValueError] and leaves the whole state as it was: [gaming_mirrors] gets
    no record, no page is mirrored and no collaborator is called. *)
Theorem mirror_gaming_platform_unsupported `{Collaborators}
    (p : GamingPlatform) (include_api_data : bool) (max_pages : Z) (s : State) :
  platform_urls p = None ->
  (p = NINTENDO \/ p = UNITY \/ p = GODS_UNCHAINED) /\
  exists msg,
    mirror_gaming_platform p include_api_data max_pages s = (Raise (ValueError msg), s).
Proof.
  intros Hp. split; [by apply platform_urls_none|].
  unfold mirror_gaming_platform. rewrite Hp. simpl. eexists. reflexivity.
Qed.

Lemma mirror_gaming_platform_unsupported_witness :
  platform_urls NINTENDO = None /\
  exists msg,
    mirror_gaming_platform
      (H := steady 0.71) NINTENDO true 100 (stub.start stub.backends)
    = (Raise (ValueError msg), stub.start stub.backends).
Proof.
  split; [reflexivity|].
  apply (mirror_gaming_platform_unsupported (H := steady 0.71)
           NINTENDO true 100 (stub.start stub.backends)).
  reflexivity.
Defined.

(** The record of a platform that was mirrored. *)
Lemma mirror_gaming_platform_record `{Collaborators} p include_api_data max_pages s m s' :
  mirror_gaming_platform p include_api_data max_pages s = (Ok m, s') ->
  platform m = p /\
  platform_urls p = Some (http_urls m) /\
  gm_entanglement_verified m = true /\
  pydict.get p (gaming_mirrors (gaming s')) = Some m /\
  exists t,
    gm_luxbin_address m
    = platform_address (platform_value p) (http_urls m) (answer_time_time t).
Proof.
  unfold mirror_gaming_platform.
  destruct (platform_urls p) as [urls|] eqn:Hu; simpl; [|done].
  destruct (bool_decide (urls = [])); [done|]. unfold bind at 1.
  destruct (mirror_main_pages _ _ _) as [[pages|e] s1]; [|done].
  unfold bind, call, gets, modify, ret. simpl. intros [= <- <-]. simpl.
  repeat split; [apply pydict_get_set_eq|eauto].
Qed.

(** ** What the operations of the web mirror do to the state *)

Section specs.
Context `{Collaborators}.

Lemma wp_call {A} ev (answer : nat -> outcome A) Q s :
  Q (answer (length (trace s))) (with_trace (fun t => t ++ [ev]) s) ->
  wp (call ev answer) Q s.
Proof. done. Qed.

Lemma keeps_call {A} ev (answer : nat -> outcome A) : keeps objects_kept (call ev answer).
Proof. intros s. apply wp_call. split; [by apply prefix_app_r|done]. Qed.

Lemma keeps_alloc o : keeps heap_only (alloc o).
Proof. by intros s. Qed.

Lemma keeps_deref l : keeps heap_only (deref l).
Proof. intros s. unfold wp, deref. by destruct (heap s !! l). Qed.

#[local] Hint Resolve keeps_alloc keeps_deref : keeps.

Ltac keeps_heap :=
  repeat first
    [ solve [eauto with keeps]
    | apply keeps_bind; [exact _ | | intros ?]
    | match goal with
      | |- keeps _ (match ?x with _ => _ end) => destruct x
      | |- keeps _ (modify (with_heap _)) => by intros ?
      end ].

Lemma keeps_py_copy v : keeps heap_only (py_copy v).
Proof. unfold py_copy. keeps_heap. Qed.

Lemma keeps_getitem v k : keeps heap_only (getitem v k).
Proof. unfold getitem. keeps_heap. Qed.

Lemma keeps_setitem v k x : keeps heap_only (setitem v k x).
Proof. unfold setitem. keeps_heap. Qed.

Lemma keeps_py_get v k d : keeps heap_only (py_get v k d).
Proof. unfold py_get. keeps_heap. Qed.

Lemma keeps_py_iter v : keeps heap_only (py_iter v).
Proof. unfold py_iter. keeps_heap. Qed.

#[local] Hint Resolve keeps_py_copy keeps_getitem keeps_setitem keeps_py_get
  keeps_py_iter : keeps.

Lemma keeps_add_morse_timing item : keeps heap_only (add_morse_timing item).
Proof. unfold add_morse_timing. keeps_heap. Qed.

#[local] Hint Resolve keeps_add_morse_timing : keeps.

Lemma keeps_apply_acoustic_encoding light_show :
  keeps heap_only (apply_acoustic_encoding light_show).
Proof. unfold apply_acoustic_encoding. keeps_heap. Qed.

Lemma for_each_pass {A} (l : list A) s : for_each l (fun _ => ret tt) s = (Ok tt, s).
Proof. induction l as [|x l IH]; [done|]. simpl. unfold bind, ret at 1. exact IH. Qed.

Lemma with_trace_twice f g s : with_trace f (with_trace g s) = with_trace (fun t => f (g t)) s.
Proof. done. Qed.

(** [entangle_mirrors], call by call. *)
Lemma entangle_mirrors_run luxbin_address content_hash s :
  entangle_mirrors luxbin_address content_hash s =
  let n := mirror_replication (web s) in
  let t := length (trace s) in
  match answer_create_ghz_network_state t n with
  | Raise e => (Raise e, with_trace (fun tr => tr ++ [create_ghz_network_state n]) s)
  | Ok g =>
      let s' := with_trace (fun tr => tr ++ [create_ghz_network_state n;
                  measure_entanglement_correlation g content_hash]) s in
      match answer_measure_entanglement_correlation (S t) g content_hash with
      | Raise e => (Raise e, s')
      | Ok c => (Ok (Qgtb c 0.7), s')
      end
  end.
Proof.
  unfold entangle_mirrors, bind, gets, call. simpl.
  destruct (answer_create_ghz_network_state _ _) as [g|e]; [|done].
  rewrite length_app, Nat.add_1_r, with_trace_twice. simpl.
  assert (E : with_trace (fun t => (t ++ [create_ghz_network_state (mirror_replication (web s))])
                ++ [measure_entanglement_correlation g content_hash]) s
            = with_trace (fun tr => tr ++ [create_ghz_network_state (mirror_replication (web s));
                measure_entanglement_correlation g content_hash]) s).
  { unfold with_trace. f_equal. by rewrite <- app_assoc. }
  rewrite E.
  destruct (answer_measure_entanglement_correlation _ _ _) as [c|e]; [|done].
  by destruct (Qgtb c 0.7).
Qed.

(** [register_url_mapping], call by call. *)
Lemma register_url_mapping_run http_url luxbin_address s :
  register_url_mapping http_url luxbin_address s =
  match urlparse http_url with
  | Raise e => (Raise e, s)
  | Ok parsed =>
      let name := replace_dots parsed.1 +:+ "_" +:+
        String.substring 0 8 (hashlib.md5_hexdigest (list_byte_of_string parsed.2)) in
      let s' := with_trace (fun tr =>
        tr ++ [register_name name luxbin_address "web_mirror_gateway"]) s in
      match answer_register_name (length (trace s)) name luxbin_address
              "web_mirror_gateway" with
      | Raise e => (Raise e, s')
      | Ok _ => (Ok tt, s')
      end
  end.
Proof.
  unfold register_url_mapping, bind, lift, call.
  destruct (urlparse http_url) as [parsed|e]; [|done]. simpl.
  by destruct (answer_register_name _ _ _ _).
Qed.

End specs.

(** ** [mirror_page] *)

Section mirror_page.
Context `{Collaborators}.

Lemma kept_with_trace s s' evs :
  objects_kept s s' -> objects_kept s (with_trace (fun t => t ++ evs) s').
Proof.
  intros (Ht & Hw & Hg). split; [|done]. simpl. etrans; [exact Ht|]. by apply prefix_app_r.
Qed.

Lemma kept_with_heap s s' f : objects_kept s s' -> objects_kept s (with_heap f s').
Proof. by intros (Ht & Hw & Hg). Qed.

Ltac kept :=
  repeat first
    [ assumption | reflexivity | apply kept_with_trace | apply kept_with_heap
    | by apply heap_only_objects_kept ].

Lemma store_with_quantum_mirrors_spec content light_show url s :
  wp (store_with_quantum_mirrors content light_show url)
     (fun o s' =>
        objects_kept s s' /\
        forall a, o = Ok a ->
          exists tr md,
            trace s `prefix_of` tr /\
            trace s' = tr ++ [dht_store_content content md] /\
            answer_dht_store_content (length tr) content md = Ok a /\
            source_url md = url /\
            md_mirror_nodes md = take (mirror_replication (web s)) (quantum_backends (web s)))
     s.
Proof.
  unfold store_with_quantum_mirrors. apply wp_bind.
  eapply wp_mono; [apply keeps_py_get|].
  intros [acoustic|e] s1 (Ht & Hw & Hg); simpl.
  2: { split; [|done]. apply heap_only_objects_kept. done. }
  unfold wp, bind, gets, call, replicate_to_quantum_node. simpl.
  rewrite length_app, Nat.add_1_r.
  destruct (answer_dht_store_content _ _ _) as [a|e] eqn:Ea; simpl.
  - rewrite for_each_pass. simpl. split.
    + unfold objects_kept. simpl. rewrite Ht, <- app_assoc.
      split; [by apply prefix_app_r|done].
    + intros a' [= <-]. eexists (trace s1 ++ [time_time]), _.
      split; [rewrite Ht; by apply prefix_app_r|]. split; [done|].
      rewrite length_app, Nat.add_1_r. split; [exact Ea|]. by rewrite Hw.
  - split; [|done]. unfold objects_kept. simpl. rewrite Ht, <- app_assoc.
    split; [by apply prefix_app_r|done].
Qed.

Lemma mirror_page_spec url s :
  wp (mirror_page url)
     (fun o s' => match o with
                  | Ok (Some r) => mirrored url s r s'
                  | Ok None => objects_kept s s'
                  | Raise _ => False
                  end) s.
Proof.
  unfold mirror_page. apply wp_try_except.
  apply wp_bind, wp_call.
  destruct (answer_session_get _ _) as [resp|e]; simpl.
  2: { apply wp_ret. kept. }
  destruct (negb (resp.1 =? 200)).
  { apply wp_ret. kept. }
  apply wp_bind. unfold wp at 1, converter_create_light_show. simpl.
  destruct (answer_create_light_show _ _ _) as [[light_show|e] h']; simpl.
  2: { apply wp_ret. kept. }
  set (s2 := with_heap _ _).
  assert (K2 : objects_kept s s2) by (subst s2; kept).
  clearbody s2.
  apply wp_bind, wp_gets. apply wp_bind.
  eapply wp_mono.
  { instantiate (1 := fun _ s' => heap_only s2 s').
    destruct (acoustic_encoding_enabled (web s2));
      [apply keeps_apply_acoustic_encoding | by apply wp_ret]. }
  intros [acoustic|e] s3 K3; simpl.
  2: { apply wp_ret. etrans; [exact K2|]. kept. }
  apply heap_only_objects_kept in K3.
  assert (K3' : objects_kept s s3) by (by etrans).
  apply wp_bind. eapply wp_mono; [apply store_with_quantum_mirrors_spec|].
  intros [address|e] s4 [K4 Hstore]; simpl.
  2: { apply wp_ret. by etrans. }
  destruct (Hstore _ eq_refl) as (tr & md & Htr & Ht4 & Hans & Hurl & Hnodes).
  apply wp_bind. unfold wp at 1. rewrite entangle_mirrors_run. simpl.
  assert (K4' : objects_kept s s4) by (by etrans).
  destruct (answer_create_ghz_network_state _ _) as [g|e] eqn:Eg; simpl.
  2: { apply wp_ret. kept. }
  destruct (answer_measure_entanglement_correlation _ _ _) as [c|e] eqn:Ec; simpl.
  2: { apply wp_ret. kept. }
  apply wp_bind. unfold wp at 1. rewrite register_url_mapping_run. simpl.
  destruct (urlparse url) as [parsed|e]; simpl.
  2: { apply wp_ret. kept. }
  destruct (answer_register_name _ _ _ _) as [b|e] eqn:Eb; simpl.
  2: { apply wp_ret. kept. }
  unfold wp, bind, gets, call, modify, ret. simpl.
  destruct K4' as (_ & Hw & Hg). destruct K3' as (Ht3 & _ & _).
  eexists tr, resp.2, md, g, c, _, b. simpl.
  rewrite Ht4, !length_app, Hw in *. simpl in *.
  replace (length tr + 2)%nat with (S (length tr + 1)) by lia.
  replace (length tr + 3)%nat with (length tr + 1 + 2)%nat by lia.
  repeat split; try done.
  - by etrans.
  - by rewrite <- !app_assoc.
Qed.

Lemma mirror_page_run url s o s' :
  mirror_page url s = (o, s') ->
  match o with
  | Ok (Some r) => mirrored url s r s'
  | Ok None => objects_kept s s'
  | Raise _ => False
  end.
Proof. apply (wp_run _ _ _ _ _ (mirror_page_spec url s)). Qed.

(** The parts of [mirrored]. *)
Lemma mirrored_web url s r s' :
  mirrored url s r s' ->
  web s' = set_mirrors (pydict.set url r (mirrors (web s))) (web s) /\
  gaming s' = gaming s.
Proof. by intros (? & ? & ? & ? & ? & ? & ? & _ & _ & _ & _ & _ & _ & _ & _ & _ & ? & ?). Qed.

Lemma mirrored_record url s r s' :
  mirrored url s r s' ->
  http_url r = url /\
  mirror_nodes r = take (mirror_replication (web s)) (quantum_backends (web s)).
Proof. by intros (? & ? & ? & ? & ? & ? & ? & _ & _ & _ & _ & _ & _ & _ & ? & ? & _). Qed.

Lemma mirrored_grows url s r s' : mirrored url s r s' -> trace s `prefix_of` trace s'.
Proof.
  intros (tr & ? & ? & ? & ? & ? & ? & Hp & -> & _).
  etrans; [exact Hp|]. rewrite <- app_assoc. by apply prefix_app_r.
Qed.

Lemma mirrored_verified url s r s' :
  mirrored url s r s' ->
  exists t g c,
    (length (trace s) <= t)%nat /\
    answer_create_ghz_network_state t (mirror_replication (web s)) = Ok g /\
    trace s' !! S t = Some (measure_entanglement_correlation g (content_hash r)) /\
    answer_measure_entanglement_correlation (S t) g (content_hash r) = Ok c /\
    entanglement_verified r = Qgtb c 0.7.
Proof.
  intros (tr & ? & ? & g & c & ? & ? & Hp & -> & _ & Hg & Hc & Hv & _).
  exists (length tr + 1)%nat, g, c.
  replace (S (length tr + 1)) with (length tr + 2)%nat by lia.
  apply prefix_length in Hp. split; [lia|]. split; [done|]. split; [|done].
  rewrite lookup_app_r; rewrite length_app; simpl; [|lia].
  by replace (length tr + 2 - (length tr + 1))%nat with 1%nat by lia.
Qed.

Lemma mirrored_registered url s r s' :
  mirrored url s r s' ->
  exists t name b,
    (length (trace s) <= t)%nat /\
    trace s' !! t = Some (register_name name (luxbin_address r) "web_mirror_gateway") /\
    answer_register_name t name (luxbin_address r) "web_mirror_gateway" = Ok b.
Proof.
  intros (tr & ? & ? & ? & ? & name & b & Hp & -> & _ & _ & _ & _ & Hb & _).
  exists (length tr + 3)%nat, name, b.
  apply prefix_length in Hp. split; [lia|]. split; [|done].
  rewrite lookup_app_r; rewrite length_app; simpl; [|lia].
  by replace (length tr + 3 - (length tr + 1))%nat with 2%nat by lia.
Qed.

End mirror_page.

(** ** The verifier's scores *)

Section scores.
Context `{Collaborators}.

Lemma scores_from_app t tr1 tr2 :
  scores_from t (tr1 ++ tr2) = scores_from t tr1 ++ scores_from (t + length tr1) tr2.
Proof.
  revert t. induction tr1 as [|ev tr1 IH]; intros t; simpl.
  - by rewrite Nat.add_0_r.
  - rewrite IH, <- app_assoc. do 3 f_equal. lia.
Qed.

Lemma Qgtb_true c x : Qgtb c x = true <-> (x < c)%Q.
Proof.
  unfold Qgtb. rewrite negb_true_iff, <- not_true_iff_false, Qle_bool_iff.
  split; [apply Qnot_le_lt | apply Qlt_not_le].
Qed.

(** After a call of [mirror_page] that returned a record, the last score of
    the record's content hash is the one this call was given. *)
Lemma mirrored_last_score url s r s' :
  mirrored url s r s' ->
  exists c, last_score (content_hash r) s' = Some c /\
            entanglement_verified r = Qgtb c 0.7.
Proof.
  intros (tr & content & md & g & c & name & b & _ & Ht & _ & _ & Hc & Hv & _).
  exists c. split; [|exact Hv].
  unfold last_score, verifier_scores. rewrite Ht, scores_from_app. simpl.
  rewrite length_app. simpl.
  replace (S (length tr + 1))%nat with (length tr + 2)%nat by lia.
  rewrite Hc. simpl. rewrite filter_app, filter_cons, decide_True by done.
  rewrite filter_nil. by rewrite last_snoc.
Qed.

End scores.

(** ** The claims about [mirror_page] *)

Section mirror_page_claims.
Context `{Collaborators}.

(** C1 (as amended).  Immediately after [mirror_page] has returned a record,
    the record, which is the one stored under the URL, has
    [entanglement_verified] true if and only if the score of the most recent
    call of the verifier for its content hash, the call made by this
    [mirror_page], is above 0.7.  The record of a gaming platform is created
    with [entanglement_verified] true, whatever the verifier has said. *)
Theorem mirror_page_state_follows_score :
  (forall url s r s',
     mirror_page url s = (Ok (Some r), s') ->
     pydict.get url (mirrors (web s')) = Some r /\
     exists c, last_score (content_hash r) s' = Some c /\
               (entanglement_verified r = true <-> (0.7 < c)%Q)) /\
  (forall p include_api_data max_pages s m s',
     mirror_gaming_platform p include_api_data max_pages s = (Ok m, s') ->
     gm_entanglement_verified m = true).
Proof.
  split.
  - intros url s r s' E. apply mirror_page_run in E. split.
    + destruct (mirrored_web _ _ _ _ E) as [Hw _]. rewrite Hw. simpl.
      apply pydict_get_set_eq.
    + destruct (mirrored_last_score _ _ _ _ E) as (c & Hc & Hv).
      exists c. split; [exact Hc|]. rewrite Hv. apply Qgtb_true.
  - intros p include_api_data max_pages s m s' E.
    by destruct (mirror_gaming_platform_record _ _ _ _ _ _ E) as (_ & _ & ? & _).
Qed.

(** C3 (as amended).  The record that [mirror_page] returns has as
    [mirror_nodes] the first [mirror_replication] configured backends: as
    many as the replication factor when that many are configured, and all of
    them when there are fewer. *)
Theorem mirror_page_replica_set url s r s' :
  mirror_page url s = (Ok (Some r), s') ->
  mirror_nodes r = take (mirror_replication (web s)) (quantum_backends (web s)) /\
  length (mirror_nodes r)
  = (mirror_replication (web s) `min` length (quantum_backends (web s)))%nat.
Proof.
  intros E. apply mirror_page_run in E.
  destruct (mirrored_record _ _ _ _ E) as [_ Hn].
  split; [exact Hn|]. rewrite Hn. apply length_take.
Qed.

End mirror_page_claims.

Lemma mirror_page_state_follows_score_witness :
  (exists r s',
     mirror_page (H := steady 0.71) "https://example.com" (stub.start stub.backends)
       = (Ok (Some r), s') /\
     pydict.get "https://example.com" (mirrors (web s')) = Some r /\
     exists c, last_score (H := steady 0.71) (content_hash r) s' = Some c /\
               (entanglement_verified r = true <-> (0.7 < c)%Q)) /\
  (exists m s',
     mirror_gaming_platform (H := steady 0.69) EPIC_GAMES true 100
       (stub.start stub.backends) = (Ok m, s') /\
     gm_entanglement_verified m = true).
Proof.
  split.
  - eexists _, _.
    refine ((fun E => conj E
              (proj1 (mirror_page_state_follows_score (H := steady 0.71)) _ _ _ _ E)) _).
    vm_compute. reflexivity.
  - eexists _, _.
    refine ((fun E => conj E
              (proj2 (mirror_page_state_follows_score (H := steady 0.69)) _ _ _ _ _ _ E)) _).
    vm_compute. reflexivity.
Defined.

Lemma mirror_page_replica_set_witness :
  exists r s',
    mirror_page (H := steady 0.71) "https://example.com" (stub.start stub.backends)
      = (Ok (Some r), s') /\
    mirror_nodes r = take (mirror_replication (web (stub.start stub.backends)))
                          (quantum_backends (web (stub.start stub.backends))) /\
    length (mirror_nodes r)
    = (mirror_replication (web (stub.start stub.backends))
       `min` length (quantum_backends (web (stub.start stub.backends))))%nat.
Proof.
  eexists _, _.
  refine ((fun E => conj E (mirror_page_replica_set (H := steady 0.71) _ _ _ _ E)) _).
  vm_compute. reflexivity.
Defined.

(** C3 as stated fails: with two backends configured the record of a
    successful [mirror_page] has two mirror nodes, and the replication
    factor is 4. *)
Lemma two_backends_two_mirror_nodes :
  exists r s',
    mirror_page (H := steady 0.71) "https://example.com"
      (stub.start ["ibm_fez"; "ibm_torino"]) = (Ok (Some r), s') /\
    length (mirror_nodes r) = 2%nat /\
    mirror_replication (web s') = 4%nat.
Proof. eexists _, _. vm_compute. repeat split. Qed.

(** C1 as stated fails.  After a resync tick: a record mirrored with score
    0.69 is re-verified by the tick with score 0.71 and stays unverified.
    For a gaming record: it is created verified while every score that the
    verifier returned is 0.69. *)
Lemma state_not_tied_to_last_score :
  (let s1 := (mirror_page (H := rising) "https://example.com"
                (stub.start stub.backends)).2 in
   let s2 := (sync_mirrors (H := rising) s1).2 in
   exists r c,
     pydict.get "https://example.com" (mirrors (web s2)) = Some r /\
     last_score (H := rising) (content_hash r) s2 = Some c /\
     (0.7 < c)%Q /\ entanglement_verified r = false) /\
  (let run := mirror_gaming_platform (H := steady 0.69) EPIC_GAMES true 100
                (stub.start stub.backends) in
   exists m,
     run.1 = Ok m /\ gm_entanglement_verified m = true /\
     verifier_scores (H := steady 0.69) run.2 <> [] /\
     Forall (fun x => ~ (0.7 < x.2)%Q) (verifier_scores (H := steady 0.69) run.2)).
Proof.
  split.
  - vm_compute. eexists _, _. repeat split.
  - vm_compute. eexists. repeat split; [discriminate|].
    repeat constructor; discriminate.
Qed.

(** ** The resync tick *)

Section sync_mirrors_claims.
Context `{Collaborators}.

Lemma re_entangle_all (ms : list (string * MirrorRecord)) s s' :
  for_each ms re_entangle s = (Ok tt, s') ->
  let pending := filter (fun m => entanglement_verified m = false) (pydict.values ms) in
  exists evs,
    trace s' = trace s ++ evs /\
    verifier_calls evs = content_hash <$> pending /\
    ghz_requests evs = replicate (length pending) (mirror_replication (web s)) /\
    heap s' = heap s /\ web s' = web s /\ gaming s' = gaming s.
Proof.
  revert s. induction ms as [|[url m] ms IH]; intros s; simpl.
  - intros [= <-]. exists []. by rewrite app_nil_r.
  - unfold bind at 1. rewrite filter_cons.
    destruct (decide (entanglement_verified m = false)) as [Ev|Ev].
    + rewrite Ev. simpl. unfold bind at 1.
      rewrite entangle_mirrors_run. simpl.
      destruct (answer_create_ghz_network_state _ _) as [g|e]; [|done].
      destruct (answer_measure_entanglement_correlation _ _ _) as [c|e]; [|done].
      simpl. intros E. destruct (IH _ E) as (evs & Ht & Hv & Hg & Hh & Hw & Hgm).
      simpl in *. eexists (_ :: _ :: evs). rewrite Ht, <- app_assoc. split; [done|].
      simpl. by rewrite Hv, Hg.
    + apply not_false_is_true in Ev. rewrite Ev. simpl. apply IH.
Qed.

Lemma keeps_sync_mirrors : keeps objects_kept sync_mirrors.
Proof.
  unfold sync_mirrors. apply keeps_bind; [exact _|apply keeps_gets; exact _|].
  intros self. apply keeps_for_each; [exact _|]. intros [url m]. simpl.
  apply keeps_if; [|apply keeps_ret; exact _].
  apply keeps_bind; [exact _| |intros; apply keeps_ret; exact _].
  intros s. unfold wp. rewrite entangle_mirrors_run. simpl.
  destruct (answer_create_ghz_network_state _ _) as [g|e]; simpl.
  - destruct (answer_measure_entanglement_correlation _ _ _); simpl;
      (split; [by apply prefix_app_r|done]).
  - split; [by apply prefix_app_r|done].
Qed.

(** C2 (as amended).  On every resync tick the records whose
    [entanglement_verified] is true are not re-verified and are the same
    after the tick, so a tick turns no verified record into an unverified
    one.  A tick that comes to its end has walked the records in the order
    of the store and, for each record whose [entanglement_verified] is
    false, has called the verifier once, with the record's stored content
    hash and a GHZ state of the configured replication factor. *)
Theorem sync_mirrors_reverifies_unverified s o s' :
  sync_mirrors s = (o, s') ->
  (forall url r,
     pydict.get url (mirrors (web s)) = Some r -> entanglement_verified r = true ->
     pydict.get url (mirrors (web s')) = Some r) /\
  (o = Ok tt ->
   let pending := filter (fun m => entanglement_verified m = false)
                         (pydict.values (mirrors (web s))) in
   exists evs,
     trace s' = trace s ++ evs /\
     verifier_calls evs = content_hash <$> pending /\
     ghz_requests evs = replicate (length pending) (mirror_replication (web s))).
Proof.
  intros E. split.
  - intros url r Hr _. destruct (wp_run _ _ _ _ _ (keeps_sync_mirrors s) E) as (_ & Hw & _).
    by rewrite Hw.
  - intros ->. unfold sync_mirrors, bind, gets in E. simpl in E.
    destruct (re_entangle_all _ _ _ E) as (evs & Ht & Hv & Hg & _).
    by exists evs.
Qed.

End sync_mirrors_claims.

Lemma sync_mirrors_reverifies_unverified_witness :
  let s := (mirror_page (H := steady 0.69) "https://example.com"
              (stub.start stub.backends)).2 in
  exists s',
    sync_mirrors (H := steady 0.69) s = (Ok tt, s') /\
    (forall url r,
       pydict.get url (mirrors (web s)) = Some r -> entanglement_verified r = true ->
       pydict.get url (mirrors (web s')) = Some r) /\
    (let pending := filter (fun m => entanglement_verified m = false)
                           (pydict.values (mirrors (web s))) in
     exists evs,
       trace s' = trace s ++ evs /\
       verifier_calls evs = content_hash <$> pending /\
       ghz_requests evs = replicate (length pending) (mirror_replication (web s))).
Proof.
  intros s. eexists.
  refine ((fun E =>
             let T := sync_mirrors_reverifies_unverified (H := steady 0.69) _ _ _ E in
             conj E (conj (proj1 T) (proj2 T eq_refl))) _).
  vm_compute. reflexivity.
Defined.

(** C2 as stated fails.  A record is mirrored and verified with score 0.71;
    from then on the verifier would score 0.69; after two ticks the record
    is the same, still verified, and the verifier has not been called.  And
    a record that was mirrored with score 0.69 is re-verified by a tick with
    score 0.71 and is the same after it, with the state and the time it
    had. *)
Lemma tick_leaves_records_as_they_are :
  (let s1 := (mirror_page (H := dropping) "https://example.com"
                (stub.start stub.backends)).2 in
   let s2 := (sync_mirrors (H := dropping) s1).2 in
   let s3 := (sync_mirrors (H := dropping) s2).2 in
   exists r,
     pydict.get "https://example.com" (mirrors (web s1)) = Some r /\
     entanglement_verified r = true /\
     answer_measure_entanglement_correlation (Collaborators := dropping)
       (length (trace s1)) 4%nat (content_hash r) = Ok 0.69%Q /\
     pydict.get "https://example.com" (mirrors (web s3)) = Some r /\
     trace s3 = trace s1) /\
  (let s1 := (mirror_page (H := rising) "https://example.com"
                (stub.start stub.backends)).2 in
   let s2 := (sync_mirrors (H := rising) s1).2 in
   exists r,
     pydict.get "https://example.com" (mirrors (web s1)) = Some r /\
     entanglement_verified r = false /\
     verifier_calls (drop (length (trace s1)) (trace s2)) = [content_hash r] /\
     last_score (H := rising) (content_hash r) s2 = Some 0.71%Q /\
     pydict.get "https://example.com" (mirrors (web s2)) = Some r).
Proof.
  split.
  - vm_compute. eexists. repeat split.
  - vm_compute. eexists. repeat split.
Qed.

(** ** The crawl *)

Section crawl_facts.
Context `{Collaborators}.

Lemma keeps_extract_links base_url r : keeps objects_kept (extract_links base_url r).
Proof.
  unfold extract_links. apply keeps_try_except; [exact _| |intros; apply keeps_ret; exact _].
  apply keeps_bind; [exact _|apply keeps_call|].
  intros [[|b content]|]; try (apply keeps_ret; exact _).
  destruct (anchor_hrefs _); apply keeps_ret; exact _.
Qed.

Lemma extract_links_returns base_url r s :
  exists links s', extract_links base_url r s = (Ok links, s').
Proof.
  unfold extract_links, try_except, bind, call.
  destruct (answer_dht_retrieve_content _ _) as [[[|b content]|]|e]; simpl; eauto.
  destruct (anchor_hrefs _); simpl; eauto.
Qed.

(** One iteration of the loop, entered with a queue that is not empty: it
    takes a URL out of the queue and marks it visited; either the pages stay
    as they are, or the URL was new, [mirror_page] returned a record for it
    and the record is put under the URL. *)
Lemma crawl_iteration_spec recursive max_pages pages s :
  crawl_queue (web s) ≠ ∅ ->
  wp (crawl_iteration recursive max_pages pages)
     (fun o s' =>
        exists pages' u,
          o = Ok pages' /\ u ∈ crawl_queue (web s) /\
          visited_urls (web s') = visited_urls (web s) ∪ {[u]} /\
          ((pages' = pages /\ crawl_queue (web s') = crawl_queue (web s) ∖ {[u]})
           \/ ((u ∉ visited_urls (web s)) /\
               exists r s0 s1, trace s0 = trace s /\
                               mirror_page u s0 = (Ok (Some r), s1) /\
                               pages' = pydict.set u r pages)))
     s.
Proof.
  intros Hq. unfold crawl_iteration. apply wp_bind.
  unfold wp at 1, crawl_queue_pop. rewrite decide_False by done. simpl.
  set (u := set_pop _ _). assert (Hu : u ∈ crawl_queue (web s)) by (by apply set_pop_elem).
  clearbody u. apply wp_bind, wp_gets. simpl.
  destruct (bool_decide (u ∈ visited_urls (web s))) eqn:Hv.
  { apply bool_decide_eq_true in Hv. apply wp_ret. exists pages, u. simpl.
    repeat split; [done| |by left].
    symmetry. rewrite (comm_L (∪)). apply subseteq_union_1_L.
    by apply singleton_subseteq_l. }
  apply bool_decide_eq_false in Hv.
  apply wp_bind, wp_modify. simpl. apply wp_bind.
  set (s2 := with_web _ _).
  destruct (mirror_page u s2) as [o s3] eqn:E.
  unfold wp at 1. rewrite E. simpl.
  pose proof (mirror_page_run _ _ _ _ E) as HE.
  destruct o as [[r|]|e]; [| |done].
  - destruct (mirrored_web _ _ _ _ HE) as [Hw _].
    assert (Hnew : exists r0 s0 s1, trace s0 = trace s /\
                     mirror_page u s0 = (Ok (Some r0), s1) /\
                     pydict.set u r pages = pydict.set u r0 pages)
      by (by exists r, s2, s3).
    apply wp_bind.
    destruct (recursive && _).
    + destruct (extract_links_returns u r s3) as (links & s4 & El).
      pose proof (wp_run _ _ _ _ _ (keeps_extract_links u r s3) El) as (_ & Hw4 & _).
      unfold wp, bind, modify, ret. rewrite El. simpl.
      exists (pydict.set u r pages), u. rewrite Hw4, Hw. simpl.
      repeat split; [done|]. by right.
    + apply wp_ret, wp_ret. exists (pydict.set u r pages), u. rewrite Hw. simpl.
      repeat split; [done|]. by right.
  - destruct HE as (_ & Hw & _). apply wp_ret.
    exists pages, u. rewrite Hw. simpl. repeat split; [done|]. by left.
Qed.

(** The loop never returns more pages than [max_pages], unless it was
    entered with more. *)
Lemma crawl_bound fuel recursive max_pages : forall pages s,
  wp (crawl fuel recursive max_pages pages)
     (fun o s' => forall result, o = Ok (Some result) ->
        Z.of_nat (length result) <= Z.max max_pages (Z.of_nat (length pages))) s.
Proof.
  induction fuel as [|fuel IH]; intros pages s; simpl.
  - by apply wp_ret.
  - apply wp_bind, wp_gets. simpl.
    destruct (bool_decide (crawl_queue (web s) ≠ ∅)) eqn:Hq; simpl.
    2: { apply wp_ret. intros result [= <-]. lia. }
    destruct (Z.of_nat (length pages) <? max_pages) eqn:Hn.
    2: { apply wp_ret. intros result [= <-]. lia. }
    apply bool_decide_eq_true in Hq. apply Z.ltb_lt in Hn.
    apply wp_bind. eapply wp_mono; [by apply crawl_iteration_spec|].
    intros o s' (pages' & u & -> & _ & _ & Hp). simpl.
    eapply wp_mono; [apply IH|]. intros o s'' Hr result ->.
    specialize (Hr _ eq_refl).
    assert (length pages' <= S (length pages))%nat.
    { destruct Hp as [[-> _]|(_ & r & s0 & s1 & _ & _ & ->)]; [lia|].
      apply pydict_length_set_le. }
    lia.
Qed.

End crawl_facts.

Lemma size_non_empty (X : gset string) : X ≠ ∅ -> size X ≠ 0%nat.
Proof. intros Hne. apply size_non_empty_iff. intros E. by apply Hne, leibniz_equiv. Qed.

Section crawl_termination.
Context `{Collaborators}.

Lemma crawl_stop recursive max_pages pages s :
  bool_decide (crawl_queue (web s) ≠ ∅) && (Z.of_nat (length pages) <? max_pages) = false ->
  crawl 1 recursive max_pages pages s = (Ok (Some pages), s).
Proof. intros G. simpl. unfold bind, gets. by rewrite G. Qed.

Lemma crawl_step fuel recursive max_pages pages s pages' s' :
  bool_decide (crawl_queue (web s) ≠ ∅) && (Z.of_nat (length pages) <? max_pages) = true ->
  crawl_iteration recursive max_pages pages s = (Ok pages', s') ->
  crawl (S fuel) recursive max_pages pages s = crawl fuel recursive max_pages pages' s'.
Proof. intros G E. simpl. unfold bind at 1, gets. rewrite G. unfold bind. by rewrite E. Qed.

(** The loop ends: every iteration either adds a page, of which there are
    at most [max_pages], or takes a URL out of the queue for good.  The
    pages are always among the visited URLs, so that a page that is added
    is new. *)
Lemma crawl_terminates recursive max_pages : forall k q pages s,
  (Z.to_nat (max_pages - Z.of_nat (length pages)) <= k)%nat ->
  (size (crawl_queue (web s)) <= q)%nat ->
  (forall x, x ∈ pydict.keys pages -> x ∈ visited_urls (web s)) ->
  exists fuel result s', crawl fuel recursive max_pages pages s = (Ok (Some result), s').
Proof.
  induction k as [|k IHk]; intros q; induction q as [|q IHq]; intros pages s Hk Hq Hinv;
    destruct (bool_decide (crawl_queue (web s) ≠ ∅)
              && (Z.of_nat (length pages) <? max_pages)) eqn:G;
    try (exists 1%nat, pages, s; by apply crawl_stop);
    apply andb_prop in G as [Gq Gn];
    apply bool_decide_eq_true in Gq; apply Z.ltb_lt in Gn;
    try lia;
    try (apply size_non_empty in Gq; lia).
  assert (G : bool_decide (crawl_queue (web s) ≠ ∅)
              && (Z.of_nat (length pages) <? max_pages) = true).
  { apply andb_true_intro. split; [by apply bool_decide_eq_true|by apply Z.ltb_lt]. }
  destruct (crawl_iteration recursive max_pages pages s) as [o s'] eqn:E.
  destruct (wp_run _ _ _ _ _ (crawl_iteration_spec recursive max_pages pages s Gq) E)
    as (pages' & u & -> & Hu & Hv & Hp).
  destruct Hp as [[-> Hq']|(Hnew & r & s0 & s1 & _ & _ & ->)].
  - destruct (IHq pages s') as (fuel & result & s'' & Hr).
    + exact Hk.
    + rewrite Hq', size_difference by (by apply singleton_subseteq_l).
      rewrite size_singleton. apply size_non_empty in Gq. lia.
    + intros x Hx. rewrite Hv. apply elem_of_union_l. by apply Hinv.
    + exists (S fuel), result, s''. by rewrite (crawl_step _ _ _ _ _ _ _ G E).
  - assert (Hlen : length (pydict.set u r pages) = S (length pages)).
    { rewrite pydict_length_set.
      destruct (pydict.get u pages) eqn:Hget; [|done].
      exfalso. apply Hnew, Hinv.
      destruct (decide (u ∈ pydict.keys pages)) as [|Hn]; [done|].
      apply pydict_get_None in Hn. congruence. }
    destruct (IHk (size (crawl_queue (web s'))) (pydict.set u r pages) s')
      as (fuel & result & s'' & Hr).
    + rewrite Hlen. lia.
    + done.
    + intros x Hx. rewrite Hv. apply pydict_keys_set in Hx as [->|Hx].
      * apply elem_of_union_r. by apply elem_of_singleton.
      * apply elem_of_union_l. by apply Hinv.
    + exists (S fuel), result, s''. by rewrite (crawl_step _ _ _ _ _ _ _ G E).
Qed.

(** C6.  For every root URL, every [recursive] and every [max_pages] that is
    not negative: whatever the fuel, a mapping that [mirror_website] returns
    holds at most [max_pages] records; and there is fuel with which the call
    does come to its end, with a mapping or, when the closing message cannot
    parse the root URL, with the [ValueError] of [urlparse]. *)
Theorem mirror_website_at_most_max_pages url recursive max_pages s :
  0 <= max_pages ->
  (forall fuel pages s',
     mirror_website fuel url recursive max_pages s = (Ok (Some pages), s') ->
     Z.of_nat (length pages) <= max_pages) /\
  (exists fuel s',
     (exists pages,
        mirror_website fuel url recursive max_pages s = (Ok (Some pages), s')) \/
     (exists e,
        mirror_website fuel url recursive max_pages s = (Raise e, s') /\
        urlparse url = Raise e)).
Proof.
  intros Hn. split.
  - intros fuel pages s'. unfold mirror_website, bind at 1, modify.
    unfold bind. set (s0 := with_web _ s).
    destruct (crawl fuel recursive max_pages [] s0) as [o s1] eqn:E.
    pose proof (wp_run _ _ _ _ _ (crawl_bound fuel recursive max_pages [] s0) E) as Hb.
    destruct o as [[result|]|e]; [|done..].
    unfold lift. destruct (urlparse url); [|done].
    intros [= <- <-]. specialize (Hb _ eq_refl). simpl in Hb. lia.
  - set (s0 := with_web (fun w => set_visited_urls ∅ (set_crawl_queue {[url]} w)) s).
    destruct (crawl_terminates recursive max_pages
                (Z.to_nat max_pages) (size (crawl_queue (web s0))) [] s0)
      as (fuel & result & s' & Hr).
    + simpl. lia.
    + done.
    + intros x Hx. inversion Hx.
    + exists fuel, s'. unfold mirror_website, bind at 1, modify. unfold bind.
      fold s0. rewrite Hr. unfold lift.
      destruct (urlparse url) as [p|e]; [left|right]; eauto.
Qed.

End crawl_termination.

Lemma mirror_website_at_most_max_pages_witness :
  0 <= 10 /\
  (forall fuel pages s',
     mirror_website (H := steady 0.71) fuel "https://example.com" true 10
       (stub.start stub.backends) = (Ok (Some pages), s') ->
     Z.of_nat (length pages) <= 10) /\
  (exists fuel s',
     (exists pages,
        mirror_website (H := steady 0.71) fuel "https://example.com" true 10
          (stub.start stub.backends) = (Ok (Some pages), s')) \/
     (exists e,
        mirror_website (H := steady 0.71) fuel "https://example.com" true 10
          (stub.start stub.backends) = (Raise e, s') /\
        urlparse (Collaborators := steady 0.71) "https://example.com" = Raise e)).
Proof.
  split; [lia|].
  apply (mirror_website_at_most_max_pages (H := steady 0.71)
           "https://example.com" true 10 (stub.start stub.backends)).
  lia.
Defined.

(** The crawl of the spec's test: every page links to two more, and the
    crawl with [max_pages = 10] returns ten records. *)
Example mirror_website_ten_of_many :
  exists pages s',
    mirror_website (H := steady 0.71) 20 "https://example.com" true 10
      (stub.start stub.backends) = (Ok (Some pages), s') /\
    length pages = 10%nat.
Proof. eexists _, _. split; [vm_compute; reflexivity|reflexivity]. Qed.

(** ** Failures of the name system and of the verifier *)

Section failures.
Context `{Collaborators}.

(** [mirror_page] returns, with a record or with [None]; it raises
    nothing, takes no call back, and stores a record only when it returns
    one. *)
Lemma mirror_page_returns url s :
  exists result s',
    mirror_page url s = (Ok result, s') /\
    trace s `prefix_of` trace s' /\ gaming s' = gaming s /\
    match result with
    | Some r => mirrored url s r s'
    | None => web s' = web s
    end.
Proof.
  destruct (mirror_page url s) as [o s'] eqn:E.
  pose proof (mirror_page_run _ _ _ _ E) as HE.
  destruct o as [[r|]|e]; [| |done].
  - exists (Some r), s'. split; [done|].
    split; [by eapply mirrored_grows|]. split; [|done].
    by destruct (mirrored_web _ _ _ _ HE).
  - exists None, s'. by destruct HE as (? & ? & ?).
Qed.

Lemma mirror_website_run fuel url recursive max_pages s :
  mirror_website fuel url recursive max_pages s =
  match crawl fuel recursive max_pages []
          (with_web (fun w => set_visited_urls ∅ (set_crawl_queue {[url]} w)) s) with
  | (Ok (Some pages), s') =>
      match urlparse url with
      | Ok _ => (Ok (Some pages), s')
      | Raise e => (Raise e, s')
      end
  | (Ok None, s') => (Ok None, s')
  | (Raise e, s') => (Raise e, s')
  end.
Proof.
  unfold mirror_website, bind, modify, lift. simpl.
  destruct (crawl _ _ _ _ _) as [[[pages|]|e] s']; [|done..].
  by destruct (urlparse url).
Qed.

(** A crawl in which [mirror_page] returns no record for the root URL comes
    to its end after one iteration, with no page. *)
Lemma crawl_of_lost_root url recursive max_pages s :
  (forall s0 r s1, trace s0 = trace s -> mirror_page url s0 <> (Ok (Some r), s1)) ->
  exists s',
    mirror_website 2 url recursive max_pages s = (Ok (Some []), s') \/
    exists e, mirror_website 2 url recursive max_pages s = (Raise e, s') /\
              urlparse url = Raise e.
Proof.
  intros Hnone. rewrite mirror_website_run. set (s0 := with_web _ s).
  assert (Hc : exists s', crawl 2 recursive max_pages [] s0 = (Ok (Some []), s')).
  { destruct (bool_decide (crawl_queue (web s0) ≠ ∅)
              && (Z.of_nat (length (@nil (string * MirrorRecord))) <? max_pages)) eqn:G.
    2: { exists s0. change (crawl 2 recursive max_pages [] s0)
           with (bind (gets web) (fun self =>
                   if bool_decide (crawl_queue self ≠ ∅)
                      && (Z.of_nat (length (@nil (string * MirrorRecord))) <? max_pages)
                   then let! p := crawl_iteration recursive max_pages [] in
                        crawl 1 recursive max_pages p
                   else ret (Some [])) s0).
         unfold bind, gets. by rewrite G. }
    destruct (crawl_iteration recursive max_pages [] s0) as [o s1] eqn:E.
    assert (Gq : crawl_queue (web s0) ≠ ∅).
    { apply andb_prop in G as [Gq _]. by apply bool_decide_eq_true in Gq. }
    destruct (wp_run _ _ _ _ _ (crawl_iteration_spec recursive max_pages [] s0 Gq) E)
      as (pages' & u & -> & Hu & _ & Hp).
    subst s0. simpl in Hu. apply elem_of_singleton in Hu as ->.
    destruct Hp as [[-> Hq]|(_ & r & s2 & s3 & Ht & Hr & _)]; [|by apply Hnone in Hr].
    exists s1. rewrite (crawl_step _ _ _ _ _ _ _ G E). apply crawl_stop.
    apply andb_false_intro1, bool_decide_eq_false. intros Hne. apply Hne.
    rewrite Hq. simpl. apply leibniz_equiv. apply difference_diag. }
  destruct Hc as (s' & Hc). exists s'. rewrite Hc.
  destruct (urlparse url) as [p|e]; [left|right]; eauto.
Qed.

(** C4 (as amended).  When the name system raises on registration, from the
    time of the call on, [mirror_page] catches the exception: it returns
    [None] and stores no record, so the mirror does not count as successful;
    the calls made before, the DHT store among them, stay made.  A record
    is returned only when [register_name] has returned, whatever it
    returned, and then it is the one stored under the URL. *)
Theorem mirror_page_registration_failure url s :
  ((forall t name address owner,
      (length (trace s) <= t)%nat ->
      exists e, answer_register_name t name address owner = Raise e) ->
   exists s',
     mirror_page url s = (Ok None, s') /\ web s' = web s /\ gaming s' = gaming s /\
     trace s `prefix_of` trace s') /\
  (forall r s',
     mirror_page url s = (Ok (Some r), s') ->
     pydict.get url (mirrors (web s')) = Some r /\
     exists t name b,
       trace s' !! t = Some (register_name name (luxbin_address r) "web_mirror_gateway") /\
       answer_register_name t name (luxbin_address r) "web_mirror_gateway" = Ok b).
Proof.
  split.
  - intros Hfail. destruct (mirror_page_returns url s) as ([r|] & s' & E & Hp & Hg & Hr).
    + destruct (mirrored_registered _ _ _ _ Hr) as (t & name & b & Ht & _ & Hb).
      destruct (Hfail t name (luxbin_address r) "web_mirror_gateway" Ht) as [e He].
      congruence.
    + by exists s'.
  - intros r s' E. apply mirror_page_run in E. split.
    + destruct (mirrored_web _ _ _ _ E) as [Hw _]. rewrite Hw. simpl.
      apply pydict_get_set_eq.
    + destruct (mirrored_registered _ _ _ _ E) as (t & name & b & _ & Ht & Hb). eauto.
Qed.

(** C5 (as amended).  When the verifier raises, from the time of the call
    on, [mirror_page] catches the exception: it returns [None] and stores
    no record, verified or not.  The crawl of that URL goes on and comes to
    its end without the resource in its result. *)
Theorem mirror_page_verifier_failure url s :
  (forall t n, (length (trace s) <= t)%nat ->
     exists e, answer_create_ghz_network_state t n = Raise e) \/
  (forall t g h, (length (trace s) <= t)%nat ->
     exists e, answer_measure_entanglement_correlation t g h = Raise e) ->
  (exists s',
     mirror_page url s = (Ok None, s') /\ web s' = web s /\ gaming s' = gaming s /\
     trace s `prefix_of` trace s') /\
  (forall recursive max_pages,
     exists s',
       mirror_website 2 url recursive max_pages s = (Ok (Some []), s') \/
       exists e, mirror_website 2 url recursive max_pages s = (Raise e, s') /\
                 urlparse url = Raise e).
Proof.
  intros Hfail.
  assert (Hnone : forall s0 r s1,
            trace s0 = trace s -> mirror_page url s0 <> (Ok (Some r), s1)).
  { intros s0 r s1 Ht0 E. apply mirror_page_run in E.
    destruct (mirrored_verified _ _ _ _ E) as (t & g & c & Ht & Hg & _ & Hc & _).
    rewrite Ht0 in Ht. destruct Hfail as [Hfail|Hfail].
    - destruct (Hfail t (mirror_replication (web s0)) Ht) as [e He]. congruence.
    - destruct (Hfail (S t) g (content_hash r)) as [e He]; [lia|congruence]. }
  split.
  - destruct (mirror_page_returns url s) as ([r|] & s' & E & Hp & Hg & Hr).
    + by apply Hnone in E.
    + by exists s'.
  - intros recursive max_pages. by apply crawl_of_lost_root.
Qed.

End failures.

Lemma mirror_page_registration_failure_witness :
  ((forall t name address owner,
      (length (trace (stub.start stub.backends)) <= t)%nat ->
      exists e, answer_register_name (Collaborators := without_name_system)
                  t name address owner = Raise e) /\
   exists s',
     mirror_page (H := without_name_system) "https://example.com"
       (stub.start stub.backends) = (Ok None, s') /\
     web s' = web (stub.start stub.backends) /\
     gaming s' = gaming (stub.start stub.backends) /\
     trace (stub.start stub.backends) `prefix_of` trace s') /\
  (exists r s',
     mirror_page (H := stub.collaborators 200 (fun _ => Ok 0.71%Q) (fun _ => Ok false)
                         stub.seconds)
       "https://example.com" (stub.start stub.backends) = (Ok (Some r), s') /\
     pydict.get "https://example.com" (mirrors (web s')) = Some r).
Proof.
  split.
  - refine ((fun Hf => conj Hf
              (proj1 (mirror_page_registration_failure (H := without_name_system)
                        "https://example.com" (stub.start stub.backends)) Hf)) _).
    intros t name address owner _. eexists. reflexivity.
  - eexists _, _.
    refine ((fun E => conj E
              (proj1 (proj2 (mirror_page_registration_failure
                               (H := stub.collaborators 200 (fun _ => Ok 0.71%Q)
                                       (fun _ => Ok false) stub.seconds)
                               "https://example.com" (stub.start stub.backends))
                            _ _ E))) _).
    vm_compute. reflexivity.
Defined.

(** C4 as stated fails: the name system raises; [mirror_page] returns
    [None] and [mirrors] stays empty, although the page was stored in the
    DHT and the last call was the registration. *)
Lemma registration_error_loses_record :
  let run := mirror_page (H := without_name_system) "https://example.com"
               (stub.start stub.backends) in
  run.1 = Ok None /\
  mirrors (web run.2) = [] /\
  (exists content metadata, dht_store_content content metadata ∈ trace run.2) /\
  (exists name address,
     last (trace run.2) = Some (register_name name address "web_mirror_gateway")).
Proof.
  vm_compute. split; [done|]. split; [done|]. split.
  - eexists _, _. do 3 right. left.
  - eexists _, _. reflexivity.
Qed.

Lemma mirror_page_verifier_failure_witness :
  ((forall t n, (length (trace (stub.start stub.backends)) <= t)%nat ->
      exists e, answer_create_ghz_network_state (Collaborators := without_verifier)
                  t n = Raise e) \/
   (forall t g h, (length (trace (stub.start stub.backends)) <= t)%nat ->
      exists e, answer_measure_entanglement_correlation (Collaborators := without_verifier)
                  t g h = Raise e)) /\
  (exists s',
     mirror_page (H := without_verifier) "https://example.com"
       (stub.start stub.backends) = (Ok None, s') /\
     web s' = web (stub.start stub.backends) /\
     gaming s' = gaming (stub.start stub.backends) /\
     trace (stub.start stub.backends) `prefix_of` trace s') /\
  (forall recursive max_pages,
     exists s',
       mirror_website (H := without_verifier) 2 "https://example.com" recursive max_pages
         (stub.start stub.backends) = (Ok (Some []), s') \/
       exists e, mirror_website (H := without_verifier) 2 "https://example.com"
                   recursive max_pages (stub.start stub.backends) = (Raise e, s') /\
                 urlparse (Collaborators := without_verifier) "https://example.com"
                   = Raise e).
Proof.
  refine ((fun Hf => conj Hf
            (mirror_page_verifier_failure (H := without_verifier)
               "https://example.com" (stub.start stub.backends) Hf)) _).
  right. intros t g h _. eexists. reflexivity.
Defined.

(** C5 as stated fails: the verifier raises; [mirror_page] returns [None],
    no record is stored, and the crawl returns an empty mapping. *)
Lemma verifier_error_loses_record :
  let run := mirror_page (H := without_verifier) "https://example.com"
               (stub.start stub.backends) in
  let crawled := mirror_website (H := without_verifier) 5 "https://example.com" true 10
                   (stub.start stub.backends) in
  run.1 = Ok None /\ mirrors (web run.2) = [] /\
  (exists g h, last (trace run.2) = Some (measure_entanglement_correlation g h)) /\
  crawled.1 = Ok (Some []) /\ mirrors (web crawled.2) = [].
Proof.
  vm_compute. split; [done|]. split; [done|]. split; [|done].
  eexists _, _. reflexivity.
Qed.

(** ** [apply_acoustic_encoding] and the caller's light show *)

Section acoustic.
Context `{Collaborators}.

Lemma py_lt_number w (n : Z) :
  is_number w ->
  py_lt w n = Ok (if Qlt_le_dec (number_value w) (inject_Z n) then true else false).
Proof.
  destruct w as [|b|z|q|s|l]; simpl; try done; intros _; f_equal.
  - destruct (Qlt_le_dec _ _) as [Hlt|Hle].
    + apply Z.ltb_lt. by rewrite Zlt_Qlt.
    + apply Z.ltb_ge. by rewrite Zle_Qle.
  - destruct (Qlt_le_dec _ _) as [Hlt|Hle].
    + apply Z.ltb_lt. by rewrite Zlt_Qlt.
    + apply Z.ltb_ge. by rewrite Zle_Qle.
  - destruct (Qlt_le_dec _ _) as [Hlt|Hle].
    + apply negb_true_iff, not_true_iff_false. rewrite Qle_bool_iff.
      by apply Qlt_not_le.
    + apply negb_false_iff. by apply Qle_bool_iff.
Qed.

Lemma getitem_run l d k x s :
  heap s !! l = Some (ODict d) -> d !! k = Some x ->
  getitem (VRef l) k s = (Ok x, s).
Proof. intros Hl Hk. unfold getitem, bind, deref. by rewrite Hl, Hk. Qed.

Lemma setitem_run l d k x s :
  heap s !! l = Some (ODict d) ->
  setitem (VRef l) k x s = (Ok tt, with_heap (insert l (ODict (<[k:=x]> d))) s).
Proof. intros Hl. unfold setitem, bind, deref. by rewrite Hl. Qed.

Lemma with_timing_wavelength w di : with_timing w di !! "wavelength" = di !! "wavelength".
Proof. unfold with_timing. by rewrite !lookup_insert_ne. Qed.

Lemma with_timing_twice w di : with_timing w (with_timing w di) = with_timing w di.
Proof.
  apply map_eq. intros k. unfold with_timing.
  rewrite !lookup_insert. repeat case_decide; done.
Qed.

Lemma set_three_keys i di p d s :
  heap s !! i = Some (ODict di) ->
  (do! (do! setitem (VRef i) "timing_pattern" p in setitem (VRef i) "duration_ms" d) in
   setitem (VRef i) "gap_ms" (VInt 30)) s
  = (Ok tt,
     with_heap (insert i (ODict (<["gap_ms" := VInt 30]>
                                   (<["duration_ms" := d]> (<["timing_pattern" := p]> di))))) s).
Proof.
  intros Hi. unfold bind. rewrite (setitem_run _ _ _ _ _ Hi).
  erewrite setitem_run by (simpl; apply lookup_insert_eq).
  erewrite setitem_run by (simpl; apply lookup_insert_eq).
  unfold with_heap. simpl. by rewrite !insert_insert_eq.
Qed.

(** One pass of the loop body writes the three keys into the item's dict. *)
Lemma add_morse_timing_run i di w s :
  heap s !! i = Some (ODict di) -> di !! "wavelength" = Some w -> is_number w ->
  add_morse_timing (VRef i) s
  = (Ok tt, with_heap (insert i (ODict (with_timing w di))) s).
Proof.
  intros Hi Hw Hn. unfold add_morse_timing, with_timing, morse_timing.
  unfold bind at 1. rewrite (getitem_run _ _ _ _ _ Hi Hw).
  unfold bind at 1, lift. rewrite (py_lt_number _ 500 Hn).
  change (inject_Z 500) with 500%Q.
  destruct (Qlt_le_dec (number_value w) 500) as [H5|H5]; cbv beta iota.
  - by apply set_three_keys.
  - assert (E : forall (m1 m2 : M unit) s0,
               (let! green := lift (py_lt w 600) in if green then m1 else m2) s0
               = (if Qlt_le_dec (number_value w) 600 then m1 else m2) s0).
    { intros m1 m2 s0. unfold bind, lift. rewrite (py_lt_number _ 600 Hn).
      change (inject_Z 600) with 600%Q. by destruct (Qlt_le_dec _ _). }
    unfold bind at 1. rewrite E.
    destruct (Qlt_le_dec (number_value w) 600) as [H6|H6].
    + by apply set_three_keys.
    + by apply set_three_keys.
Qed.

(** The loop: every item of the sequence gets its three keys, once, however
    often it occurs in the sequence; nothing else in the heap changes. *)
Lemma for_each_add_morse_timing items : forall s,
  Forall (item_ok (heap s)) items ->
  exists s',
    for_each items add_morse_timing s = (Ok tt, s') /\ heap_only s s' /\
    forall x, heap s' !! x
              = if decide (VRef x ∈ items) then timed <$> heap s !! x else heap s !! x.
Proof.
  induction items as [|item items IH]; intros s Hok.
  - exists s. split; [done|]. split; [done|]. intros x.
    by rewrite decide_False by apply not_elem_of_nil.
  - apply Forall_cons in Hok as [(i & di & w & -> & Hi & Hw & Hn) Hok]. simpl.
    unfold bind. rewrite (add_morse_timing_run _ _ _ _ Hi Hw Hn).
    set (s1 := with_heap _ s).
    destruct (IH s1) as (s' & E & (Ht & Hweb & Hg) & Hh).
    { eapply Forall_impl; [exact Hok|]. intros item (j & dj & wj & -> & Hj & Hwj & Hnj).
      subst s1. simpl. destruct (decide (j = i)) as [->|Hne].
      - exists i, (with_timing w di), wj. rewrite lookup_insert_eq.
        rewrite with_timing_wavelength. split; [done|]. split; [done|].
        split; [congruence|done].
      - exists j, dj, wj. by rewrite lookup_insert_ne. }
    exists s'. split; [exact E|]. split; [done|]. intros x. rewrite Hh.
    subst s1. simpl. destruct (decide (x = i)) as [->|Hne].
    + rewrite lookup_insert_eq, Hi, (decide_True (P := VRef i ∈ VRef i :: items))
        by apply list_elem_of_here.
      simpl. rewrite Hw. destruct (decide (VRef i ∈ items)); [|done].
      simpl. by rewrite with_timing_wavelength, Hw, with_timing_twice.
    + rewrite lookup_insert_ne by done.
      destruct (decide (VRef x ∈ items)) as [Hin|Hin].
      * by rewrite decide_True by (by apply list_elem_of_further).
      * rewrite decide_False; [done|]. rewrite elem_of_cons. intros [[=]|]; done.
Qed.

(** C8.  [apply_acoustic_encoding] copies the dict of the light show and
    nothing below it.  Called on a light show whose ['light_sequence'] is a
    list of dicts with numbers as wavelengths, it returns a new dict, the
    caller's with ['acoustic_encoded'] and ['timing_standard'] set, which
    shares the caller's list; every dict of that list is changed in place:
    it gets ['timing_pattern'], ['duration_ms'] and ['gap_ms']; the caller's
    own dict does not get the two keys of the copy, and nothing else in the
    heap changes. *)
Theorem apply_acoustic_encoding_shallow_copy s l d q items :
  heap s !! l = Some (ODict d) ->
  d !! "light_sequence" = Some (VRef q) ->
  heap s !! q = Some (OList items) ->
  Forall (item_ok (heap s)) items ->
  exists l' s',
    apply_acoustic_encoding (VRef l) s = (Ok (VRef l'), s') /\
    heap s !! l' = None /\
    heap s' !! l'
      = Some (ODict (<["timing_standard" := VStr "morse_light"]>
                       (<["acoustic_encoded" := VBool true]> d))) /\
    heap s' !! q = Some (OList items) /\
    (forall i di,
       VRef i ∈ items -> heap s !! i = Some (ODict di) ->
       exists w, di !! "wavelength" = Some w /\
                 heap s' !! i = Some (ODict (with_timing w di))) /\
    (forall x, VRef x ∉ items -> x <> l' -> heap s' !! x = heap s !! x) /\
    (exists d', heap s' !! l = Some (ODict d') /\
                d' !! "acoustic_encoded" = d !! "acoustic_encoded" /\
                d' !! "timing_standard" = d !! "timing_standard") /\
    heap_only s s'.
Proof.
  intros Hl Hseq Hq Hok.
  set (l' := fresh (dom (heap s))).
  assert (Hfresh : heap s !! l' = None) by apply not_elem_of_dom, is_fresh.
  assert (Hnot : forall x, VRef x ∈ items -> x <> l').
  { intros x Hx ->. rewrite Forall_forall in Hok.
    destruct (Hok _ Hx) as (i & di & w & [= <-] & Hi & _). congruence. }
  set (s1 := with_heap (insert l' (ODict d)) s).
  assert (Hs1 : forall x, x <> l' -> heap s1 !! x = heap s !! x).
  { intros x Hx. subst s1. simpl. by rewrite lookup_insert_ne. }
  destruct (for_each_add_morse_timing items s1) as (s2 & Eloop & (Ht2 & Hw2 & Hg2) & Hh2).
  { eapply Forall_impl; [exact Hok|]. intros item Hitem.
    assert (Hi := Hitem). destruct Hi as (i & di & w & -> & Hi & Hw & Hn).
    exists i, di, w. rewrite Hs1; [done|]. intros ->. congruence. }
  assert (Hl'2 : heap s2 !! l' = Some (ODict d)).
  { rewrite Hh2, decide_False by (intros Hx; by apply (Hnot _ Hx)).
    subst s1. simpl. by rewrite lookup_insert_eq. }
  exists l'. eexists. split.
  { unfold apply_acoustic_encoding, py_copy.
    unfold bind at 1. unfold bind at 1, deref. rewrite Hl. unfold alloc. fold l'. fold s1.
    unfold bind at 1. rewrite (getitem_run l d "light_sequence" (VRef q) s1);
      [|rewrite Hs1; [done|congruence]|done].
    unfold bind at 1, py_iter. unfold bind at 1, deref.
    rewrite Hs1 by congruence. rewrite Hq. unfold ret at 1. cbv beta iota.
    unfold bind at 1. rewrite Eloop.
    unfold bind at 1. rewrite (setitem_run _ _ _ _ _ Hl'2).
    unfold bind at 1. erewrite setitem_run by (simpl; apply lookup_insert_eq).
    reflexivity. }
  simpl. rewrite insert_insert_eq.
  assert (Hother : forall x, x <> l' ->
            heap s2 !! x = if decide (VRef x ∈ items) then timed <$> heap s !! x
                           else heap s !! x).
  { intros x Hx. rewrite Hh2, Hs1 by done. done. }
  split; [done|]. split; [by rewrite lookup_insert_eq|]. split.
  { assert (q <> l') by congruence. rewrite lookup_insert_ne, Hother by done.
    rewrite Hq. by destruct (decide (VRef q ∈ items)). }
  split.
  { intros i di Hin Hi. pose proof (Hnot _ Hin) as Hne.
    rewrite Forall_forall in Hok. destruct (Hok _ Hin) as (i' & di' & w & [= <-] & Hi' & Hw & _).
    assert (di' = di) as -> by congruence.
    exists w. split; [done|].
    rewrite lookup_insert_ne, Hother, decide_True, Hi by done. simpl. by rewrite Hw. }
  split.
  { intros x Hx Hne. by rewrite lookup_insert_ne, Hother, decide_False. }
  split.
  { assert (l <> l') by congruence. rewrite lookup_insert_ne, Hother, Hl by done.
    destruct (decide (VRef l ∈ items)); simpl; [|eauto].
    destruct (d !! "wavelength") as [w|]; [|eauto].
    eexists. split; [done|]. unfold with_timing. by rewrite !lookup_insert_ne. }
  done.
Qed.

End acoustic.


Lemma apply_acoustic_encoding_shallow_copy_witness :
  let d : gmap string value := {["light_sequence" := VRef 4%positive]} in
  heap show_state !! 5%positive = Some (ODict d) /\
  d !! "light_sequence" = Some (VRef 4%positive) /\
  heap show_state !! 4%positive = Some (OList show_items) /\
  Forall (item_ok (heap show_state)) show_items /\
  exists l' s',
    apply_acoustic_encoding (VRef 5%positive) show_state = (Ok (VRef l'), s') /\
    heap show_state !! l' = None /\
    heap s' !! l'
      = Some (ODict (<["timing_standard" := VStr "morse_light"]>
                       (<["acoustic_encoded" := VBool true]> d))) /\
    heap s' !! 4%positive = Some (OList show_items) /\
    (forall i di,
       VRef i ∈ show_items -> heap show_state !! i = Some (ODict di) ->
       exists w, di !! "wavelength" = Some w /\
                 heap s' !! i = Some (ODict (with_timing w di))) /\
    (forall x, VRef x ∉ show_items -> x <> l' -> heap s' !! x = heap show_state !! x) /\
    (exists d', heap s' !! 5%positive = Some (ODict d') /\
                d' !! "acoustic_encoded" = d !! "acoustic_encoded" /\
                d' !! "timing_standard" = d !! "timing_standard") /\
    heap_only show_state s'.
Proof.
  intros d.
  assert (H5 : heap show_state !! 5%positive = Some (ODict d)) by reflexivity.
  assert (Hd : d !! "light_sequence" = Some (VRef 4%positive)) by reflexivity.
  assert (H4 : heap show_state !! 4%positive = Some (OList show_items)) by reflexivity.
  assert (Hok : Forall (item_ok (heap show_state)) show_items).
  { repeat constructor.
    - by exists 1%positive, {["wavelength" := VInt 450]}, (VInt 450).
    - by exists 2%positive, {["wavelength" := VFloat 550.5]}, (VFloat 550.5).
    - by exists 3%positive, {["wavelength" := VInt 650]}, (VInt 650).
    - by exists 1%positive, {["wavelength" := VInt 450]}, (VInt 450). }
  repeat (split; [assumption|]).
  exact (apply_acoustic_encoding_shallow_copy show_state 5%positive d 4%positive
           show_items H5 Hd H4 Hok).
Defined.

(** What the call leaves in that heap: the caller's three items carry their
    timing, the caller's dict is as it was, and the copy is a sixth object. *)
Example apply_acoustic_encoding_on_show :
  let run := apply_acoustic_encoding (VRef 5%positive) show_state in
  run.1 = Ok (VRef 6%positive) /\
  heap run.2 !! 1%positive
    = Some (ODict (<["gap_ms" := VInt 30]> (<["duration_ms" := VInt 50]>
         (<["timing_pattern" := VStr "dit"]> {["wavelength" := VInt 450]})))) /\
  heap run.2 !! 2%positive
    = Some (ODict (<["gap_ms" := VInt 30]> (<["duration_ms" := VInt 100]>
         (<["timing_pattern" := VStr "dit-dah"]> {["wavelength" := VFloat 550.5]})))) /\
  heap run.2 !! 3%positive
    = Some (ODict (<["gap_ms" := VInt 30]> (<["duration_ms" := VInt 150]>
         (<["timing_pattern" := VStr "dah"]> {["wavelength" := VInt 650]})))) /\
  heap run.2 !! 5%positive = heap show_state !! 5%positive /\
  heap run.2 !! 6%positive
    = Some (ODict (<["timing_standard" := VStr "morse_light"]>
         (<["acoustic_encoded" := VBool true]> {["light_sequence" := VRef 4%positive]}))).
Proof. vm_compute. repeat split. Qed.

(** ** The address of a gaming platform *)

Lemma append_char_inj (x y : string) (c : ascii) :
  x +:+ String c EmptyString = y +:+ String c EmptyString -> x = y.
Proof.
  revert y. induction x as [|a x IH]; intros [|b y]; simpl; intros E; try done.
  - injection E as _ E. by destruct y.
  - injection E as _ E. by destruct x.
  - injection E as -> E. f_equal. by apply IH.
Qed.

Lemma LUXBINAddress_create_inj node_id wavelength c1 c2 :
  LUXBINAddress_create node_id c1 "/" wavelength
  = LUXBINAddress_create node_id c2 "/" wavelength ->
  c1 = c2.
Proof.
  unfold LUXBINAddress_create. intros E.
  do 5 apply String.app_inj in E. by apply append_char_inj in E.
Qed.

Section platform_address.
Context `{Collaborators}.

(** C7 (as amended).  The address of a mirrored platform is made of the
    platform's name and the first 8 hexadecimal digits of the SHA-256 digest
    of the JSON text of the platform, its URLs and the time of the call.
    The time enters the address through these 8 digits alone: mirroring the
    same platform at another time gives another address exactly when the 8
    digits of the two texts differ. *)
Theorem platform_address_follows_digest :
  (forall p include_api_data max_pages s m s',
     mirror_gaming_platform p include_api_data max_pages s = (Ok m, s') ->
     exists t,
       gm_luxbin_address m
       = platform_address (platform_value p) (http_urls m) (answer_time_time t)) /\
  (forall platform_name urls t1 t2,
     platform_address platform_name urls t1 <> platform_address platform_name urls t2
     <-> platform_content_hash platform_name urls t1
         <> platform_content_hash platform_name urls t2).
Proof.
  split.
  - intros p include_api_data max_pages s m s' E.
    by destruct (mirror_gaming_platform_record _ _ _ _ _ _ E) as (_ & _ & _ & _ & ?).
  - intros platform_name urls t1 t2. unfold platform_address. split.
    + intros Hne Heq. apply Hne. by rewrite Heq.
    + intros Hne Heq. apply Hne. by apply LUXBINAddress_create_inj in Heq.
Qed.

End platform_address.

Lemma platform_address_follows_digest_witness :
  exists m s',
    mirror_gaming_platform (H := steady 0.71) EPIC_GAMES true 100
      (stub.start stub.backends) = (Ok m, s') /\
    exists t,
      gm_luxbin_address m
      = platform_address (platform_value EPIC_GAMES) (http_urls m)
          (answer_time_time (Collaborators := steady 0.71) t).
Proof.
  eexists _, _.
  refine ((fun E => conj E
            (proj1 (platform_address_follows_digest (H := steady 0.71)) _ _ _ _ _ _ E)) _).
  vm_compute. reflexivity.
Defined.

(** C7 as stated fails: Epic Games mirrored at the two times, which differ,
    gets the same address, because the two JSON texts have digests that
    begin with the same 8 digits. *)
Lemma same_address_at_another_time :
  repr_denotes early /\ repr_denotes late /\
  ~ (float_value early == float_value late)%Q /\
  float_repr early <> float_repr late /\
  exists m1 m2,
    (mirror_gaming_platform (H := at_time early) EPIC_GAMES true 100
       (stub.start stub.backends)).1 = Ok m1 /\
    (mirror_gaming_platform (H := at_time late) EPIC_GAMES true 100
       (stub.start stub.backends)).1 = Ok m2 /\
    mirrored_at m1 = early /\ mirrored_at m2 = late /\
    gm_luxbin_address m1 = "luxbin://epic_games.600nm.d2d37985/" /\
    gm_luxbin_address m2 = "luxbin://epic_games.600nm.d2d37985/".
Proof.
  split; [eexists; split; [vm_compute; reflexivity|done]|].
  split; [eexists; split; [vm_compute; reflexivity|done]|].
  split; [done|]. split; [done|].
  eexists _, _. vm_compute. repeat split.
Qed.

(** * More properties *)

(** ** Digests as texts *)


Lemma length_be_bytes n x : length (hashlib.be_bytes n x) = n.
Proof.
  revert x. induction n as [|n IH]; intros x; simpl; [done|].
  rewrite length_app, IH. simpl. lia.
Qed.

Lemma length_le_bytes n x : length (hashlib.le_bytes n x) = n.
Proof. unfold hashlib.le_bytes. by rewrite length_rev, length_be_bytes. Qed.

Lemma length_round256 s kw : length (hashlib.round256 s kw) = length s.
Proof. by do 9 (destruct s as [|? s]; try done). Qed.

Lemma length_round5 m s i : length (hashlib.round5 m s i) = length s.
Proof.
  do 5 (destruct s as [|? s]; try done). unfold hashlib.round5.
  by repeat match goal with |- context [if ?b then _ else _] => destruct b end.
Qed.

Lemma length_fold_left {A B} (f : list A -> B -> list A) (l : list B) (h : list A) :
  (forall s x, length (f s x) = length s) -> length (fold_left f l h) = length h.
Proof.
  intros Hf. revert h. induction l as [|x l IH]; intros h; simpl; [done|].
  by rewrite IH, Hf.
Qed.

Lemma length_compress256 h block : length (hashlib.compress256 h block) = length h.
Proof.
  unfold hashlib.compress256. rewrite length_zip_with_l_eq; [done|].
  symmetry. apply length_fold_left, length_round256.
Qed.

Lemma length_compress5 h block : length (hashlib.compress5 h block) = length h.
Proof.
  unfold hashlib.compress5. rewrite length_zip_with_l_eq; [done|].
  symmetry. apply length_fold_left, length_round5.
Qed.

Lemma length_concat_bytes (f : Z -> list Z) (k : nat) (ws : list Z) :
  (forall w, length (f w) = k) -> length (concat (map f ws)) = (k * length ws)%nat.
Proof.
  intros Hf. induction ws as [|w ws IH]; simpl; [lia|].
  rewrite length_app, Hf, IH. lia.
Qed.

Lemma length_sha256_digest msg : length (hashlib.sha256_digest msg) = 32%nat.
Proof.
  unfold hashlib.sha256_digest.
  rewrite (length_concat_bytes _ 4) by (intros; apply length_be_bytes).
  by rewrite length_fold_left by apply length_compress256.
Qed.

Lemma length_md5_digest msg : length (hashlib.md5_digest msg) = 16%nat.
Proof.
  unfold hashlib.md5_digest.
  rewrite (length_concat_bytes _ 4) by (intros; apply length_le_bytes).
  by rewrite length_fold_left by apply length_compress5.
Qed.

Lemma length_hex_of_bytes bs : String.length (hashlib.hex_of_bytes bs) = (2 * length bs)%nat.
Proof. induction bs as [|b bs IH]; simpl; [done|]. rewrite IH. lia. Qed.

Lemma is_hex_digit_hex_digit d : is_hex_digit (hashlib.hex_digit d) = true.
Proof.
  destruct d as [|p|p]; [done| |done].
  do 4 (destruct p as [p|p|]; try done).
Qed.

Lemma hex_text_hex_of_bytes bs : hex_text (hashlib.hex_of_bytes bs) = true.
Proof.
  induction bs as [|b bs IH]; simpl; [done|].
  by rewrite !is_hex_digit_hex_digit, IH.
Qed.


Lemma length_substring_0 n s :
  String.length (String.substring 0 n s) = (n `min` String.length s)%nat.
Proof.
  revert s. induction n as [|n IH]; intros [|c s]; simpl; try done.
  by rewrite IH.
Qed.

Lemma hex_text_substring_0 n s : hex_text s = true -> hex_text (String.substring 0 n s) = true.
Proof.
  revert s. induction n as [|n IH]; intros [|c s]; simpl; try done.
  intros [-> Hs]%andb_prop. simpl. by apply IH.
Qed.

(** The first [n] digits of a SHA-256 digest, for [n] up to 64. *)
Lemma sha256_prefix n data :
  (n <= 64)%nat ->
  let h := String.substring 0 n (hashlib.sha256_hexdigest data) in
  String.length h = n /\ hex_text h = true.
Proof.
  intros Hn. split.
  - rewrite length_substring_0. unfold hashlib.sha256_hexdigest.
    rewrite length_hex_of_bytes, length_sha256_digest. lia.
  - apply hex_text_substring_0, hex_text_hex_of_bytes.
Qed.

Lemma md5_prefix n data :
  (n <= 32)%nat ->
  let h := String.substring 0 n (hashlib.md5_hexdigest data) in
  String.length h = n /\ hex_text h = true.
Proof.
  intros Hn. split.
  - rewrite length_substring_0. unfold hashlib.md5_hexdigest.
    rewrite length_hex_of_bytes, length_md5_digest. lia.
  - apply hex_text_substring_0, hex_text_hex_of_bytes.
Qed.

(** ** Runs that return *)

Lemma bind_Ok {A B} (m : M A) (k : A -> M B) s b s' :
  bind m k s = (Ok b, s') -> exists a s1, m s = (Ok a, s1) /\ k a s1 = (Ok b, s').
Proof. unfold bind. destruct (m s) as [[a|e] s1]; [eauto|done]. Qed.

Lemma keeps_mono {A} (R R' : State -> State -> Prop) (m : M A) :
  (forall s s', R s s' -> R' s s') -> keeps R m -> keeps R' m.
Proof. intros HR Hm s. eapply wp_mono; [apply Hm|]. intros o s'. apply HR. Qed.

#[global] Instance fetches_nothing_preorder : PreOrder (fetches []).
Proof.
  split.
  - intros s. exists []. by rewrite app_nil_r.
  - intros s1 s2 s3 (e1 & E1 & F1) (e2 & E2 & F2). exists (e1 ++ e2).
    rewrite E2, E1, <- app_assoc. split; [done|].
    unfold fetched in *. by rewrite omap_app, F1, F2.
Qed.

Lemma fetches_app us1 us2 s1 s2 s3 :
  fetches us1 s1 s2 -> fetches us2 s2 s3 -> fetches (us1 ++ us2) s1 s3.
Proof.
  intros (e1 & E1 & F1) (e2 & E2 & F2). exists (e1 ++ e2).
  rewrite E2, E1, <- app_assoc. split; [done|].
  unfold fetched in *. by rewrite omap_app, F1, F2.
Qed.

Lemma heap_only_fetches_nothing s s' : heap_only s s' -> fetches [] s s'.
Proof. intros (E & _). exists []. by rewrite app_nil_r. Qed.

Section quiet.
Context `{Collaborators}.

Lemma py_get_state v k d s o s' : py_get v k d s = (o, s') -> s' = s.
Proof.
  destruct v as [| | | | |l]; simpl; try (by intros [= _ <-]).
  unfold bind, deref. destruct (heap s !! l) as [[dl|items]|]; by intros [= _ <-].
Qed.

Lemma keeps_call_quiet {A} ev (answer : nat -> outcome A) :
  fetched [ev] = [] -> keeps (fetches []) (call ev answer).
Proof. intros Hev s. apply wp_call. by exists [ev]. Qed.

Lemma keeps_modify_web f : keeps (fetches []) (modify (with_web f)).
Proof. intros s. apply wp_modify. exists []. simpl. by rewrite app_nil_r. Qed.

Lemma keeps_converter_quiet content : keeps (fetches []) (converter_create_light_show content).
Proof. intros s. unfold wp, converter_create_light_show. simpl. by eexists [_]. Qed.

Lemma keeps_store_quiet content light_show url :
  keeps (fetches []) (store_with_quantum_mirrors content light_show url).
Proof.
  unfold store_with_quantum_mirrors.
  apply keeps_bind; [exact _| |intros acoustic].
  { eapply keeps_mono; [apply heap_only_fetches_nothing|apply keeps_py_get]. }
  apply keeps_bind; [exact _|apply keeps_gets; exact _|intros self].
  apply keeps_bind; [exact _|by apply keeps_call_quiet|intros now].
  apply keeps_bind; [exact _|by apply keeps_call_quiet|intros address].
  apply keeps_bind; [exact _| |intros _; apply keeps_ret; exact _].
  apply keeps_for_each; [exact _|]. intros backend. apply keeps_ret. exact _.
Qed.

Lemma keeps_entangle_quiet luxbin_address content_hash :
  keeps (fetches []) (entangle_mirrors luxbin_address content_hash).
Proof.
  unfold entangle_mirrors.
  apply keeps_bind; [exact _|apply keeps_gets; exact _|intros self].
  apply keeps_bind; [exact _|by apply keeps_call_quiet|intros ghz].
  apply keeps_bind; [exact _|by apply keeps_call_quiet|intros c].
  apply keeps_if; apply keeps_ret; exact _.
Qed.

Lemma keeps_register_quiet http_url luxbin_address :
  keeps (fetches []) (register_url_mapping http_url luxbin_address).
Proof.
  unfold register_url_mapping.
  apply keeps_bind; [exact _|apply keeps_lift; exact _|intros parsed].
  apply keeps_bind; [exact _|by apply keeps_call_quiet|intros _].
  apply keeps_ret. exact _.
Qed.

(** Whatever comes of it, [mirror_page] asks the web once, for its URL, and
    that is the first thing it does. *)
Lemma mirror_page_fetches url s :
  wp (mirror_page url) (fun _ s' => fetches [url] s s') s.
Proof.
  assert (Hfirst : fetches [url] s (with_trace (fun t => t ++ [session_get url]) s))
    by (by exists [session_get url]).
  assert (Hthen : forall s', fetches [] (with_trace (fun t => t ++ [session_get url]) s) s' ->
            fetches [url] s s').
  { intros s' Hq. apply (fetches_app [url] [] _ _ _ Hfirst Hq). }
  unfold mirror_page. apply wp_try_except, wp_bind, wp_call.
  set (s1 := with_trace _ s) in *.
  assert (Hrest : forall (m : M (option MirrorRecord)),
            keeps (fetches []) m ->
            wp m (fun o s' => match o with
                              | Ok a => fetches [url] s s'
                              | Raise e => wp (ret (@None MirrorRecord)) (fun _ s'' => fetches [url] s s'') s'
                              end) s1).
  { intros m Hm. eapply wp_mono; [apply Hm|]. intros [a|e] s' Hq; by apply Hthen. }
  destruct (answer_session_get _ _) as [resp|e]; simpl; [|by apply Hthen].
  apply Hrest.
  apply keeps_if; [apply keeps_ret; exact _|].
  apply keeps_bind; [exact _|apply keeps_converter_quiet|intros light_show].
  apply keeps_bind; [exact _|apply keeps_gets; exact _|intros self].
  apply keeps_bind; [exact _| |intros acoustic].
  { apply keeps_if; [|apply keeps_ret; exact _].
    eapply keeps_mono; [apply heap_only_fetches_nothing|apply keeps_apply_acoustic_encoding]. }
  apply keeps_bind; [exact _|apply keeps_store_quiet|intros address].
  apply keeps_bind; [exact _|apply keeps_entangle_quiet|intros verified].
  apply keeps_bind; [exact _|apply keeps_register_quiet|intros _].
  apply keeps_bind; [exact _|apply keeps_gets; exact _|intros self'].
  apply keeps_bind; [exact _|by apply keeps_call_quiet|intros now].
  apply keeps_bind; [exact _|apply keeps_modify_web|intros _].
  apply keeps_ret. exact _.
Qed.

End quiet.

(** ** A call of [mirror_page] that returns a record, call by call *)

Section mirror_page_success.
Context `{Collaborators}.

Lemma setitem_Ok v k x s s' :
  setitem v k x s = (Ok tt, s') ->
  exists l d, v = VRef l /\ heap s !! l = Some (ODict d) /\
              s' = with_heap (insert l (ODict (<[k:=x]> d))) s.
Proof.
  destruct v as [| | | | |l]; simpl; try done.
  unfold bind, deref. destruct (heap s !! l) as [[d|items]|] eqn:Hl; try done.
  intros [= <-]. by exists l, d.
Qed.

(** The dict that [apply_acoustic_encoding] returns says that it is
    acoustically encoded. *)
Lemma apply_acoustic_encoding_flag light_show s v s' dflt :
  apply_acoustic_encoding light_show s = (Ok v, s') ->
  py_get v "acoustic_encoded" dflt s' = (Ok (VBool true), s').
Proof.
  unfold apply_acoustic_encoding. intros E.
  apply bind_Ok in E as (copy & s1 & _ & E).
  apply bind_Ok in E as (sequence & s2 & _ & E).
  apply bind_Ok in E as (items & s3 & _ & E).
  apply bind_Ok in E as ([] & s4 & _ & E).
  apply bind_Ok in E as ([] & s5 & E5 & E).
  apply bind_Ok in E as ([] & s6 & E6 & E).
  injection E as <- <-.
  apply setitem_Ok in E5 as (l & d & -> & Hl & ->).
  apply setitem_Ok in E6 as (l' & d' & [= <-] & Hl' & ->).
  simpl in Hl'. rewrite lookup_insert_eq in Hl'. injection Hl' as <-.
  unfold py_get, bind, deref. simpl. rewrite lookup_insert_eq.
  by rewrite lookup_insert_ne, lookup_insert_eq.
Qed.

Lemma store_with_quantum_mirrors_Ok content light_show url s a s' :
  store_with_quantum_mirrors content light_show url s = (Ok a, s') ->
  exists acoustic,
    let md := {| source_url := url;
                 encoding := "luxbin_wavelength";
                 md_acoustic_encoded := acoustic;
                 md_mirror_nodes := take (mirror_replication (web s)) (quantum_backends (web s));
                 mirror_timestamp := answer_time_time (length (trace s)) |} in
    py_get light_show "acoustic_encoded" (VBool false) s = (Ok acoustic, s) /\
    answer_dht_store_content (S (length (trace s))) content md = Ok a /\
    trace s' = trace s ++ [time_time; dht_store_content content md] /\
    heap s' = heap s /\ web s' = web s /\ gaming s' = gaming s.
Proof.
  unfold store_with_quantum_mirrors. intros E.
  apply bind_Ok in E as (acoustic & s1 & E1 & E).
  pose proof (py_get_state _ _ _ _ _ _ E1) as ->.
  exists acoustic. split; [exact E1|].
  revert E. unfold bind, gets, call. simpl. rewrite length_app, Nat.add_1_r.
  destruct (answer_dht_store_content _ _ _) as [a'|e]; [|done].
  rewrite for_each_pass. intros [= <- <-]. simpl. by rewrite <- app_assoc.
Qed.

Lemma entangle_mirrors_Ok luxbin_address content_hash s b s' :
  entangle_mirrors luxbin_address content_hash s = (Ok b, s') ->
  exists g c,
    answer_create_ghz_network_state (length (trace s)) (mirror_replication (web s)) = Ok g /\
    answer_measure_entanglement_correlation (S (length (trace s))) g content_hash = Ok c /\
    b = Qgtb c 0.7 /\
    trace s' = trace s ++ [create_ghz_network_state (mirror_replication (web s));
                           measure_entanglement_correlation g content_hash] /\
    heap s' = heap s /\ web s' = web s /\ gaming s' = gaming s.
Proof.
  rewrite entangle_mirrors_run. simpl.
  destruct (answer_create_ghz_network_state _ _) as [g|e]; [|done].
  destruct (answer_measure_entanglement_correlation _ _ _) as [c|e] eqn:Ec; [|done].
  intros [= <- <-]. by exists g, c.
Qed.

Lemma register_url_mapping_Ok http_url luxbin_address s s' :
  register_url_mapping http_url luxbin_address s = (Ok tt, s') ->
  exists netloc path b,
    let name := replace_dots netloc +:+ "_" +:+
      String.substring 0 8 (hashlib.md5_hexdigest (list_byte_of_string path)) in
    urlparse http_url = Ok (netloc, path) /\
    answer_register_name (length (trace s)) name luxbin_address "web_mirror_gateway" = Ok b /\
    trace s' = trace s ++ [register_name name luxbin_address "web_mirror_gateway"] /\
    heap s' = heap s /\ web s' = web s /\ gaming s' = gaming s.
Proof.
  rewrite register_url_mapping_run.
  destruct (urlparse http_url) as [[netloc path]|e]; [|done]. simpl.
  destruct (answer_register_name _ _ _ _) as [b|e] eqn:Eb; [|done].
  intros [= <-]. by exists netloc, path, b.
Qed.

Lemma mirror_page_success url s r s' :
  mirror_page url s = (Ok (Some r), s') ->
  let t := length (trace s) in
  exists content md g c netloc path b,
    let name := replace_dots netloc +:+ "_" +:+
      String.substring 0 8 (hashlib.md5_hexdigest (list_byte_of_string path)) in
    answer_session_get t url = Ok (200, content) /\
    trace s' = trace s ++ [session_get url; create_light_show content; time_time;
                           dht_store_content content md;
                           create_ghz_network_state (mirror_replication (web s));
                           measure_entanglement_correlation g (content_hash r);
                           register_name name (luxbin_address r) "web_mirror_gateway";
                           time_time] /\
    source_url md = url /\ encoding md = "luxbin_wavelength" /\
    md_mirror_nodes md = take (mirror_replication (web s)) (quantum_backends (web s)) /\
    mirror_timestamp md = answer_time_time (t + 2) /\
    (acoustic_encoding_enabled (web s) = true -> md_acoustic_encoded md = VBool true) /\
    answer_dht_store_content (t + 3) content md = Ok (luxbin_address r) /\
    answer_create_ghz_network_state (t + 4) (mirror_replication (web s)) = Ok g /\
    answer_measure_entanglement_correlation (t + 5) g (content_hash r) = Ok c /\
    urlparse url = Ok (netloc, path) /\
    answer_register_name (t + 6) name (luxbin_address r) "web_mirror_gateway" = Ok b /\
    r = {| http_url := url;
           luxbin_address := luxbin_address r;
           content_hash := String.substring 0 16 (hashlib.sha256_hexdigest content);
           mirror_nodes := take (mirror_replication (web s)) (quantum_backends (web s));
           last_updated := answer_time_time (t + 7);
           wavelength_encoded := true;
           acoustic_encoded := acoustic_encoding_enabled (web s);
           entanglement_verified := Qgtb c 0.7 |} /\
    web s' = set_mirrors (pydict.set url r (mirrors (web s))) (web s) /\
    gaming s' = gaming s.
Proof.
  intros E t. unfold mirror_page, try_except in E.
  match type of E with
  | match ?m s with _ => _ end = _ => destruct (m s) as [[a|e] s0] eqn:E0; [|done]
  end.
  injection E as -> ->.
  apply bind_Ok in E0 as ([status content] & s1 & E1 & E0).
  unfold call in E1. injection E1 as E1 <-. fold t in E1. simpl in E0.
  destruct (status =? 200) eqn:Hs; [|done]. apply Z.eqb_eq in Hs as ->. simpl in E0.
  apply bind_Ok in E0 as (light_show & s2 & E2 & E0).
  unfold converter_create_light_show in E2. simpl in E2. injection E2 as _ <-.
  apply bind_Ok in E0 as (self & s3 & [= <- <-] & E0). simpl in E0.
  apply bind_Ok in E0 as (acoustic & s3 & E3 & E0).
  assert (K3 : heap_only
                 (with_heap (fun _ => (answer_create_light_show (length (trace s ++ [session_get url]))
                                         content (heap s)).2)
                    (with_trace (fun t => t ++ [create_light_show content])
                       (with_trace (fun t => t ++ [session_get url]) s))) s3).
  { destruct (acoustic_encoding_enabled (web s)).
    - apply (wp_run _ _ _ _ _ (keeps_apply_acoustic_encoding _ _) E3).
    - injection E3 as _ <-. done. }
  destruct K3 as (Ht3 & Hw3 & Hg3). simpl in Ht3, Hw3, Hg3.
  apply bind_Ok in E0 as (address & s4 & E4 & E0).
  apply store_with_quantum_mirrors_Ok in E4 as (flag & Eflag & Ea & Ht4 & _ & Hw4 & Hg4).
  apply bind_Ok in E0 as (verified & s5 & E5 & E0).
  apply entangle_mirrors_Ok in E5 as (g & c & Eg & Ec & -> & Ht5 & _ & Hw5 & Hg5).
  apply bind_Ok in E0 as ([] & s6 & E6 & E0).
  apply register_url_mapping_Ok in E6 as (netloc & path & b & Eu & Eb & Ht6 & _ & Hw6 & Hg6).
  revert E0. unfold bind, gets, call, modify, ret. simpl. intros [= <- <-]. simpl.
  assert (L3 : length (trace s3) = (t + 2)%nat).
  { rewrite Ht3, !length_app. simpl. subst t. lia. }
  assert (L4 : length (trace s4) = (t + 4)%nat) by (rewrite Ht4, length_app, L3; simpl; lia).
  assert (L5 : length (trace s5) = (t + 6)%nat) by (rewrite Ht5, length_app, L4; simpl; lia).
  assert (L6 : length (trace s6) = (t + 7)%nat) by (rewrite Ht6, length_app, L5; simpl; lia).
  rewrite L3 in Ht4, Ea. rewrite L4 in Eg, Ec. rewrite L5 in Eb. rewrite L6.
  rewrite Hw3 in Ht4, Ea. rewrite Hw4, Hw3 in Ht5, Eg.
  rewrite Hw6, Hw5, Hw4, Hw3, Hg6, Hg5, Hg4, Hg3.
  replace (S (t + 2)) with (t + 3)%nat in Ea by lia.
  replace (S (t + 4)) with (t + 5)%nat in Ec by lia.
  eexists content,
    {| source_url := url;
       encoding := "luxbin_wavelength";
       md_acoustic_encoded := flag;
       md_mirror_nodes := take (mirror_replication (web s)) (quantum_backends (web s));
       mirror_timestamp := answer_time_time (t + 2) |}, g, c, netloc, path, b.
  simpl. repeat split; try assumption.
  - rewrite Ht6, Ht5, Ht4, Ht3, <- !app_assoc. done.
  - intros Hen. rewrite Hen in E3.
    rewrite (apply_acoustic_encoding_flag _ _ _ _ _ E3) in Eflag. by injection Eflag.
Qed.

End mirror_page_success.

(** ** More on ordered dicts *)

Section pydict_more.
Context {K V : Type} `{EqDecision K}.
Implicit Types (d : list (K * V)).

Lemma pydict_get_set_ne k k' v d : k' <> k -> pydict.get k' (pydict.set k v d) = pydict.get k' d.
Proof.
  intros Hne. induction d as [|[k0 v0] d IH]; simpl.
  - by rewrite decide_False.
  - destruct (decide (k = k0)) as [->|Hk]; simpl.
    + by rewrite !decide_False.
    + by rewrite IH.
Qed.

Lemma pydict_get_set k k' v d :
  pydict.get k' (pydict.set k v d) = if decide (k' = k) then Some v else pydict.get k' d.
Proof.
  destruct (decide (k' = k)) as [->|Hne];
    [apply pydict_get_set_eq|by apply pydict_get_set_ne].
Qed.

(** Assigning to a new key puts it last; assigning to a key that is there
    leaves the keys as they are. *)
Lemma pydict_keys_set_cases k v d :
  pydict.keys (pydict.set k v d)
  = match pydict.get k d with
    | Some _ => pydict.keys d
    | None => pydict.keys d ++ [k]
    end.
Proof.
  unfold pydict.keys. induction d as [|[k0 v0] d IH]; simpl; [done|].
  destruct (decide (k = k0)) as [->|Hk]; [done|].
  rewrite fmap_cons, IH. by destruct (pydict.get k d).
Qed.

Lemma pydict_values_set_new k v d :
  pydict.get k d = None -> pydict.values (pydict.set k v d) = pydict.values d ++ [v].
Proof.
  unfold pydict.values. induction d as [|[k0 v0] d IH]; simpl; [done|].
  destruct (decide (k = k0)) as [->|Hk]; [done|].
  intros Hn. by rewrite fmap_cons, IH.
Qed.

Lemma pydict_NoDup_keys_set k v d :
  NoDup (pydict.keys d) -> NoDup (pydict.keys (pydict.set k v d)).
Proof.
  intros Hd. rewrite pydict_keys_set_cases.
  destruct (pydict.get k d) eqn:E; [done|].
  apply NoDup_app. split; [done|]. split; [|apply NoDup_singleton].
  intros x Hx ->%list_elem_of_singleton. by apply pydict_get_None in E.
Qed.

Lemma pydict_get_Some_keys k v d : pydict.get k d = Some v -> k ∈ pydict.keys d.
Proof.
  intros E. destruct (decide (k ∈ pydict.keys d)) as [|Hn]; [done|].
  apply pydict_get_None in Hn. congruence.
Qed.

Lemma pydict_get_Some_values k v d : pydict.get k d = Some v -> v ∈ pydict.values d.
Proof.
  unfold pydict.values. induction d as [|[k0 v0] d IH]; simpl; [done|].
  destruct (decide (k = k0)) as [->|Hk].
  - intros [= ->]. left.
  - intros E. right. by apply IH.
Qed.

End pydict_more.

(** ** [mirror_page], from the fetch to the record *)

Section mirror_page_more.
Context `{Collaborators}.

(** X1.  [mirror_page] never raises: whatever the collaborators do, it returns a
    record or [None].  It asks the web once, for its URL.  The registry is
    changed only when a record is returned, and then only by putting that
    record under the URL; the gaming mirror is never touched. *)
Theorem mirror_page_never_raises url s :
  exists result s',
    mirror_page url s = (Ok result, s') /\
    fetches [url] s s' /\
    gaming s' = gaming s /\
    web s' = match result with
             | Some r => set_mirrors (pydict.set url r (mirrors (web s))) (web s)
             | None => web s
             end.
Proof.
  destruct (mirror_page url s) as [o s'] eqn:E.
  pose proof (wp_run _ _ _ _ _ (mirror_page_fetches url s) E) as Hf.
  pose proof (mirror_page_run _ _ _ _ E) as HE.
  destruct o as [[r|]|e]; [| |done].
  - exists (Some r), s'. destruct (mirrored_web _ _ _ _ HE) as [Hw Hg]. done.
  - exists None, s'. by destruct HE as (_ & ? & ?).
Qed.

(** X2.  When the GET does not answer with status 200, because it answers with
    another status or because it raises, [mirror_page] returns [None] and
    has done nothing but the GET: nothing is converted, stored, verified or
    registered. *)
Theorem mirror_page_without_200 url s :
  (forall content, answer_session_get (length (trace s)) url <> Ok (200, content)) ->
  mirror_page url s = (Ok None, with_trace (fun t => t ++ [session_get url]) s).
Proof.
  intros Hno. unfold mirror_page, try_except, bind, call.
  destruct (answer_session_get _ _) as [[status content]|e] eqn:E; [|done]. simpl.
  destruct (status =? 200) eqn:Hs; [|done].
  apply Z.eqb_eq in Hs as ->. by destruct (Hno content).
Qed.

(** X3.  The record of a mirrored page: its content hash is the first 16
    hexadecimal digits of the SHA-256 digest of the body that the GET
    returned with status 200; it carries the URL, the configured acoustic
    flag and the wavelength flag; and its time is the last of the eight
    calls that a successful [mirror_page] makes. *)
Theorem mirror_page_record_of_body url s r s' :
  mirror_page url s = (Ok (Some r), s') ->
  exists content,
    answer_session_get (length (trace s)) url = Ok (200, content) /\
    content_hash r = String.substring 0 16 (hashlib.sha256_hexdigest content) /\
    String.length (content_hash r) = 16%nat /\
    hex_text (content_hash r) = true /\
    http_url r = url /\
    wavelength_encoded r = true /\
    acoustic_encoded r = acoustic_encoding_enabled (web s) /\
    length (trace s') = (length (trace s) + 8)%nat /\
    last (trace s') = Some time_time /\
    last_updated r = answer_time_time (length (trace s) + 7).
Proof.
  intros E.
  destruct (mirror_page_success _ _ _ _ E)
    as (content & md & g & c & netloc & path & b & Eget & Ht & _ & _ & _ & _ & _ & _ & _ & _
        & _ & _ & Hr & _).
  exists content. split; [exact Eget|].
  destruct (sha256_prefix 16 content) as [Hlen Hhex]; [lia|].
  rewrite Hr. simpl. repeat split; try done.
  - rewrite Ht, length_app. done.
  - by rewrite Ht, last_app.
Qed.

(** X4.  What a successful [mirror_page] has put into the DHT: the body as it
    was fetched, with metadata that name the URL, the encoding, the mirror
    nodes of the record and the time of the call before, and that say
    ['acoustic_encoded': True] whenever acoustic encoding is switched on; the
    address of the record is what the DHT answered. *)
Theorem mirror_page_stores_body url s r s' :
  mirror_page url s = (Ok (Some r), s') ->
  let t := length (trace s) in
  exists content md,
    answer_session_get t url = Ok (200, content) /\
    trace s' !! (t + 3)%nat = Some (dht_store_content content md) /\
    answer_dht_store_content (t + 3) content md = Ok (luxbin_address r) /\
    source_url md = url /\
    encoding md = "luxbin_wavelength" /\
    md_mirror_nodes md = mirror_nodes r /\
    mirror_timestamp md = answer_time_time (t + 2) /\
    (acoustic_encoding_enabled (web s) = true -> md_acoustic_encoded md = VBool true).
Proof.
  intros E t.
  destruct (mirror_page_success _ _ _ _ E)
    as (content & md & g & c & netloc & path & b & Eget & Ht & Hu & He & Hn & Hts & Hac & Ea
        & _ & _ & _ & _ & Hr & _).
  exists content, md. repeat split; try done.
  - rewrite Ht, lookup_app_r by (subst t; lia).
    by replace (t + 3 - length (trace s))%nat with 3%nat by (subst t; lia).
  - rewrite Hn, Hr. done.
Qed.

(** X5.  The registry after a successful [mirror_page]: the records of the other
    URLs are as they were; a URL that was there keeps its place and a new
    one comes last; and the count of the statistics goes up by one exactly
    when the URL is new. *)
Theorem mirror_page_updates_registry url s r s' :
  mirror_page url s = (Ok (Some r), s') ->
  (forall url', url' <> url ->
     pydict.get url' (mirrors (web s')) = pydict.get url' (mirrors (web s))) /\
  pydict.keys (mirrors (web s'))
  = match pydict.get url (mirrors (web s)) with
    | Some _ => pydict.keys (mirrors (web s))
    | None => pydict.keys (mirrors (web s)) ++ [url]
    end /\
  total_mirrors (get_mirror_statistics (web s'))
  = total_mirrors (get_mirror_statistics (web s))
    + match pydict.get url (mirrors (web s)) with Some _ => 0 | None => 1 end.
Proof.
  intros E. apply mirror_page_run in E.
  destruct (mirrored_web _ _ _ _ E) as [Hw _]. rewrite Hw. simpl.
  split; [intros url' Hne; by apply pydict_get_set_ne|].
  split; [apply pydict_keys_set_cases|].
  rewrite pydict_length_set. destruct (pydict.get url (mirrors (web s))); lia.
Qed.

End mirror_page_more.

Lemma mirror_page_without_200_witness :
  (forall content,
     answer_session_get (Collaborators := not_found)
       (length (trace (stub.start stub.backends))) "https://example.com"
     <> Ok (200, content)) /\
  mirror_page (H := not_found) "https://example.com" (stub.start stub.backends)
  = (Ok None,
     with_trace (fun t => t ++ [session_get "https://example.com"])
       (stub.start stub.backends)).
Proof.
  refine ((fun Hno => conj Hno
            (mirror_page_without_200 (H := not_found) "https://example.com"
               (stub.start stub.backends) Hno)) _).
  intros content. discriminate.
Defined.

Lemma mirror_page_record_of_body_witness :
  let s := stub.start stub.backends in
  let run := mirror_page (H := steady 0.71) "https://example.com" s in
  exists r,
    run = (Ok (Some r), run.2) /\
    exists content,
      answer_session_get (Collaborators := steady 0.71) (length (trace s))
        "https://example.com" = Ok (200, content) /\
      content_hash r = String.substring 0 16 (hashlib.sha256_hexdigest content) /\
      String.length (content_hash r) = 16%nat /\
      hex_text (content_hash r) = true /\
      http_url r = "https://example.com" /\
      wavelength_encoded r = true /\
      acoustic_encoded r = acoustic_encoding_enabled (web s) /\
      length (trace run.2) = (length (trace s) + 8)%nat /\
      last (trace run.2) = Some time_time /\
      last_updated r
      = answer_time_time (Collaborators := steady 0.71) (length (trace s) + 7).
Proof.
  intros s run. eexists.
  refine ((fun E => conj E (mirror_page_record_of_body (H := steady 0.71) _ _ _ _ E)) _).
  vm_compute. reflexivity.
Defined.

Lemma mirror_page_stores_body_witness :
  let s := stub.start stub.backends in
  let run := mirror_page (H := steady 0.71) "https://example.com" s in
  exists r,
    run = (Ok (Some r), run.2) /\
    exists content md,
      answer_session_get (Collaborators := steady 0.71) (length (trace s))
        "https://example.com" = Ok (200, content) /\
      trace run.2 !! (length (trace s) + 3)%nat = Some (dht_store_content content md) /\
      answer_dht_store_content (Collaborators := steady 0.71) (length (trace s) + 3)
        content md = Ok (luxbin_address r) /\
      source_url md = "https://example.com" /\
      encoding md = "luxbin_wavelength" /\
      md_mirror_nodes md = mirror_nodes r /\
      mirror_timestamp md
      = answer_time_time (Collaborators := steady 0.71) (length (trace s) + 2) /\
      (acoustic_encoding_enabled (web s) = true -> md_acoustic_encoded md = VBool true).
Proof.
  intros s run. eexists.
  refine ((fun E => conj E (mirror_page_stores_body (H := steady 0.71) _ _ _ _ E)) _).
  vm_compute. reflexivity.
Defined.

Lemma mirror_page_updates_registry_witness :
  let s := stub.start stub.backends in
  let run := mirror_page (H := steady 0.71) "https://example.com" s in
  exists r,
    run = (Ok (Some r), run.2) /\
    (forall url', url' <> "https://example.com" ->
       pydict.get url' (mirrors (web run.2)) = pydict.get url' (mirrors (web s))) /\
    pydict.keys (mirrors (web run.2))
    = match pydict.get "https://example.com" (mirrors (web s)) with
      | Some _ => pydict.keys (mirrors (web s))
      | None => pydict.keys (mirrors (web s)) ++ ["https://example.com"]
      end /\
    total_mirrors (get_mirror_statistics (web run.2))
    = total_mirrors (get_mirror_statistics (web s))
      + match pydict.get "https://example.com" (mirrors (web s)) with
        | Some _ => 0
        | None => 1
        end.
Proof.
  intros s run. eexists.
  refine ((fun E => conj E (mirror_page_updates_registry (H := steady 0.71) _ _ _ _ E)) _).
  vm_compute. reflexivity.
Defined.

(** ** The name under which a URL is registered *)

Lemma length_replace_dots s : String.length (replace_dots s) = String.length s.
Proof. induction s as [|c s IH]; simpl; [done|]. by rewrite IH. Qed.

Lemma replace_dots_no_dot s : "."%char ∉ list_ascii_of_string (replace_dots s).
Proof.
  induction s as [|c s IH]; simpl; [apply not_elem_of_nil|].
  apply not_elem_of_cons. split; [|exact IH].
  destruct (Ascii.eqb c ".") eqn:E; [done|]. intros <-. by rewrite Ascii.eqb_refl in E.
Qed.

Section register_url_mapping_more.
Context `{Collaborators}.

(** X6.  [register_url_mapping] registers the address under a name made of the
    host with every dot replaced by an underscore, an underscore, and the
    first 8 hexadecimal digits of the MD5 digest of the path; the owner is
    always ['web_mirror_gateway'].  Scheme, query and fragment do not enter
    the name.  A URL that [urlparse] refuses is not registered, and an error
    of the name system is passed on; nothing but the log changes. *)
Theorem register_url_mapping_name http_url luxbin_address s o s' :
  register_url_mapping http_url luxbin_address s = (o, s') ->
  heap s' = heap s /\ web s' = web s /\ gaming s' = gaming s /\
  match urlparse http_url with
  | Raise e => o = Raise e /\ trace s' = trace s
  | Ok (netloc, path) =>
      let domain_name := replace_dots netloc in
      let path_hash :=
        String.substring 0 8 (hashlib.md5_hexdigest (list_byte_of_string path)) in
      let name := domain_name +:+ "_" +:+ path_hash in
      trace s' = trace s ++ [register_name name luxbin_address "web_mirror_gateway"] /\
      String.length domain_name = String.length netloc /\
      ("."%char ∉ list_ascii_of_string domain_name) /\
      String.length path_hash = 8%nat /\ hex_text path_hash = true /\
      o = match answer_register_name (length (trace s)) name luxbin_address
                  "web_mirror_gateway" with
          | Ok _ => Ok tt
          | Raise e => Raise e
          end
  end.
Proof.
  rewrite register_url_mapping_run.
  destruct (urlparse http_url) as [[netloc path]|e]; [|by intros [= <- <-]].
  simpl. intros E.
  destruct (md5_prefix 8 (list_byte_of_string path)) as [Hlen Hhex]; [lia|].
  assert (E' : s' = with_trace (fun tr => tr ++
                 [register_name (replace_dots netloc +:+ "_" +:+
                    String.substring 0 8 (hashlib.md5_hexdigest (list_byte_of_string path)))
                    luxbin_address "web_mirror_gateway"]) s
               /\ o = match answer_register_name (length (trace s))
                              (replace_dots netloc +:+ "_" +:+
                               String.substring 0 8
                                 (hashlib.md5_hexdigest (list_byte_of_string path)))
                              luxbin_address "web_mirror_gateway" with
                      | Ok _ => Ok tt
                      | Raise e => Raise e
                      end).
  { destruct (answer_register_name _ _ _ _); by injection E as <- <-. }
  destruct E' as [-> ->]. simpl.
  repeat split; try done.
  - apply length_replace_dots.
  - apply replace_dots_no_dot.
Qed.

End register_url_mapping_more.

Lemma register_url_mapping_name_witness :
  exists s',
    register_url_mapping (H := steady 0.71) "www.example.com" "luxbin://a"
      (stub.start stub.backends) = (Ok tt, s') /\
    trace s' = [register_name "example_com_7c1767b3" "luxbin://a" "web_mirror_gateway"].
Proof.
  eexists.
  eassert (E : register_url_mapping (H := steady 0.71) "www.example.com" "luxbin://a"
                 (stub.start stub.backends) = (Ok tt, _))
    by (vm_compute; reflexivity).
  destruct (register_url_mapping_name (H := steady 0.71) _ _ _ _ _ E) as (_ & _ & _ & T).
  split; [exact E|]. destruct T as (Ht & _). rewrite Ht. vm_compute. reflexivity.
Defined.

(** ** The links of a page *)

Section extract_links_more.
Context `{Collaborators}.

Lemma same_domain_links_sound base_url hrefs : forall links u,
  u ∈ same_domain_links base_url hrefs links ->
  u ∈ links \/
  exists href a b,
    href ∈ hrefs /\ urljoin base_url href = Ok u /\
    urlparse u = Ok a /\ urlparse base_url = Ok b /\ a.1 = b.1.
Proof.
  induction hrefs as [|href hrefs IH]; intros links u; simpl; [by left|].
  destruct (urljoin base_url href) as [absolute_url|e] eqn:Ej; [|by left].
  destruct (urlparse absolute_url) as [a|e] eqn:Ea; [|by left].
  destruct (urlparse base_url) as [b|e] eqn:Eb; [|by left].
  intros Hu. apply IH in Hu as [Hu|(href' & a' & b' & Hin & Hrest)].
  - destruct (decide (a.1 = b.1)) as [Hab|Hab]; [|by left].
    apply elem_of_union in Hu as [Hu|Hu]; [by left|].
    apply elem_of_singleton in Hu as ->. right.
    exists href, a, b. split; [left|done].
  - right. exists href', a', b'. split; [by right|done].
Qed.

Lemma same_domain_links_stops base_url before bad after : forall links,
  unparsable base_url bad ->
  same_domain_links base_url (before ++ bad :: after) links
  = same_domain_links base_url before links.
Proof.
  intros links Hbad. revert links. induction before as [|href before IH]; intros links; simpl.
  - unfold unparsable in Hbad.
    destruct (urljoin base_url bad) as [absolute_url|e]; [|done].
    destruct (urlparse absolute_url) as [a|e]; [|done].
    by destruct (urlparse base_url) as [b|e].
  - destruct (urljoin base_url href) as [absolute_url|e]; [|done].
    destruct (urlparse absolute_url) as [a|e]; [|done].
    destruct (urlparse base_url) as [b|e]; [|done].
    apply IH.
Qed.

(** X7.  [extract_links] never raises and asks the DHT once, for the address of
    the record.  Every link it returns is the absolute form of an anchor of
    the page that was retrieved, and has the host of the base URL.  An
    anchor that cannot be joined or parsed ends the loop: the links of the
    anchors before it are returned, the anchors after it are not looked
    at. *)
Theorem extract_links_same_domain base_url r s :
  exists links,
    extract_links base_url r s
    = (Ok links, with_trace (fun t => t ++ [dht_retrieve_content (luxbin_address r)]) s) /\
    (forall u, u ∈ links ->
       exists content hrefs href a b,
         answer_dht_retrieve_content (length (trace s)) (luxbin_address r)
           = Ok (Some content) /\
         content <> [] /\
         anchor_hrefs content = Ok hrefs /\ href ∈ hrefs /\
         urljoin base_url href = Ok u /\
         urlparse u = Ok a /\ urlparse base_url = Ok b /\ a.1 = b.1) /\
    (forall content before bad after,
       answer_dht_retrieve_content (length (trace s)) (luxbin_address r)
         = Ok (Some content) ->
       anchor_hrefs content = Ok (before ++ bad :: after) ->
       unparsable base_url bad ->
       forall u, u ∈ links -> exists href, href ∈ before /\ urljoin base_url href = Ok u).
Proof.
  unfold extract_links, try_except, bind, call.
  destruct (answer_dht_retrieve_content _ _) as [[[|byte content]|]|e] eqn:Ed; simpl;
    try (exists ∅; split; [done|]; split; [intros u Hu|intros ? ? ? ? ? ? ? u Hu];
         by apply elem_of_empty in Hu).
  destruct (anchor_hrefs (byte :: content)) as [hrefs|e] eqn:Eh; simpl.
  2: { exists ∅. split; [done|]. split; [intros u Hu|intros ? ? ? ? ? ? ? u Hu];
       by apply elem_of_empty in Hu. }
  exists (same_domain_links base_url hrefs ∅). split; [done|]. split.
  - intros u Hu. apply same_domain_links_sound in Hu as [Hu|(href & a & b & Hin & Hrest)].
    { by apply elem_of_empty in Hu. }
    exists (byte :: content), hrefs, href, a, b. by rewrite Eh.
  - intros content' before bad after [= <-] Hh Hbad u Hu.
    rewrite Eh in Hh. injection Hh as ->.
    rewrite same_domain_links_stops in Hu by done.
    apply same_domain_links_sound in Hu as [Hu|(href & a & b & Hin & Hj & _)].
    { by apply elem_of_empty in Hu. }
    by exists href.
Qed.

End extract_links_more.

(** ** More on the resync tick *)

#[global] Instance log_only_preorder : PreOrder log_only.
Proof.
  unfold log_only. split; [done|].
  intros s1 s2 s3 (?&?&?&?) (?&?&?&?). repeat split; [congruence..|by etrans].
Qed.

Section sync_mirrors_more.
Context `{Collaborators}.

Lemma keeps_entangle_log luxbin_address content_hash :
  keeps log_only (entangle_mirrors luxbin_address content_hash).
Proof.
  intros s. unfold wp. rewrite entangle_mirrors_run. simpl.
  destruct (answer_create_ghz_network_state _ _) as [g|e]; simpl.
  - destruct (answer_measure_entanglement_correlation _ _ _); simpl;
      (repeat split; by apply prefix_app_r).
  - repeat split; by apply prefix_app_r.
Qed.

Lemma keeps_sync_mirrors_log : keeps log_only sync_mirrors.
Proof.
  unfold sync_mirrors. apply keeps_bind; [exact _|apply keeps_gets; exact _|].
  intros self. apply keeps_for_each; [exact _|]. intros [url m]. simpl.
  apply keeps_if; [|apply keeps_ret; exact _].
  apply keeps_bind; [exact _|apply keeps_entangle_log|intros; apply keeps_ret; exact _].
Qed.

Lemma re_entangle_verified (ms : list (string * MirrorRecord)) s :
  Forall (fun x => entanglement_verified x.2 = true) ms ->
  for_each ms re_entangle s = (Ok tt, s).
Proof.
  induction 1 as [|[url m] ms Hm _ IH]; simpl; [done|].
  simpl in Hm. rewrite Hm. simpl. unfold bind at 1, ret at 1. exact IH.
Qed.

(** X8.  A resync tick changes no record: whatever the verifier answers, and
    whether the tick comes to its end or not, the registry, the gaming
    mirror and the heap are what they were, so that a record that was
    unverified is unverified after the tick and the statistics are the same.
    The tick fetches nothing, and when every record is verified it makes no
    call at all. *)
Theorem sync_mirrors_changes_no_record s o s' :
  sync_mirrors s = (o, s') ->
  web s' = web s /\ gaming s' = gaming s /\ heap s' = heap s /\
  trace s `prefix_of` trace s' /\
  fetched (drop (length (trace s)) (trace s')) = [] /\
  get_mirror_statistics (web s') = get_mirror_statistics (web s) /\
  (Forall (fun m => entanglement_verified m = true) (pydict.values (mirrors (web s))) ->
   o = Ok tt /\ trace s' = trace s).
Proof.
  intros E.
  destruct (wp_run _ _ _ _ _ (keeps_sync_mirrors_log s) E) as (Hh & Hw & Hg & Ht).
  do 4 (split; [done|]). split; [|split; [by rewrite Hw|]].
  - assert (Hq : keeps (fetches []) sync_mirrors).
    { unfold sync_mirrors. apply keeps_bind; [exact _|apply keeps_gets; exact _|].
      intros self. apply keeps_for_each; [exact _|]. intros [url m]. simpl.
      apply keeps_if; [|apply keeps_ret; exact _].
      apply keeps_bind; [exact _|apply keeps_entangle_quiet|intros; apply keeps_ret; exact _]. }
    destruct (wp_run _ _ _ _ _ (Hq s) E) as (evs & -> & Hf).
    by rewrite drop_app_length.
  - intros Hall. revert E. unfold sync_mirrors, bind, gets. simpl.
    rewrite re_entangle_verified; [by intros [= <- <-]|].
    unfold pydict.values in Hall. by apply Forall_fmap in Hall.
Qed.

Lemma for_each_app {A} (l1 l2 : list A) (body : A -> M unit) s :
  for_each (l1 ++ l2) body s
  = match for_each l1 body s with
    | (Ok _, s1) => for_each l2 body s1
    | (Raise e, s1) => (Raise e, s1)
    end.
Proof.
  revert s. induction l1 as [|x l1 IH]; intros s; simpl; [done|].
  unfold bind. destruct (body x s) as [[[]|e] s1]; [apply IH|done].
Qed.

(** X9.  [sync_mirrors] has no handler.  When the verifier raises for the first
    record that is not verified, while the GHZ state is made or while the
    correlation is measured, the tick ends with that exception; the records
    after it are not looked at. *)
Theorem sync_mirrors_verifier_error s before url m after e :
  mirrors (web s) = before ++ (url, m) :: after ->
  Forall (fun x => entanglement_verified x.2 = true) before ->
  entanglement_verified m = false ->
  let t := length (trace s) in
  let n := mirror_replication (web s) in
  (answer_create_ghz_network_state t n = Raise e ->
   sync_mirrors s
   = (Raise e, with_trace (fun tr => tr ++ [create_ghz_network_state n]) s)) /\
  (forall g,
     answer_create_ghz_network_state t n = Ok g ->
     answer_measure_entanglement_correlation (S t) g (content_hash m) = Raise e ->
     sync_mirrors s
     = (Raise e,
        with_trace (fun tr => tr ++ [create_ghz_network_state n;
                      measure_entanglement_correlation g (content_hash m)]) s)).
Proof.
  intros Hm Hbefore Hv t n.
  assert (E : sync_mirrors s
              = match entangle_mirrors (luxbin_address m) (content_hash m) s with
                | (Ok _, s1) => for_each after re_entangle s1
                | (Raise e, s1) => (Raise e, s1)
                end).
  { unfold sync_mirrors, bind at 1, gets. rewrite Hm, for_each_app.
    rewrite re_entangle_verified by done. simpl. rewrite Hv. simpl.
    unfold bind. by destruct (entangle_mirrors _ _ s) as [[b|e'] s1]. }
  rewrite E, entangle_mirrors_run. simpl. fold t. fold n. split.
  - by intros ->.
  - intros g -> Hc. by rewrite Hc.
Qed.

End sync_mirrors_more.

Lemma sync_mirrors_changes_no_record_witness :
  let s := (mirror_page (H := rising) "https://example.com" (stub.start stub.backends)).2 in
  let run := sync_mirrors (H := rising) s in
  run = (Ok tt, run.2) /\
  web run.2 = web s /\ gaming run.2 = gaming s /\ heap run.2 = heap s /\
  trace s `prefix_of` trace run.2 /\
  fetched (drop (length (trace s)) (trace run.2)) = [] /\
  get_mirror_statistics (web run.2) = get_mirror_statistics (web s) /\
  (Forall (fun m => entanglement_verified m = true) (pydict.values (mirrors (web s))) ->
   Ok tt = Ok tt /\ trace run.2 = trace s).
Proof.
  intros s run.
  refine ((fun E => conj E (sync_mirrors_changes_no_record (H := rising) _ _ _ E)) _).
  vm_compute. reflexivity.
Defined.

Lemma sync_mirrors_verifier_error_witness :
  let s := (mirror_page (H := failing_later) "https://example.com"
              (stub.start stub.backends)).2 in
  exists url m g e,
    mirrors (web s) = [] ++ (url, m) :: [] /\
    entanglement_verified m = false /\
    sync_mirrors (H := failing_later) s
    = (Raise e,
       with_trace (fun tr => tr ++ [create_ghz_network_state 4;
                     measure_entanglement_correlation g (content_hash m)]) s).
Proof.
  intros s.
  eassert (Hm : mirrors (web s) = [] ++ (_, _) :: []) by (vm_compute; reflexivity).
  match type of Hm with
  | _ = [] ++ (?u, ?m) :: [] =>
      assert (Hv : entanglement_verified m = false) by reflexivity; exists u, m
  end.
  eexists _, _. split; [exact Hm|]. split; [exact Hv|].
  refine (proj2 (sync_mirrors_verifier_error (H := failing_later) s [] _ _ [] _
                   Hm (List.Forall_nil _) Hv) _ _ _).
  - vm_compute. reflexivity.
  - vm_compute. reflexivity.
Defined.

(** ** More on the statistics *)

Lemma length_filter_all {A} (P : A -> Prop) `{!forall x, Decision (P x)} (l : list A) :
  length (filter P l) = length l <-> Forall P l.
Proof.
  induction l as [|x l IH]; [by split|].
  rewrite filter_cons. destruct (decide (P x)) as [Hx|Hx]; simpl.
  - rewrite Forall_cons. split.
    + intros [= E]. split; [done|]. by apply IH.
    + intros [_ Hl]. f_equal. by apply IH.
  - split.
    + intros E. pose proof (length_filter P l). lia.
    + intros [Hx' _]%Forall_cons. done.
Qed.

Lemma length_filter_none {A} (P : A -> Prop) `{!forall x, Decision (P x)} (l : list A) :
  length (filter P l) = 0%nat <-> Forall (fun x => ~ P x) l.
Proof.
  induction l as [|x l IH]; [by split|].
  rewrite filter_cons, Forall_cons. destruct (decide (P x)) as [Hx|Hx]; simpl.
  - split; [done|]. by intros [? _].
  - rewrite IH. tauto.
Qed.

Lemma Qdiv_eq_1 (x y : Q) : ~ (y == 0)%Q -> (x / y == 1 <-> x == y)%Q.
Proof.
  intros Hy. split; intros E.
  - rewrite <- (Qmult_div_r x y Hy), E. apply Qmult_1_r.
  - rewrite E. unfold Qdiv. by apply Qmult_inv_r.
Qed.

Lemma Qdiv_eq_0 (x y : Q) : ~ (y == 0)%Q -> (x / y == 0 <-> x == 0)%Q.
Proof.
  intros Hy. split; intros E.
  - rewrite <- (Qmult_div_r x y Hy), E. apply Qmult_0_r.
  - rewrite E. unfold Qdiv. apply Qmult_0_l.
Qed.

(** X10.  The counts of [get_mirror_statistics]: the verified and the acoustically
    encoded records are counted among the records, so neither count exceeds
    the total.  The rate is 1 exactly when there is a record and every
    record is verified, and 0 exactly when no record is verified, which
    includes the empty registry.  The backends are counted as configured,
    not as used. *)
Theorem get_mirror_statistics_counts (self : QuantumWebMirror) :
  let stats := get_mirror_statistics self in
  let records := pydict.values (mirrors self) in
  (0 <= entangled_mirrors stats <= total_mirrors stats) /\
  (0 <= stat_acoustic_encoded stats <= total_mirrors stats) /\
  ((entanglement_rate stats == 1)%Q <->
   records <> [] /\ Forall (fun m => entanglement_verified m = true) records) /\
  ((entanglement_rate stats == 0)%Q <->
   Forall (fun m => entanglement_verified m = false) records) /\
  stat_quantum_backends stats = Z.of_nat (length (quantum_backends self)) /\
  stat_visited_urls stats = Z.of_nat (size (visited_urls self)).
Proof.
  intros stats records. subst stats. unfold get_mirror_statistics. simpl.
  rewrite !sum_1_if_count. fold records.
  assert (Hn : length (mirrors self) = length records)
    by (subst records; unfold pydict.values; by rewrite length_fmap).
  rewrite Hn. clearbody records. clear Hn.
  pose proof (length_filter (fun m => entanglement_verified m = true) records) as Hk.
  pose proof (length_filter (fun m => acoustic_encoded m = true) records) as Ha.
  pose proof (length_filter_all (fun m => entanglement_verified m = true) records) as Hall.
  pose proof (length_filter_none (fun m => entanglement_verified m = true) records) as Hnone.
  set (k := length (filter (fun m => entanglement_verified m = true) records)) in *.
  set (a := length (filter (fun m => acoustic_encoded m = true) records)) in *.
  clearbody k a.
  split; [lia|]. split; [lia|].
  assert (Hfalse : Forall (fun m => entanglement_verified m = false) records
                   <-> Forall (fun m => ~ entanglement_verified m = true) records).
  { apply Forall_proper; [|done]. intros m. destruct (entanglement_verified m); split; congruence. }
  destruct (0 <? Z.of_nat (length records)) eqn:L.
  - apply Z.ltb_lt in L.
    assert (Hy : ~ (inject_Z (Z.of_nat (length records)) == 0)%Q).
    { change 0%Q with (inject_Z 0). rewrite inject_Z_injective. lia. }
    rewrite Qdiv_eq_1, Qdiv_eq_0 by done.
    change 0%Q with (inject_Z 0). rewrite !inject_Z_injective.
    split; [|split; [|done]].
    + rewrite <- Hall. split.
      * intros E. split; [|lia]. intros E0. rewrite E0 in L. simpl in L. lia.
      * intros [_ E]. lia.
    + rewrite Hfalse, <- Hnone. lia.
  - apply Z.ltb_ge in L. assert (E0 : records = []) by (destruct records; [done|simpl in L; lia]).
    rewrite E0. split; [|split; [|done]].
    + split; [done|]. by intros [? _].
    + split; [by constructor|done].
Qed.

(** ** [apply_acoustic_encoding] once more, and on a show it cannot encode *)

Section acoustic_more.
Context `{Collaborators}.

(** The heap after the call, object by object. *)
Lemma apply_acoustic_encoding_heap s l d q items :
  heap s !! l = Some (ODict d) ->
  d !! "light_sequence" = Some (VRef q) ->
  heap s !! q = Some (OList items) ->
  Forall (item_ok (heap s)) items ->
  let l' := fresh (dom (heap s)) in
  exists s',
    apply_acoustic_encoding (VRef l) s = (Ok (VRef l'), s') /\
    heap_only s s' /\
    forall x, heap s' !! x
              = if decide (x = l')
                then Some (ODict (<["timing_standard" := VStr "morse_light"]>
                                    (<["acoustic_encoded" := VBool true]> d)))
                else if decide (VRef x ∈ items) then timed <$> heap s !! x
                else heap s !! x.
Proof.
  intros Hl Hseq Hq Hok l'.
  assert (Hfresh : heap s !! l' = None) by apply not_elem_of_dom, is_fresh.
  assert (Hnot : forall x, VRef x ∈ items -> x <> l').
  { intros x Hx ->. rewrite Forall_forall in Hok.
    destruct (Hok _ Hx) as (i & di & w & [= <-] & Hi & _). congruence. }
  set (s1 := with_heap (insert l' (ODict d)) s).
  assert (Hs1 : forall x, x <> l' -> heap s1 !! x = heap s !! x).
  { intros x Hx. subst s1. simpl. by rewrite lookup_insert_ne. }
  destruct (for_each_add_morse_timing items s1) as (s2 & Eloop & (Ht2 & Hw2 & Hg2) & Hh2).
  { eapply Forall_impl; [exact Hok|]. intros item Hitem.
    assert (Hi := Hitem). destruct Hi as (i & di & w & -> & Hi & Hw & Hn).
    exists i, di, w. rewrite Hs1; [done|]. intros ->. congruence. }
  assert (Hl'2 : heap s2 !! l' = Some (ODict d)).
  { rewrite Hh2, decide_False by (intros Hx; by apply (Hnot _ Hx)).
    subst s1. simpl. by rewrite lookup_insert_eq. }
  eexists. split.
  { unfold apply_acoustic_encoding, py_copy.
    unfold bind at 1. unfold bind at 1, deref. rewrite Hl. unfold alloc. fold l'. fold s1.
    unfold bind at 1. rewrite (getitem_run l d "light_sequence" (VRef q) s1);
      [|rewrite Hs1; [done|congruence]|done].
    unfold bind at 1, py_iter. unfold bind at 1, deref.
    rewrite Hs1 by congruence. rewrite Hq. unfold ret at 1. cbv beta iota.
    unfold bind at 1. rewrite Eloop.
    unfold bind at 1. rewrite (setitem_run _ _ _ _ _ Hl'2).
    unfold bind at 1. erewrite setitem_run by (simpl; apply lookup_insert_eq).
    reflexivity. }
  split; [done|]. intros x. simpl. rewrite insert_insert_eq.
  destruct (decide (x = l')) as [->|Hx]; [by rewrite lookup_insert_eq|].
  by rewrite lookup_insert_ne, Hh2, Hs1.
Qed.

Lemma timed_twice o : timed (timed o) = timed o.
Proof.
  destruct o as [di|items]; simpl; [|done].
  destruct (di !! "wavelength") as [w|] eqn:Hw; simpl; [|by rewrite Hw].
  by rewrite with_timing_wavelength, Hw, with_timing_twice.
Qed.

(** X11.  Encoding is idempotent: encoding the encoded show once more allocates
    one more dict, with the content of the first copy, and changes nothing
    else; the items keep the timing they had. *)
Theorem apply_acoustic_encoding_twice s l d q items :
  heap s !! l = Some (ODict d) ->
  d !! "light_sequence" = Some (VRef q) ->
  heap s !! q = Some (OList items) ->
  Forall (item_ok (heap s)) items ->
  exists l1 s1 l2 s2,
    apply_acoustic_encoding (VRef l) s = (Ok (VRef l1), s1) /\
    apply_acoustic_encoding (VRef l1) s1 = (Ok (VRef l2), s2) /\
    l1 <> l2 /\
    heap s2 !! l2 = heap s1 !! l1 /\
    (forall x, x <> l2 -> heap s2 !! x = heap s1 !! x).
Proof.
  intros Hl Hseq Hq Hok.
  destruct (apply_acoustic_encoding_heap s l d q items Hl Hseq Hq Hok) as (s1 & E1 & _ & H1).
  set (l1 := fresh (dom (heap s))) in *.
  set (d1 := <["timing_standard" := VStr "morse_light"]>
               (<["acoustic_encoded" := VBool true]> d)) in *.
  assert (Hfresh : heap s !! l1 = None) by apply not_elem_of_dom, is_fresh.
  assert (Hl1 : heap s1 !! l1 = Some (ODict d1)) by (by rewrite H1, decide_True).
  assert (Hseq1 : d1 !! "light_sequence" = Some (VRef q))
    by (subst d1; by rewrite !lookup_insert_ne).
  assert (Hq1 : heap s1 !! q = Some (OList items)).
  { rewrite H1, decide_False by congruence. rewrite Hq. by destruct (decide _). }
  assert (Hitems : forall i, VRef i ∈ items ->
            exists di w, heap s !! i = Some (ODict di) /\ di !! "wavelength" = Some w /\
                         is_number w /\ heap s1 !! i = Some (ODict (with_timing w di))).
  { intros i Hi. rewrite Forall_forall in Hok.
    destruct (Hok _ Hi) as (i' & di & w & [= <-] & Hdi & Hw & Hn).
    exists di, w. repeat split; try done.
    rewrite H1, decide_False, decide_True, Hdi by (done || congruence). simpl. by rewrite Hw. }
  assert (Hok1 : Forall (item_ok (heap s1)) items).
  { rewrite Forall_forall. intros item Hitem.
    assert (Hi := Hitem). rewrite Forall_forall in Hok.
    destruct (Hok _ Hitem) as (i & di & w & -> & _).
    destruct (Hitems _ Hi) as (di' & w' & _ & Hw & Hn & Hs1).
    exists i, (with_timing w' di'), w'. by rewrite with_timing_wavelength. }
  destruct (apply_acoustic_encoding_heap s1 l1 d1 q items Hl1 Hseq1 Hq1 Hok1)
    as (s2 & E2 & _ & H2).
  set (l2 := fresh (dom (heap s1))) in *.
  assert (Hfresh2 : heap s1 !! l2 = None) by apply not_elem_of_dom, is_fresh.
  exists l1, s1, l2, s2. split; [exact E1|]. split; [exact E2|].
  split; [congruence|]. split.
  - rewrite H2, decide_True, Hl1 by done. do 2 f_equal. subst d1.
    apply map_eq. intros k. rewrite !lookup_insert. by repeat case_decide.
  - intros x Hx. rewrite H2, decide_False by done.
    destruct (decide (VRef x ∈ items)) as [Hin|Hin]; [|done].
    destruct (Hitems _ Hin) as (di & w & _ & Hw & _ & ->). simpl.
    by rewrite with_timing_wavelength, Hw, with_timing_twice.
Qed.

(** X12.  An item without a wavelength ends the encoding with [KeyError]: the
    items before it in the sequence have their timing by then, in the
    caller's own dicts, and are left so; the item itself and what comes
    after it are as they were, and so is the caller's show. *)
Theorem apply_acoustic_encoding_missing_wavelength s l d q before i di after :
  heap s !! l = Some (ODict d) ->
  d !! "light_sequence" = Some (VRef q) ->
  heap s !! q = Some (OList (before ++ VRef i :: after)) ->
  Forall (item_ok (heap s)) before ->
  heap s !! i = Some (ODict di) ->
  di !! "wavelength" = None ->
  exists s',
    apply_acoustic_encoding (VRef l) s = (Raise (KeyError "wavelength"), s') /\
    heap_only s s' /\
    (forall j dj,
       VRef j ∈ before -> heap s !! j = Some (ODict dj) ->
       exists w, dj !! "wavelength" = Some w /\
                 heap s' !! j = Some (ODict (with_timing w dj))) /\
    (forall x, VRef x ∉ before -> x <> fresh (dom (heap s)) ->
       heap s' !! x = heap s !! x) /\
    heap s' !! fresh (dom (heap s)) = Some (ODict d).
Proof.
  intros Hl Hseq Hq Hok Hi Hnw.
  set (l' := fresh (dom (heap s))).
  assert (Hfresh : heap s !! l' = None) by apply not_elem_of_dom, is_fresh.
  assert (Hnot : forall x, VRef x ∈ before -> x <> l').
  { intros x Hx ->. rewrite Forall_forall in Hok.
    destruct (Hok _ Hx) as (j & dj & w & [= <-] & Hj & _). congruence. }
  assert (Hib : VRef i ∉ before).
  { intros Hx. rewrite Forall_forall in Hok.
    destruct (Hok _ Hx) as (j & dj & w & [= <-] & Hj & Hw & _). congruence. }
  set (s1 := with_heap (insert l' (ODict d)) s).
  assert (Hs1 : forall x, x <> l' -> heap s1 !! x = heap s !! x).
  { intros x Hx. subst s1. simpl. by rewrite lookup_insert_ne. }
  destruct (for_each_add_morse_timing before s1) as (s2 & Eloop & (Ht2 & Hw2 & Hg2) & Hh2).
  { eapply Forall_impl; [exact Hok|]. intros item Hitem.
    assert (Hj := Hitem). destruct Hj as (j & dj & w & -> & Hj & Hw & Hn).
    exists j, dj, w. rewrite Hs1; [done|]. intros ->. congruence. }
  assert (Hi2 : heap s2 !! i = Some (ODict di)).
  { rewrite Hh2, decide_False, Hs1 by (done || congruence). done. }
  exists s2. split.
  { unfold apply_acoustic_encoding, py_copy.
    unfold bind at 1. unfold bind at 1, deref. rewrite Hl. unfold alloc. fold l'. fold s1.
    unfold bind at 1. rewrite (getitem_run l d "light_sequence" (VRef q) s1);
      [|rewrite Hs1; [done|congruence]|done].
    unfold bind at 1, py_iter. unfold bind at 1, deref.
    rewrite Hs1 by congruence. rewrite Hq. unfold ret at 1. cbv beta iota.
    unfold bind at 1. rewrite for_each_app, Eloop. simpl.
    unfold bind at 1. unfold add_morse_timing, bind at 1, getitem, bind, deref.
    by rewrite Hi2, Hnw. }
  split; [done|]. split; [|split].
  - intros j dj Hin Hj. pose proof (Hnot _ Hin) as Hne.
    rewrite Forall_forall in Hok.
    destruct (Hok _ Hin) as (j' & dj' & w & [= <-] & Hj' & Hw & _).
    assert (dj' = dj) as -> by congruence.
    exists w. split; [done|].
    rewrite Hh2, decide_True, Hs1, Hj by done. simpl. by rewrite Hw.
  - intros x Hx Hne. by rewrite Hh2, decide_False, Hs1.
  - rewrite Hh2, decide_False by (intros Hx; by apply (Hnot _ Hx)).
    subst s1. simpl. by rewrite lookup_insert_eq.
Qed.

End acoustic_more.

Lemma apply_acoustic_encoding_twice_witness :
  exists l1 s1 l2 s2,
    apply_acoustic_encoding (VRef 5%positive) show_state = (Ok (VRef l1), s1) /\
    apply_acoustic_encoding (VRef l1) s1 = (Ok (VRef l2), s2) /\
    l1 <> l2 /\
    heap s2 !! l2 = heap s1 !! l1 /\
    (forall x, x <> l2 -> heap s2 !! x = heap s1 !! x).
Proof.
  apply (apply_acoustic_encoding_twice show_state 5%positive
           {["light_sequence" := VRef 4%positive]} 4%positive show_items);
    [reflexivity..|].
  repeat constructor.
  - by exists 1%positive, {["wavelength" := VInt 450]}, (VInt 450).
  - by exists 2%positive, {["wavelength" := VFloat 550.5]}, (VFloat 550.5).
  - by exists 3%positive, {["wavelength" := VInt 650]}, (VInt 650).
  - by exists 1%positive, {["wavelength" := VInt 450]}, (VInt 450).
Defined.

Lemma apply_acoustic_encoding_missing_wavelength_witness :
  exists s',
    apply_acoustic_encoding (VRef 5%positive) broken_show_state
      = (Raise (KeyError "wavelength"), s') /\
    heap s' !! 1%positive
      = Some (ODict (with_timing (VInt 450) {["wavelength" := VInt 450]})) /\
    heap s' !! 3%positive = Some (ODict {["wavelength" := VInt 650]}).
Proof.
  destruct (apply_acoustic_encoding_missing_wavelength broken_show_state 5%positive
              {["light_sequence" := VRef 4%positive]} 4%positive
              [VRef 1%positive] 2%positive {["colour" := VStr "green"]} [VRef 3%positive])
    as (s' & E & _ & Hbefore & Hother & _); [reflexivity..| |reflexivity|reflexivity|].
  { repeat constructor.
    by exists 1%positive, {["wavelength" := VInt 450]}, (VInt 450). }
  exists s'. split; [exact E|]. split.
  - destruct (Hbefore 1%positive {["wavelength" := VInt 450]}) as (w & Hw & Hs');
      [left|reflexivity|].
    injection Hw as <-. exact Hs'.
  - etrans; [apply Hother|reflexivity]; [|done].
    intros Hin. by apply list_elem_of_singleton in Hin.
Defined.

(** ** The crawl, fetch by fetch *)

Lemma fetches_same_trace us s1 s2 s1' s2' :
  trace s1' = trace s1 -> trace s2' = trace s2 -> fetches us s1 s2 -> fetches us s1' s2'.
Proof. intros E1 E2 (evs & Ht & Hf). exists evs. by rewrite E1, E2. Qed.

Lemma union_singleton_absorb (V L : gset string) (u : string) :
  u ∈ V -> V ∪ {[u]} ∪ L = V ∪ L.
Proof.
  intros Hu. f_equal. rewrite (comm_L (∪)). apply subseteq_union_1_L.
  by apply singleton_subseteq_l.
Qed.

Lemma elem_of_union_singleton (V : gset string) (u : string) : u ∈ V ∪ {[u]}.
Proof. by apply elem_of_union_r, elem_of_singleton. Qed.

Lemma singleton_difference_diag (u : string) : ({[u]} : gset string) ∖ {[u]} = ∅.
Proof. apply leibniz_equiv, difference_diag. Qed.

Lemma singleton_not_empty (u : string) : ({[u]} : gset string) ≠ ∅.
Proof. apply non_empty_singleton_L. Qed.

Section crawl_more.
Context `{Collaborators}.

Lemma extract_links_run base_url r s :
  exists links,
    extract_links base_url r s
    = (Ok links, with_trace (fun t => t ++ [dht_retrieve_content (luxbin_address r)]) s).
Proof.
  unfold extract_links, try_except, bind, call.
  destruct (answer_dht_retrieve_content _ _) as [[[|b content]|]|e]; simpl; eauto.
  destruct (anchor_hrefs _); simpl; eauto.
Qed.

(** One iteration of the loop, entered with a queue that is not empty.  A
    URL is taken out of the queue.  If it was visited, nothing else happens.
    If not, it is marked and fetched, once; when [mirror_page] returns a
    record, the record is put under the URL into the pages and into the
    registry, and the links of the page may join the queue. *)
Lemma crawl_iteration_run recursive max_pages pages s :
  crawl_queue (web s) ≠ ∅ ->
  exists u pages' s',
    crawl_iteration recursive max_pages pages s = (Ok pages', s') /\
    u ∈ crawl_queue (web s) /\
    gaming s' = gaming s /\
    visited_urls (web s') = visited_urls (web s) ∪ {[u]} /\
    ((u ∈ visited_urls (web s) /\ pages' = pages /\ fetches [] s s' /\
      mirrors (web s') = mirrors (web s) /\
      crawl_queue (web s') = crawl_queue (web s) ∖ {[u]})
     \/ ((u ∉ visited_urls (web s)) /\ fetches [u] s s' /\
         ((pages' = pages /\ mirrors (web s') = mirrors (web s) /\
           crawl_queue (web s') = crawl_queue (web s) ∖ {[u]})
          \/ exists r links,
               pages' = pydict.set u r pages /\ http_url r = u /\
               mirrors (web s') = pydict.set u r (mirrors (web s)) /\
               crawl_queue (web s') = (crawl_queue (web s) ∖ {[u]}) ∪ links /\
               (recursive = false -> links = ∅)))).
Proof.
  intros Hq. unfold crawl_iteration.
  unfold bind at 1, crawl_queue_pop. rewrite decide_False by done.
  set (u := set_pop _ _). assert (Hu : u ∈ crawl_queue (web s)) by (by apply set_pop_elem).
  clearbody u. unfold bind at 1, gets. simpl.
  destruct (bool_decide (u ∈ visited_urls (web s))) eqn:Hv.
  { apply bool_decide_eq_true in Hv. eexists u, pages, _. split; [reflexivity|]. simpl.
    split; [done|]. split; [done|]. split.
    { symmetry. rewrite (comm_L (∪)). apply subseteq_union_1_L. by apply singleton_subseteq_l. }
    left. repeat split; try done. exists []. simpl. by rewrite app_nil_r. }
  apply bool_decide_eq_false in Hv.
  unfold bind at 1, modify. set (s2 := with_web _ (with_web _ s)).
  destruct (mirror_page_returns u s2) as (result & s3 & E & _ & Hg & Hr).
  pose proof (wp_run _ _ _ _ _ (mirror_page_fetches u s2) E) as Hf.
  unfold bind at 1. rewrite E. destruct result as [r|].
  - destruct (mirrored_web _ _ _ _ Hr) as [Hw _].
    destruct (mirrored_record _ _ _ _ Hr) as [Hurl _].
    unfold bind at 1. destruct (recursive && _) eqn:G.
    + destruct (extract_links_run u r s3) as (links & El).
      unfold bind at 1. rewrite El. unfold modify, ret.
      eexists u, (pydict.set u r pages), _. split; [reflexivity|]. simpl.
      rewrite Hw, Hg. simpl.
      split; [done|]. split; [done|]. split; [done|]. right. split; [done|]. split.
      { apply (fetches_app [u] [] s s3).
        - by apply (fetches_same_trace [u] s2 s3).
        - by eexists [_]. }
      right. exists r, links. repeat split; try done.
      intros Hrec. by rewrite Hrec in G.
    + unfold ret at 1. unfold ret.
      eexists u, (pydict.set u r pages), _. split; [reflexivity|].
      rewrite Hw, Hg. simpl.
      split; [done|]. split; [done|]. split; [done|]. right. split; [done|]. split.
      { by apply (fetches_same_trace [u] s2 s3). }
      right. exists r, ∅. repeat split; try done. by rewrite (right_id_L ∅ (∪)).
  - unfold ret. eexists u, pages, _. split; [reflexivity|]. rewrite Hr, Hg. simpl.
    split; [done|]. split; [done|]. split; [done|]. right. split; [done|]. split.
    { by apply (fetches_same_trace [u] s2 s3). }
    by left.
Qed.

(** The loop: what it fetches it fetches once and marks as visited, and the
    pages it returns are in the registry when those it began with are. *)
Lemma crawl_run fuel recursive max_pages : forall pages s result s',
  crawl fuel recursive max_pages pages s = (Ok (Some result), s') ->
  exists us,
    fetches us s s' /\ NoDup us /\
    (forall u, u ∈ us -> u ∉ visited_urls (web s)) /\
    visited_urls (web s') = visited_urls (web s) ∪ list_to_set us /\
    gaming s' = gaming s /\
    (forall u, u ∈ pydict.keys result -> u ∈ pydict.keys pages \/ u ∈ us) /\
    (length result <= length pages + length us)%nat /\
    ((forall u r, pydict.get u pages = Some r ->
        pydict.get u (mirrors (web s)) = Some r /\ http_url r = u) ->
     (forall u r, pydict.get u result = Some r ->
        pydict.get u (mirrors (web s')) = Some r /\ http_url r = u)) /\
    (crawl_queue (web s) ≠ ∅ -> Z.of_nat (length pages) < max_pages ->
     (forall u, u ∈ crawl_queue (web s) -> u ∉ visited_urls (web s)) ->
     exists u us', us = u :: us' /\ u ∈ crawl_queue (web s)).
Proof.
  induction fuel as [|fuel IH]; intros pages s result s'; simpl; [done|].
  unfold bind at 1, gets.
  destruct (bool_decide (crawl_queue (web s) ≠ ∅)
            && (Z.of_nat (length pages) <? max_pages)) eqn:G.
  2: { intros [= <- <-]. exists []. split; [apply fetches_nothing_preorder|].
       split; [constructor|]. split; [by intros u ?%not_elem_of_nil|].
       split; [simpl; by rewrite (right_id_L ∅ (∪))|]. split; [done|].
       split; [by left|]. split; [lia|]. split; [done|].
       intros Hq Hn _. apply andb_false_iff in G as [G|G].
       - apply bool_decide_eq_false in G. done.
       - apply Z.ltb_ge in G. lia. }
  apply andb_prop in G as [Gq Gn]. apply bool_decide_eq_true in Gq. apply Z.ltb_lt in Gn.
  destruct (crawl_iteration_run recursive max_pages pages s Gq)
    as (u & pages' & s1 & E & Hu & Hg1 & Hv1 & Hcases).
  unfold bind. rewrite E. intros Hrest.
  destruct (IH _ _ _ _ Hrest) as (us1 & Hf & Hnd & Hnew & Hv & Hg & Hkeys & Hlen & Hreg & _).
  destruct Hcases as [(Hvis & -> & Hf1 & Hm1 & Hq1)|(Hvis & Hf1 & Hcases)].
  - exists us1. split; [apply (fetches_app [] us1 _ _ _ Hf1 Hf)|]. split; [done|].
    split; [intros u' Hu' Hin; apply (Hnew u' Hu'); rewrite Hv1; by apply elem_of_union_l|].
    split; [rewrite Hv, Hv1; by apply union_singleton_absorb|]. split; [congruence|].
    split; [done|]. split; [done|]. split; [by rewrite Hm1 in Hreg|].
    intros _ _ Hall. by destruct (Hall u Hu).
  - assert (Hfetch : fetches (u :: us1) s s') by apply (fetches_app [u] us1 _ _ _ Hf1 Hf).
    assert (Hnd' : NoDup (u :: us1)).
    { apply NoDup_cons. split; [|done]. intros Hin. apply (Hnew u Hin). rewrite Hv1.
      apply elem_of_union_singleton. }
    assert (Hnew' : forall u', u' ∈ u :: us1 -> u' ∉ visited_urls (web s)).
    { intros u' [->|Hu']%elem_of_cons; [done|].
      intros Hin. apply (Hnew u' Hu'). rewrite Hv1. by apply elem_of_union_l. }
    assert (Hv' : visited_urls (web s') = visited_urls (web s) ∪ list_to_set (u :: us1)).
    { rewrite Hv, Hv1, list_to_set_cons. symmetry. apply (assoc_L (∪)). }
    exists (u :: us1). split; [done|]. split; [done|]. split; [done|]. split; [done|].
    split; [congruence|].
    destruct Hcases as [(-> & Hm1 & Hq1)|(r & links & -> & Hurl & Hm1 & Hq1 & _)].
    + split; [intros u' Hu'; destruct (Hkeys u' Hu'); [by left|right; by right]|].
      split; [simpl; lia|]. split; [by rewrite Hm1 in Hreg|].
      intros _ _ _. by exists u, us1.
    + split.
      { intros u' Hu'. destruct (Hkeys u' Hu') as [Hk|Hk]; [|right; by right].
        apply pydict_keys_set in Hk as [->|Hk]; [right; left|by left]. }
      split.
      { pose proof (pydict_length_set_le u r pages). simpl. lia. }
      split.
      { intros Hpages. apply Hreg. intros u' r'. rewrite Hm1, !pydict_get_set.
        destruct (decide (u' = u)) as [->|Hne]; [by intros [= <-]|apply Hpages]. }
      intros _ _ _. by exists u, us1.
Qed.

(** X13.  What [mirror_website] returns is in the registry: every record of the
    mapping is the record that the registry holds under the same URL at the
    end of the crawl, it carries that URL, and the URL is among the visited
    ones. *)
Theorem mirror_website_result_in_registry fuel url recursive max_pages s pages s' :
  mirror_website fuel url recursive max_pages s = (Ok (Some pages), s') ->
  forall u r,
    pydict.get u pages = Some r ->
    pydict.get u (mirrors (web s')) = Some r /\ http_url r = u /\
    u ∈ visited_urls (web s').
Proof.
  rewrite mirror_website_run. set (s0 := with_web _ s).
  destruct (crawl fuel recursive max_pages [] s0) as [[[result|]|e] s1] eqn:E; [|done..].
  destruct (urlparse url); [|done]. intros [= <- <-] u r Hget.
  destruct (crawl_run _ _ _ _ _ _ _ E) as (us & _ & _ & _ & Hv & _ & Hkeys & _ & Hreg & _).
  assert (Hnil : forall u r,
            pydict.get u (@nil (string * MirrorRecord)) = Some r ->
            pydict.get u (mirrors (web s0)) = Some r /\ http_url r = u) by done.
  destruct (Hreg Hnil u r Hget) as [Hm Hurl].
  split; [done|]. split; [done|].
  destruct (Hkeys u (pydict_get_Some_keys _ _ _ Hget)) as [Hk|Hk]; [by inversion Hk|].
  rewrite Hv. apply elem_of_union_r. by apply elem_of_list_to_set.
Qed.

(** X14.  A crawl asks the web for every URL at most once.  The URLs it fetched
    are the visited ones, which the statistics count; the root URL is the
    first of them whenever [max_pages] is positive; and every page of the
    mapping is among them, so that there are no more pages than fetches. *)
Theorem mirror_website_fetches_once fuel url recursive max_pages s pages s' :
  mirror_website fuel url recursive max_pages s = (Ok (Some pages), s') ->
  exists us,
    fetches us s s' /\ NoDup us /\
    visited_urls (web s') = list_to_set us /\
    stat_visited_urls (get_mirror_statistics (web s')) = Z.of_nat (length us) /\
    (0 < max_pages -> head us = Some url) /\
    (forall u, u ∈ pydict.keys pages -> u ∈ us) /\
    (length pages <= length us)%nat /\
    gaming s' = gaming s.
Proof.
  rewrite mirror_website_run. set (s0 := with_web _ s).
  destruct (crawl fuel recursive max_pages [] s0) as [[[result|]|e] s1] eqn:E; [|done..].
  destruct (urlparse url); [|done]. intros [= <- <-].
  destruct (crawl_run _ _ _ _ _ _ _ E)
    as (us & Hf & Hnd & _ & Hv & Hg & Hkeys & Hlen & _ & Hhead).
  assert (Hv' : visited_urls (web s1) = list_to_set us).
  { rewrite Hv. subst s0. simpl. by rewrite (left_id_L ∅ (∪)). }
  exists us. split; [by apply (fetches_same_trace us s0 s1)|]. split; [done|].
  split; [done|]. split; [|split; [|split; [|split]]].
  - simpl. by rewrite Hv', size_list_to_set.
  - intros Hpos. destruct Hhead as (u & us' & -> & Hu).
    + subst s0. simpl. apply singleton_not_empty.
    + simpl. lia.
    + subst s0. simpl. intros u _. apply not_elem_of_empty.
    + subst s0. simpl in Hu. by apply elem_of_singleton in Hu as ->.
  - intros u Hu. destruct (Hkeys u Hu) as [Hk|Hk]; [by inversion Hk|done].
  - simpl in Hlen. lia.
  - done.
Qed.

Lemma crawl_stops fuel recursive max_pages pages s :
  bool_decide (crawl_queue (web s) ≠ ∅) && (Z.of_nat (length pages) <? max_pages) = false ->
  crawl (S fuel) recursive max_pages pages s = (Ok (Some pages), s).
Proof. intros G. simpl. unfold bind, gets. by rewrite G. Qed.

(** X15.  With [max_pages] zero or negative nothing is fetched and the mapping is
    empty, for every root URL and with fuel for one test of the loop. *)
Theorem mirror_website_no_pages_wanted fuel url recursive max_pages s :
  max_pages <= 0 ->
  mirror_website (S fuel) url recursive max_pages s
  = (match urlparse url with
     | Ok _ => Ok (Some [])
     | Raise e => Raise e
     end,
     with_web (fun w => set_visited_urls ∅ (set_crawl_queue {[url]} w)) s).
Proof.
  intros Hn. rewrite mirror_website_run, crawl_stops; [by destruct (urlparse url)|].
  apply andb_false_intro2, Z.ltb_ge. simpl. lia.
Qed.

(** X16.  A crawl that is not recursive asks the web for the root URL and for
    nothing else: the mapping is empty or holds the record of the root URL
    alone, and the queue is empty at the end. *)
Theorem mirror_website_not_recursive fuel url max_pages s pages s' :
  0 < max_pages ->
  mirror_website fuel url false max_pages s = (Ok (Some pages), s') ->
  fetches [url] s s' /\
  visited_urls (web s') = {[url]} /\
  crawl_queue (web s') = ∅ /\
  (pages = [] \/
   exists r, pages = [(url, r)] /\
             pydict.get url (mirrors (web s')) = Some r).
Proof.
  intros Hpos. rewrite mirror_website_run. set (s0 := with_web _ s).
  destruct (crawl fuel false max_pages [] s0) as [[[result|]|e] s1] eqn:E; [|done..].
  destruct (urlparse url); [|done]. intros [= <- <-].
  destruct fuel as [|fuel]; [done|].
  assert (Gq : crawl_queue (web s0) ≠ ∅) by (subst s0; simpl; apply singleton_not_empty).
  assert (G : bool_decide (crawl_queue (web s0) ≠ ∅)
              && (Z.of_nat (length (@nil (string * MirrorRecord))) <? max_pages) = true).
  { apply andb_true_intro. split; [by apply bool_decide_eq_true|].
    apply Z.ltb_lt. simpl. lia. }
  destruct (crawl_iteration_run false max_pages [] s0 Gq)
    as (u & pages' & s2 & Ei & Hu & Hg & Hv & Hcases).
  rewrite (crawl_step _ _ _ _ _ _ _ G Ei) in E.
  assert (u = url) as -> by (subst s0; simpl in Hu; by apply elem_of_singleton in Hu).
  assert (Hf : fetches [url] s0 s2 /\ crawl_queue (web s2) = ∅ /\
               (pages' = [] \/
                exists r, pages' = [(url, r)] /\
                          pydict.get url (mirrors (web s2)) = Some r)).
  { destruct Hcases as [(Hvis & _)|(_ & Hf & Hcases)].
    { subst s0. simpl in Hvis. by apply elem_of_empty in Hvis. }
    split; [done|].
    destruct Hcases as [(-> & _ & Hq)|(r & links & -> & _ & Hm & Hq & Hl)].
    - split; [|by left]. rewrite Hq. subst s0. simpl. apply singleton_difference_diag.
    - split.
      + rewrite Hq, (Hl eq_refl). subst s0. simpl.
        by rewrite singleton_difference_diag, (left_id_L ∅ (∪)).
      + right. exists r. split; [done|]. rewrite Hm. apply pydict_get_set_eq. }
  destruct Hf as (Hf & Hq2 & Hpages).
  destruct fuel as [|fuel]; [done|].
  rewrite crawl_stops in E.
  2: { apply andb_false_intro1, bool_decide_eq_false. rewrite Hq2. by intros Hne. }
  injection E as <- <-.
  split; [by apply (fetches_same_trace [url] s0 s2)|].
  split; [rewrite Hv; subst s0; simpl; by rewrite (left_id_L ∅ (∪))|]. done.
Qed.

End crawl_more.

Lemma mirror_website_result_in_registry_witness :
  let run := mirror_website (H := steady 0.71) 10 "https://example.com" true 3
               (stub.start stub.backends) in
  exists pages,
    run = (Ok (Some pages), run.2) /\
    forall u r,
      pydict.get u pages = Some r ->
      pydict.get u (mirrors (web run.2)) = Some r /\ http_url r = u /\
      u ∈ visited_urls (web run.2).
Proof.
  intros run. eexists.
  refine ((fun E => conj E
            (mirror_website_result_in_registry (H := steady 0.71) _ _ _ _ _ _ _ E)) _).
  vm_compute. reflexivity.
Defined.

Lemma mirror_website_fetches_once_witness :
  let run := mirror_website (H := steady 0.71) 10 "https://example.com" true 3
               (stub.start stub.backends) in
  exists pages,
    run = (Ok (Some pages), run.2) /\
    exists us,
      fetches us (stub.start stub.backends) run.2 /\ NoDup us /\
      visited_urls (web run.2) = list_to_set us /\
      stat_visited_urls (get_mirror_statistics (web run.2)) = Z.of_nat (length us) /\
      (0 < 3 -> head us = Some "https://example.com") /\
      (forall u, u ∈ pydict.keys pages -> u ∈ us) /\
      (length pages <= length us)%nat /\
      gaming run.2 = gaming (stub.start stub.backends).
Proof.
  intros run. eexists.
  refine ((fun E => conj E
            (mirror_website_fetches_once (H := steady 0.71) _ _ _ _ _ _ _ E)) _).
  vm_compute. reflexivity.
Defined.

Lemma mirror_website_no_pages_wanted_witness :
  0 <= 0 /\
  mirror_website (H := steady 0.71) 1 "https://example.com" true 0 (stub.start stub.backends)
  = (Ok (Some []),
     with_web (fun w => set_visited_urls ∅ (set_crawl_queue {["https://example.com"]} w))
       (stub.start stub.backends)).
Proof.
  split; [lia|].
  apply (mirror_website_no_pages_wanted (H := steady 0.71) 0 "https://example.com" true 0
           (stub.start stub.backends)).
  lia.
Defined.

Lemma mirror_website_not_recursive_witness :
  let run := mirror_website (H := steady 0.71) 10 "https://example.com" false 10
               (stub.start stub.backends) in
  exists pages,
    0 < 10 /\
    run = (Ok (Some pages), run.2) /\
    fetches ["https://example.com"] (stub.start stub.backends) run.2 /\
    visited_urls (web run.2) = {["https://example.com"]} /\
    crawl_queue (web run.2) = ∅ /\
    (pages = [] \/
     exists r, pages = [("https://example.com", r)] /\
               pydict.get "https://example.com" (mirrors (web run.2)) = Some r).
Proof.
  intros run. eexists.
  assert (Hpos : 0 < 10) by lia.
  refine ((fun E =>
             conj Hpos (conj E
               (mirror_website_not_recursive (H := steady 0.71) _ _ _ _ _ _ Hpos E))) _).
  vm_compute. reflexivity.
Defined.

(** ** What no method undoes *)

#[global] Instance never_undone_preorder : PreOrder never_undone.
Proof.
  unfold never_undone. split; [done|].
  intros s1 s2 s3 (?&?&?&?&?&?&?&?) (?&?&?&?&?&?&?&?).
  repeat split; [congruence..|by etrans|by etrans|by etrans].
Qed.

Lemma objects_kept_never_undone s s' : objects_kept s s' -> never_undone s s'.
Proof. intros (Ht & Hw & Hg). unfold never_undone. by rewrite Hw, Hg. Qed.

Lemma keys_subseteq_set {K V} `{EqDecision K} (k : K) (v : V) (d : list (K * V)) :
  pydict.keys d ⊆ pydict.keys (pydict.set k v d).
Proof. intros x Hx. apply pydict_keys_set. by right. Qed.

Section never_undone.
Context `{Collaborators}.

Lemma keeps_call_never_undone {A} ev (answer : nat -> outcome A) :
  keeps never_undone (call ev answer).
Proof. eapply keeps_mono; [apply objects_kept_never_undone|apply keeps_call]. Qed.

Lemma keeps_mirror_page_never_undone url : keeps never_undone (mirror_page url).
Proof.
  intros s. unfold wp. destruct (mirror_page url s) as [o s'] eqn:E. simpl.
  pose proof (mirror_page_run _ _ _ _ E) as HE.
  destruct o as [[r|]|e]; [| |done].
  - destruct (mirrored_web _ _ _ _ HE) as [Hw Hg].
    unfold never_undone. rewrite Hw, Hg. simpl.
    repeat split; try done; [apply keys_subseteq_set|by eapply mirrored_grows].
  - by apply objects_kept_never_undone.
Qed.

Lemma keeps_crawl_iteration_never_undone recursive max_pages pages :
  keeps never_undone (crawl_iteration recursive max_pages pages).
Proof.
  unfold crawl_iteration.
  apply keeps_bind; [exact _| |intros current_url].
  { intros s. unfold wp, crawl_queue_pop. by destruct (decide _). }
  apply keeps_bind; [exact _|apply keeps_gets; exact _|intros self].
  apply keeps_if; [apply keeps_ret; exact _|].
  apply keeps_bind; [exact _|by intros s|intros _].
  apply keeps_bind; [exact _|apply keeps_mirror_page_never_undone|intros [r|]];
    [|apply keeps_ret; exact _].
  apply keeps_bind; [exact _| |intros _; apply keeps_ret; exact _].
  apply keeps_if; [|apply keeps_ret; exact _].
  apply keeps_bind; [exact _| |intros links; by intros s].
  eapply keeps_mono; [apply objects_kept_never_undone|apply keeps_extract_links].
Qed.

Lemma keeps_crawl_never_undone fuel recursive max_pages : forall pages,
  keeps never_undone (crawl fuel recursive max_pages pages).
Proof.
  induction fuel as [|fuel IH]; intros pages; simpl; [apply keeps_ret; exact _|].
  apply keeps_bind; [exact _|apply keeps_gets; exact _|intros self].
  apply keeps_if; [|apply keeps_ret; exact _].
  apply keeps_bind; [exact _|apply keeps_crawl_iteration_never_undone|intros pages'].
  apply IH.
Qed.

Lemma keeps_mirror_website_never_undone fuel url recursive max_pages :
  keeps never_undone (mirror_website fuel url recursive max_pages).
Proof.
  unfold mirror_website.
  apply keeps_bind; [exact _|by intros s|intros _].
  apply keeps_bind; [exact _|apply keeps_crawl_never_undone|intros [pages|]];
    [|apply keeps_ret; exact _].
  apply keeps_bind; [exact _|apply keeps_lift; exact _|intros _].
  apply keeps_ret. exact _.
Qed.

Lemma keeps_mirror_main_pages_never_undone urls : forall pages,
  keeps never_undone (mirror_main_pages urls pages).
Proof.
  induction urls as [|url urls IH]; intros pages; simpl; [apply keeps_ret; exact _|].
  apply keeps_bind; [exact _| |intros pages'; apply IH].
  apply keeps_try_except; [exact _| |intros e; apply keeps_ret; exact _].
  apply keeps_bind; [exact _|apply keeps_mirror_page_never_undone|].
  intros [r|]; apply keeps_ret; exact _.
Qed.

Lemma keeps_mirror_gaming_platform_never_undone p include_api_data max_pages :
  keeps never_undone (mirror_gaming_platform p include_api_data max_pages).
Proof.
  unfold mirror_gaming_platform.
  apply keeps_if; [apply keeps_raise; exact _|].
  apply keeps_bind; [exact _|apply keeps_mirror_main_pages_never_undone|intros pages].
  apply keeps_bind; [exact _|apply keeps_call_never_undone|intros timestamp].
  apply keeps_bind; [exact _|apply keeps_call_never_undone|intros now].
  apply keeps_bind; [exact _|apply keeps_gets; exact _|intros self].
  apply keeps_bind; [exact _| |intros _; apply keeps_ret; exact _].
  intros s. apply wp_modify. unfold never_undone. simpl.
  repeat split; try done. apply keys_subseteq_set.
Qed.

Lemma keeps_mirror_platforms_never_undone max_pages platforms : forall results,
  keeps never_undone (mirror_platforms max_pages platforms results).
Proof.
  induction platforms as [|p platforms IH]; intros results; simpl;
    [apply keeps_ret; exact _|].
  apply keeps_bind; [exact _| |intros results'; apply IH].
  apply keeps_try_except; [exact _| |intros e; apply keeps_ret; exact _].
  apply keeps_bind; [exact _|apply keeps_mirror_gaming_platform_never_undone|].
  intros m. apply keeps_ret. exact _.
Qed.

Lemma keeps_fortnite_records_never_undone platform_mirror data_types :
  forall fortnite_data game_data,
  keeps never_undone (fortnite_records platform_mirror data_types fortnite_data game_data).
Proof.
  induction data_types as [|data_type data_types IH]; intros fortnite_data game_data;
    simpl; [apply keeps_ret; exact _|].
  apply keeps_bind; [exact _|apply keeps_call_never_undone|intros now]. apply IH.
Qed.

(** X17.  No method of the two classes changes the configured backends, the
    replication factor, the depth limit or the acoustic switch; none takes
    a URL out of the registry of pages or a platform out of the registry of
    platforms; and none takes a call out of the log.  This holds for every
    outcome, an exception included. *)
Theorem no_method_undoes :
  (forall url, keeps never_undone (mirror_page url)) /\
  (forall fuel url recursive max_pages,
     keeps never_undone (mirror_website fuel url recursive max_pages)) /\
  keeps never_undone sync_mirrors /\
  (forall p include_api_data max_pages,
     keeps never_undone (mirror_gaming_platform p include_api_data max_pages)) /\
  keeps never_undone mirror_epic_games_store /\
  keeps never_undone mirror_all_major_platforms /\
  (forall web3_entanglement, keeps never_undone (mirror_web3_gaming web3_entanglement)) /\
  (forall game_data, keeps never_undone (mirror_fortnite_data game_data)).
Proof.
  split; [apply keeps_mirror_page_never_undone|].
  split; [apply keeps_mirror_website_never_undone|].
  split; [eapply keeps_mono; [apply objects_kept_never_undone|apply keeps_sync_mirrors]|].
  split; [apply keeps_mirror_gaming_platform_never_undone|].
  split; [apply keeps_mirror_gaming_platform_never_undone|].
  split; [apply keeps_mirror_platforms_never_undone|].
  split.
  - intros [|]; simpl; [apply keeps_mirror_platforms_never_undone|apply keeps_ret; exact _].
  - intros game_data. unfold mirror_fortnite_data.
    apply keeps_bind; [exact _|apply keeps_mirror_gaming_platform_never_undone|intros m].
    apply keeps_fortnite_records_never_undone.
Qed.

End never_undone.

(** ** The gaming mirror, platform by platform *)

Lemma platform_urls_not_empty p urls : platform_urls p = Some urls -> urls <> [].
Proof. destruct p; simpl; intros [= <-]; done. Qed.

Lemma length_slice_to {A} (n : Z) (l : list A) :
  0 <= n -> Z.of_nat (length (slice_to n l)) = Z.min n (Z.of_nat (length l)).
Proof.
  intros Hn. unfold slice_to. rewrite (proj2 (Z.leb_le 0 n) Hn), length_take. lia.
Qed.

Section gaming_more.
Context `{Collaborators}.

(** The loop over the pages of a platform never raises; it fetches the
    URLs it is given, each once and in their order, and leaves the gaming
    mirror alone. *)
Lemma mirror_main_pages_run urls : forall pages s,
  exists pages' s',
    mirror_main_pages urls pages s = (Ok pages', s') /\
    gaming s' = gaming s /\
    fetches urls s s' /\
    (length (mirrors (web s')) <= length (mirrors (web s)) + length urls)%nat.
Proof.
  induction urls as [|url urls IH]; intros pages s; simpl.
  - exists pages, s. split; [done|]. split; [done|].
    split; [apply fetches_nothing_preorder|lia].
  - destruct (mirror_page_returns url s) as (result & s1 & E & _ & Hg & Hr).
    pose proof (wp_run _ _ _ _ _ (mirror_page_fetches url s) E) as Hf.
    assert (Hlen : (length (mirrors (web s1)) <= S (length (mirrors (web s))))%nat).
    { destruct result as [r|]; [|rewrite Hr; lia].
      destruct (mirrored_web _ _ _ _ Hr) as [-> _]. simpl. apply pydict_length_set_le. }
    unfold bind at 1, try_except, bind. rewrite E.
    destruct (IH (match result with
                  | Some record => pydict.set url record pages
                  | None => pages
                  end) s1) as (pages' & s' & E' & Hg' & Hf' & Hlen').
    exists pages', s'. split; [by destruct result|].
    split; [congruence|]. split; [apply (fetches_app [url] urls _ _ _ Hf Hf')|lia].
Qed.

(** A call for a platform that has URLs, step by step. *)
Lemma mirror_gaming_platform_run p include_api_data max_pages s urls :
  platform_urls p = Some urls ->
  exists pages s1 m s',
    mirror_main_pages (slice_to max_pages urls) [] s = (Ok pages, s1) /\
    mirror_gaming_platform p include_api_data max_pages s = (Ok m, s') /\
    m = {| platform := p;
           platform_name := platform_value p;
           gm_luxbin_address :=
             platform_address (platform_value p) urls
               (answer_time_time (length (trace s1)));
           http_urls := urls;
           data_types := ["web_pages"; "game_metadata"];
           wavelength := GAMING_WAVELENGTH;
           mirrored_at := answer_time_time (S (length (trace s1)));
           quantum_secured := true;
           gm_entanglement_verified := true;
           gm_mirror_nodes := g_quantum_backends (gaming s) |} /\
    trace s' = trace s1 ++ [time_time; time_time] /\
    heap s' = heap s1 /\ web s' = web s1 /\
    gaming s' = set_gaming_mirrors (pydict.set p m (gaming_mirrors (gaming s))) (gaming s).
Proof.
  intros Hu.
  destruct (mirror_main_pages_run (slice_to max_pages urls) [] s)
    as (pages & s1 & E & Hg & _).
  eexists pages, s1, _, _. split; [exact E|].
  unfold mirror_gaming_platform. rewrite Hu. simpl.
  rewrite bool_decide_eq_false_2 by (by eapply platform_urls_not_empty).
  unfold bind at 1. rewrite E.
  unfold bind, call, gets, modify, ret. simpl.
  rewrite length_app, Nat.add_1_r, Hg. simpl.
  split; [reflexivity|]. split; [reflexivity|]. simpl.
  by rewrite <- app_assoc, Hg.
Qed.

(** X18.  A platform that has URLs is always recorded: the call raises nothing
    and returns a record whatever became of the pages, even when none of
    them could be mirrored.  The record names every URL of the platform,
    says [quantum_secured] and [entanglement_verified] without asking the
    verifier, lists all the backends of the gaming mirror as mirror nodes,
    and has the time of the last call; it is put under the platform. *)
Theorem mirror_gaming_platform_supported p include_api_data max_pages s urls :
  platform_urls p = Some urls ->
  exists m s',
    mirror_gaming_platform p include_api_data max_pages s = (Ok m, s') /\
    platform m = p /\
    platform_name m = platform_value p /\
    http_urls m = urls /\
    data_types m = ["web_pages"; "game_metadata"] /\
    wavelength m = 600 /\
    quantum_secured m = true /\
    gm_entanglement_verified m = true /\
    gm_mirror_nodes m = g_quantum_backends (gaming s) /\
    mirrored_at m = answer_time_time (length (trace s') - 1) /\
    last (trace s') = Some time_time /\
    gaming s' = set_gaming_mirrors (pydict.set p m (gaming_mirrors (gaming s))) (gaming s).
Proof.
  intros Hu.
  destruct (mirror_gaming_platform_run p include_api_data max_pages s urls Hu)
    as (pages & s1 & m & s' & _ & E & Hm & Ht & _ & _ & Hg).
  exists m, s'. split; [exact E|]. rewrite Hm at 1 2 3 4 5 6 7 8 9. simpl.
  repeat split; try done.
  - rewrite Ht, length_app. simpl. f_equal. lia.
  - by rewrite Ht, last_app.
Qed.

(** X19.  [max_pages] bounds the pages that are fetched, not the URLs that are
    recorded.  The record names all URLs of the platform; the web is asked
    for the first [max_pages] of them, each once and in their order, and for
    nothing else; zero fetches nothing and still records the platform, and a
    negative number leaves out that many URLs from the end.  The registry of
    pages grows by at most one record per fetch. *)
Theorem mirror_gaming_platform_page_limit p include_api_data max_pages s m s' :
  mirror_gaming_platform p include_api_data max_pages s = (Ok m, s') ->
  platform_urls p = Some (http_urls m) /\
  fetches (slice_to max_pages (http_urls m)) s s' /\
  (0 <= max_pages ->
   Z.of_nat (length (slice_to max_pages (http_urls m)))
   = Z.min max_pages (Z.of_nat (length (http_urls m)))) /\
  (max_pages < 0 ->
   slice_to max_pages (http_urls m)
   = take (length (http_urls m) - Z.to_nat (- max_pages)) (http_urls m)) /\
  (length (mirrors (web s')) <=
   length (mirrors (web s)) + length (slice_to max_pages (http_urls m)))%nat.
Proof.
  intros E.
  destruct (platform_urls p) as [urls|] eqn:Hu.
  2: { revert E. unfold mirror_gaming_platform. rewrite Hu. done. }
  destruct (mirror_gaming_platform_run p include_api_data max_pages s urls Hu)
    as (pages & s1 & m' & s'' & E1 & E' & Hm & Ht & _ & Hw & _).
  rewrite E' in E. injection E as <- <-.
  destruct (mirror_main_pages_run (slice_to max_pages urls) [] s)
    as (pages' & s1' & E1' & _ & Hf & Hlen).
  rewrite E1 in E1'. injection E1' as <- <-.
  assert (Hurls : http_urls m' = urls) by (by rewrite Hm).
  rewrite Hurls, Hw. split; [done|]. split.
  { rewrite <- (app_nil_r (slice_to max_pages urls)).
    apply (fetches_app _ [] s s1 s'' Hf). by exists [time_time; time_time]. }
  split; [apply length_slice_to|]. split; [|done].
  intros Hneg. unfold slice_to. by rewrite (proj2 (Z.leb_gt 0 max_pages) ltac:(lia)).
Qed.

(** X20.  Looking a platform up after mirroring it: [get_gaming_address] returns
    the address of the record that was returned, and the answers for the
    other platforms are what they were.  In the list of all mirrors a
    platform that is mirrored for the first time comes last, and one that
    is mirrored again keeps its place, so that the list never holds two
    records of one platform. *)
Theorem get_gaming_address_after_mirror p include_api_data max_pages s m s' :
  mirror_gaming_platform p include_api_data max_pages s = (Ok m, s') ->
  get_gaming_address (gaming s') p = Some (gm_luxbin_address m) /\
  (forall q, q <> p ->
     get_gaming_address (gaming s') q = get_gaming_address (gaming s) q) /\
  match get_gaming_address (gaming s) p with
  | None =>
      get_all_gaming_mirrors (gaming s') = get_all_gaming_mirrors (gaming s) ++ [m]
  | Some _ =>
      length (get_all_gaming_mirrors (gaming s'))
      = length (get_all_gaming_mirrors (gaming s)) /\
      m ∈ get_all_gaming_mirrors (gaming s')
  end.
Proof.
  intros E.
  destruct (platform_urls p) as [urls|] eqn:Hu.
  2: { revert E. unfold mirror_gaming_platform. rewrite Hu. done. }
  destruct (mirror_gaming_platform_run p include_api_data max_pages s urls Hu)
    as (pages & s1 & m' & s'' & _ & E' & _ & _ & _ & _ & Hg).
  rewrite E' in E. injection E as <- <-.
  unfold get_gaming_address, get_all_gaming_mirrors. rewrite Hg. simpl.
  rewrite pydict_get_set_eq. split; [done|]. split.
  { intros q Hq. by rewrite pydict_get_set_ne. }
  destruct (pydict.get p (gaming_mirrors (gaming s))) as [m0|] eqn:Hp.
  - split.
    + unfold pydict.values. rewrite !length_fmap, pydict_length_set. by rewrite Hp.
    + eapply pydict_get_Some_values, pydict_get_set_eq.
  - by apply pydict_values_set_new.
Qed.

End gaming_more.

Lemma mirror_gaming_platform_supported_witness :
  platform_urls EPIC_GAMES
  = Some ["https://www.epicgames.com"; "https://store.epicgames.com"] /\
  exists m s',
    mirror_gaming_platform (H := not_found) EPIC_GAMES true 100 (stub.start stub.backends)
      = (Ok m, s') /\
    platform m = EPIC_GAMES /\
    platform_name m = platform_value EPIC_GAMES /\
    http_urls m = ["https://www.epicgames.com"; "https://store.epicgames.com"] /\
    data_types m = ["web_pages"; "game_metadata"] /\
    wavelength m = 600 /\
    quantum_secured m = true /\
    gm_entanglement_verified m = true /\
    gm_mirror_nodes m = g_quantum_backends (gaming (stub.start stub.backends)) /\
    mirrored_at m = answer_time_time (Collaborators := not_found) (length (trace s') - 1) /\
    last (trace s') = Some time_time /\
    gaming s'
    = set_gaming_mirrors
        (pydict.set EPIC_GAMES m (gaming_mirrors (gaming (stub.start stub.backends))))
        (gaming (stub.start stub.backends)).
Proof.
  split; [reflexivity|].
  apply (mirror_gaming_platform_supported (H := not_found) EPIC_GAMES true 100
           (stub.start stub.backends)).
  reflexivity.
Defined.

Lemma mirror_gaming_platform_page_limit_witness :
  let run := mirror_gaming_platform (H := steady 0.71) EPIC_GAMES true 1
               (stub.start stub.backends) in
  exists m,
    run = (Ok m, run.2) /\
    platform_urls EPIC_GAMES = Some (http_urls m) /\
    fetches (slice_to 1 (http_urls m)) (stub.start stub.backends) run.2 /\
    (0 <= 1 ->
     Z.of_nat (length (slice_to 1 (http_urls m)))
     = Z.min 1 (Z.of_nat (length (http_urls m)))) /\
    (1 < 0 ->
     slice_to 1 (http_urls m)
     = take (length (http_urls m) - Z.to_nat (- 1)) (http_urls m)) /\
    (length (mirrors (web run.2)) <=
     length (mirrors (web (stub.start stub.backends)))
     + length (slice_to 1 (http_urls m)))%nat.
Proof.
  intros run. eexists.
  refine ((fun E => conj E
            (mirror_gaming_platform_page_limit (H := steady 0.71) _ _ _ _ _ _ E)) _).
  vm_compute. reflexivity.
Defined.

Lemma get_gaming_address_after_mirror_witness :
  let run := mirror_gaming_platform (H := steady 0.71) STEAM true 0
               (stub.start stub.backends) in
  exists m,
    run = (Ok m, run.2) /\
    get_gaming_address (gaming run.2) STEAM = Some (gm_luxbin_address m) /\
    (forall q, q <> STEAM ->
       get_gaming_address (gaming run.2) q
       = get_gaming_address (gaming (stub.start stub.backends)) q) /\
    match get_gaming_address (gaming (stub.start stub.backends)) STEAM with
    | None =>
        get_all_gaming_mirrors (gaming run.2)
        = get_all_gaming_mirrors (gaming (stub.start stub.backends)) ++ [m]
    | Some _ =>
        length (get_all_gaming_mirrors (gaming run.2))
        = length (get_all_gaming_mirrors (gaming (stub.start stub.backends))) /\
        m ∈ get_all_gaming_mirrors (gaming run.2)
    end.
Proof.
  intros run. eexists.
  refine ((fun E => conj E
            (get_gaming_address_after_mirror (H := steady 0.71) _ _ _ _ _ _ E)) _).
  vm_compute. reflexivity.
Defined.

(** ** The registry of platforms *)

#[global] Instance preserved_preorder (P : State -> Prop) : PreOrder (preserved P).
Proof. unfold preserved. split; [by intros s|]. intros s1 s2 s3 H12 H23 H1. auto. Qed.

#[global] Instance gaming_kept_preorder : PreOrder gaming_kept.
Proof. unfold gaming_kept. split; [done|]. intros s1 s2 s3 H12 H23. congruence. Qed.

Lemma pydict_get_elem {K V} `{EqDecision K} (k : K) (v : V) (d : list (K * V)) :
  NoDup (pydict.keys d) -> (k, v) ∈ d -> pydict.get k d = Some v.
Proof.
  unfold pydict.keys. induction d as [|[k0 v0] d IH]; [by intros _ ?%not_elem_of_nil|].
  rewrite fmap_cons. intros [Hk0 Hd]%NoDup_cons [[= -> ->]|Hin]%elem_of_cons; simpl.
  - by rewrite decide_True.
  - rewrite decide_False; [by apply IH|].
    intros ->. apply Hk0. apply list_elem_of_fmap. by exists (k0, v).
Qed.

Lemma pydict_keys_get {K V} `{EqDecision K} (k : K) (d : list (K * V)) :
  k ∈ pydict.keys d -> exists v, pydict.get k d = Some v.
Proof.
  intros Hk. destruct (pydict.get k d) as [v|] eqn:E; [by exists v|].
  by apply pydict_get_None in E.
Qed.

Lemma platform_urls_supported p urls : platform_urls p = Some urls -> p ∈ supported_platforms.
Proof.
  unfold supported_platforms. destruct p; simpl; intros [= <-];
    rewrite !elem_of_cons; tauto.
Qed.

Section gaming_registry.
Context `{Collaborators}.

Lemma keeps_objects_kept_gaming {A} (m : M A) : keeps objects_kept m -> keeps gaming_kept m.
Proof. apply keeps_mono. by intros s s' (_ & _ & ?). Qed.

Lemma keeps_mirror_page_gaming url : keeps gaming_kept (mirror_page url).
Proof.
  intros s. unfold wp. destruct (mirror_page_returns url s) as (result & s' & E & _ & Hg & _).
  by rewrite E.
Qed.

Lemma keeps_crawl_gaming fuel recursive max_pages : forall pages,
  keeps gaming_kept (crawl fuel recursive max_pages pages).
Proof.
  induction fuel as [|fuel IH]; intros pages; simpl; [apply keeps_ret; exact _|].
  apply keeps_bind; [exact _|apply keeps_gets; exact _|intros self].
  apply keeps_if; [|apply keeps_ret; exact _].
  apply keeps_bind; [exact _| |intros pages'; apply IH].
  unfold crawl_iteration.
  apply keeps_bind; [exact _| |intros current_url].
  { intros s. unfold wp, crawl_queue_pop. by destruct (decide _). }
  apply keeps_bind; [exact _|apply keeps_gets; exact _|intros self'].
  apply keeps_if; [apply keeps_ret; exact _|].
  apply keeps_bind; [exact _|by intros s|intros _].
  apply keeps_bind; [exact _|apply keeps_mirror_page_gaming|intros [r|]];
    [|apply keeps_ret; exact _].
  apply keeps_bind; [exact _| |intros _; apply keeps_ret; exact _].
  apply keeps_if; [|apply keeps_ret; exact _].
  apply keeps_bind; [exact _| |intros links; by intros s].
  apply keeps_objects_kept_gaming, keeps_extract_links.
Qed.

Lemma keeps_mirror_website_gaming fuel url recursive max_pages :
  keeps gaming_kept (mirror_website fuel url recursive max_pages).
Proof.
  unfold mirror_website.
  apply keeps_bind; [exact _|by intros s|intros _].
  apply keeps_bind; [exact _|apply keeps_crawl_gaming|intros [pages|]];
    [|apply keeps_ret; exact _].
  apply keeps_bind; [exact _|apply keeps_lift; exact _|intros _].
  apply keeps_ret. exact _.
Qed.

Lemma gaming_kept_preserved s s' :
  gaming_kept s s' -> preserved (fun s => gaming_registry_ok (gaming s)) s s'.
Proof. unfold gaming_kept, preserved. by intros ->. Qed.

Lemma gaming_registry_ok_set g p m :
  gaming_registry_ok g ->
  platform m = p -> platform_name m = platform_value p ->
  platform_urls p = Some (http_urls m) -> wavelength m = GAMING_WAVELENGTH ->
  quantum_secured m = true -> gm_entanglement_verified m = true ->
  gm_mirror_nodes m = g_quantum_backends g ->
  gaming_registry_ok (set_gaming_mirrors (pydict.set p m (gaming_mirrors g)) g).
Proof.
  intros [Hnd Hrec] ? ? ? ? ? ? ?. split; simpl.
  - by apply pydict_NoDup_keys_set.
  - intros q m'. rewrite pydict_get_set. destruct (decide (q = p)) as [->|Hne].
    + by intros [= <-].
    + apply Hrec.
Qed.

Lemma keeps_mirror_gaming_platform_registry p include_api_data max_pages :
  keeps (preserved (fun s => gaming_registry_ok (gaming s)))
    (mirror_gaming_platform p include_api_data max_pages).
Proof.
  intros s. unfold wp, preserved.
  destruct (platform_urls p) as [urls|] eqn:Hu.
  - destruct (mirror_gaming_platform_run p include_api_data max_pages s urls Hu)
      as (pages & s1 & m & s' & _ & E & Hm & _ & _ & _ & Hg).
    rewrite E. simpl. rewrite Hg. intros Hok.
    apply gaming_registry_ok_set; by rewrite ?Hm.
  - unfold mirror_gaming_platform. by rewrite Hu.
Qed.

Lemma keeps_mirror_platforms_registry max_pages platforms : forall results,
  keeps (preserved (fun s => gaming_registry_ok (gaming s)))
    (mirror_platforms max_pages platforms results).
Proof.
  induction platforms as [|p platforms IH]; intros results; simpl;
    [apply keeps_ret; exact _|].
  apply keeps_bind; [exact _| |intros results'; apply IH].
  apply keeps_try_except; [exact _| |intros e; apply keeps_ret; exact _].
  apply keeps_bind; [exact _|apply keeps_mirror_gaming_platform_registry|].
  intros m. apply keeps_ret. exact _.
Qed.

Lemma keeps_fortnite_records_gaming platform_mirror data_types :
  forall fortnite_data game_data,
  keeps gaming_kept (fortnite_records platform_mirror data_types fortnite_data game_data).
Proof.
  induction data_types as [|data_type data_types IH]; intros fortnite_data game_data;
    simpl; [apply keeps_ret; exact _|].
  apply keeps_bind; [exact _| |intros now; apply IH].
  apply keeps_objects_kept_gaming, keeps_call.
Qed.

(** X21.  The registry of platforms is well formed from [__init__] on, and every
    method of the two classes keeps it so: it holds one record for a
    platform, stored under the platform of the record, which is one of the
    platforms that have URLs; the record names those URLs, the gaming
    wavelength and the backends of the gaming mirror, and says
    [quantum_secured] and [entanglement_verified]. *)
Theorem gaming_registry_invariant :
  (forall quantum_backends, gaming_registry_ok (LUXBINGamingMirror_init quantum_backends)) /\
  (forall p include_api_data max_pages,
     keeps (preserved (fun s => gaming_registry_ok (gaming s)))
       (mirror_gaming_platform p include_api_data max_pages)) /\
  keeps (preserved (fun s => gaming_registry_ok (gaming s))) mirror_epic_games_store /\
  keeps (preserved (fun s => gaming_registry_ok (gaming s))) mirror_all_major_platforms /\
  (forall web3_entanglement,
     keeps (preserved (fun s => gaming_registry_ok (gaming s)))
       (mirror_web3_gaming web3_entanglement)) /\
  (forall game_data,
     keeps (preserved (fun s => gaming_registry_ok (gaming s)))
       (mirror_fortnite_data game_data)) /\
  (forall url, keeps (preserved (fun s => gaming_registry_ok (gaming s))) (mirror_page url)) /\
  (forall fuel url recursive max_pages,
     keeps (preserved (fun s => gaming_registry_ok (gaming s)))
       (mirror_website fuel url recursive max_pages)) /\
  keeps (preserved (fun s => gaming_registry_ok (gaming s))) sync_mirrors.
Proof.
  split.
  { intros quantum_backends. split; simpl; [constructor|done]. }
  split; [apply keeps_mirror_gaming_platform_registry|].
  split; [apply keeps_mirror_gaming_platform_registry|].
  split; [apply keeps_mirror_platforms_registry|].
  split.
  { intros [|]; simpl; [apply keeps_mirror_platforms_registry|apply keeps_ret; exact _]. }
  split.
  { intros game_data. unfold mirror_fortnite_data.
    apply keeps_bind; [exact _|apply keeps_mirror_gaming_platform_registry|intros m].
    eapply keeps_mono; [apply gaming_kept_preserved|apply keeps_fortnite_records_gaming]. }
  split.
  { intros url. eapply keeps_mono; [apply gaming_kept_preserved|apply keeps_mirror_page_gaming]. }
  split.
  { intros fuel url recursive max_pages.
    eapply keeps_mono; [apply gaming_kept_preserved|apply keeps_mirror_website_gaming]. }
  eapply keeps_mono; [apply gaming_kept_preserved|].
  apply keeps_objects_kept_gaming, keeps_sync_mirrors.
Qed.

End gaming_registry.

(** X22.  A well-formed registry holds at most twelve platforms, none of them
    NINTENDO, UNITY or GODS_UNCHAINED, for which [get_gaming_address]
    returns [None]; and for every record that [get_all_gaming_mirrors]
    lists, [get_gaming_address] of its platform returns its address. *)
Theorem gaming_registry_bounded (g : LUXBINGamingMirror) :
  gaming_registry_ok g ->
  (length (get_all_gaming_mirrors g) <= 12)%nat /\
  get_gaming_address g NINTENDO = None /\
  get_gaming_address g UNITY = None /\
  get_gaming_address g GODS_UNCHAINED = None /\
  (forall m, m ∈ get_all_gaming_mirrors g ->
     get_gaming_address g (platform m) = Some (gm_luxbin_address m)).
Proof.
  intros [Hnd Hrec].
  assert (Hnone : forall p, platform_urls p = None -> get_gaming_address g p = None).
  { intros p Hp. unfold get_gaming_address.
    destruct (pydict.get p (gaming_mirrors g)) as [m|] eqn:E; [|done].
    destruct (Hrec p m E) as (_ & _ & Hu & _). congruence. }
  split; [|split; [by apply Hnone|split; [by apply Hnone|split; [by apply Hnone|]]]].
  - unfold get_all_gaming_mirrors, pydict.values. rewrite length_fmap.
    change 12%nat with (length supported_platforms).
    rewrite <- (length_fmap fst (gaming_mirrors g)).
    apply submseteq_length, NoDup_submseteq; [exact Hnd|].
    intros p Hp. destruct (pydict_keys_get p _ Hp) as [m Hm].
    destruct (Hrec p m Hm) as (_ & _ & Hu & _). by eapply platform_urls_supported.
  - intros m Hm. unfold get_all_gaming_mirrors, pydict.values in Hm.
    apply list_elem_of_fmap in Hm as ([p m'] & -> & Hin). simpl.
    pose proof (pydict_get_elem p m' _ Hnd Hin) as Hget.
    destruct (Hrec p m' Hget) as (-> & _).
    unfold get_gaming_address. by rewrite Hget.
Qed.

Lemma gaming_registry_bounded_witness :
  let g := gaming (mirror_gaming_platform (H := not_found) MINECRAFT true 100
                     (stub.start stub.backends)).2 in
  gaming_registry_ok g /\
  (length (get_all_gaming_mirrors g) <= 12)%nat /\
  get_gaming_address g NINTENDO = None /\
  get_gaming_address g UNITY = None /\
  get_gaming_address g GODS_UNCHAINED = None /\
  (forall m, m ∈ get_all_gaming_mirrors g ->
     get_gaming_address g (platform m) = Some (gm_luxbin_address m)).
Proof.
  intros g.
  assert (Hok : gaming_registry_ok g).
  { apply (keeps_mirror_gaming_platform_registry (H := not_found) MINECRAFT true 100
             (stub.start stub.backends)).
    split; simpl; [constructor|done]. }
  exact (conj Hok (gaming_registry_bounded g Hok)).
Defined.

(** ** Mirroring platforms by the list *)

Section platform_lists.
Context `{Collaborators}.

(** The loop over platforms that all have URLs: every one of them is
    mirrored, in the order of the list, and the handler is never entered. *)
Lemma mirror_platforms_run max_pages platforms : forall results s,
  Forall (fun p => platform_urls p <> None) platforms ->
  NoDup (pydict.keys results ++ platforms) ->
  (forall p m, pydict.get p results = Some m ->
     pydict.get p (gaming_mirrors (gaming s)) = Some m /\ platform m = p) ->
  exists results' s',
    mirror_platforms max_pages platforms results s = (Ok results', s') /\
    pydict.keys results' = pydict.keys results ++ platforms /\
    (forall p m, pydict.get p results' = Some m ->
       pydict.get p (gaming_mirrors (gaming s')) = Some m /\ platform m = p) /\
    (forall q, q ∉ platforms ->
       pydict.get q (gaming_mirrors (gaming s')) = pydict.get q (gaming_mirrors (gaming s))).
Proof.
  induction platforms as [|p platforms IH]; intros results s Hsup Hnd Hinv; simpl.
  - exists results, s. by rewrite app_nil_r.
  - apply Forall_cons in Hsup as [Hp Hsup].
    destruct (platform_urls p) as [urls|] eqn:Hu; [|done].
    destruct (mirror_gaming_platform_run p true max_pages s urls Hu)
      as (pages & s1 & m & s2 & _ & E & Hm & _ & _ & _ & Hg).
    unfold bind at 1, try_except, bind. rewrite E. unfold ret at 1.
    assert (Hnew : pydict.get p results = None).
    { apply pydict_get_None. intros Hin. apply NoDup_app in Hnd as (_ & Hdis & _).
      apply (Hdis p Hin). left. }
    destruct (IH (pydict.set p m results) s2) as (results' & s' & E' & Hk & Hinv' & Hout).
    + done.
    + rewrite pydict_keys_set_cases, Hnew, <- app_assoc. done.
    + intros q m'. rewrite Hg. simpl. rewrite !pydict_get_set.
      destruct (decide (q = p)) as [->|Hne]; [|apply Hinv].
      intros [= <-]. split; [done|]. by rewrite Hm.
    + exists results', s'. split; [exact E'|]. split.
      { rewrite Hk, pydict_keys_set_cases, Hnew, <- app_assoc. done. }
      split; [done|]. intros q Hq. apply not_elem_of_cons in Hq as [Hqp Hq].
      rewrite (Hout q Hq), Hg. simpl. by apply pydict_get_set_ne.
Qed.

(** X23.  [mirror_all_major_platforms] always returns six records, one for each
    platform of its list and in the order of the list, whatever the web
    answers: each of the six has URLs, so that no call raises and no
    platform is left out.  Every record it returns is the one that the
    registry holds for the platform at the end. *)
Theorem mirror_all_major_platforms_all_six s :
  exists results s',
    mirror_all_major_platforms s = (Ok results, s') /\
    pydict.keys results = [EPIC_GAMES; FORTNITE; STEAM; ROBLOX; MINECRAFT; VRCHAT] /\
    (forall p m, pydict.get p results = Some m ->
       pydict.get p (gaming_mirrors (gaming s')) = Some m /\ platform m = p) /\
    (forall q, q ∉ platforms_to_mirror ->
       get_gaming_address (gaming s') q = get_gaming_address (gaming s) q).
Proof.
  destruct (mirror_platforms_run 20 platforms_to_mirror [] s)
    as (results & s' & E & Hk & Hinv & Hout).
  - repeat constructor; done.
  - simpl. by apply (bool_decide_unpack _).
  - done.
  - exists results, s'. split; [exact E|]. split; [exact Hk|]. split; [exact Hinv|].
    intros q Hq. unfold get_gaming_address. by rewrite Hout.
Qed.

(** X24.  Without a Web3 entanglement [mirror_web3_gaming] returns an empty
    mapping and does nothing.  With one it mirrors Axie Infinity,
    Decentraland and The Sandbox, always all three; Gods Unchained, the
    fourth Web3 platform of the enumeration, is not on its list and keeps
    the address it had, if any. *)
Theorem mirror_web3_gaming_needs_entanglement s :
  mirror_web3_gaming false s = (Ok [], s) /\
  exists results s',
    mirror_web3_gaming true s = (Ok results, s') /\
    pydict.keys results = [AXIE_INFINITY; DECENTRALAND; THE_SANDBOX] /\
    (forall p m, pydict.get p results = Some m ->
       pydict.get p (gaming_mirrors (gaming s')) = Some m /\ platform m = p) /\
    get_gaming_address (gaming s') GODS_UNCHAINED
    = get_gaming_address (gaming s) GODS_UNCHAINED.
Proof.
  split; [done|].
  destruct (mirror_platforms_run 10 web3_games [] s)
    as (results & s' & E & Hk & Hinv & Hout).
  - repeat constructor; done.
  - simpl. by apply (bool_decide_unpack _).
  - done.
  - exists results, s'. split; [exact E|]. split; [exact Hk|]. split; [exact Hinv|].
    unfold get_gaming_address. rewrite Hout; [done|].
    unfold web3_games. rewrite !not_elem_of_cons. repeat split; try done.
    apply not_elem_of_nil.
Qed.

(** ** The data of Fortnite *)

(** The loop over the data types: one clock read and one record for each of
    them, put under the data type and, with the prefix, into the dict of the
    gaming mirror. *)
Lemma fortnite_records_run platform_mirror data_types : forall fortnite_data game_data s,
  NoDup (pydict.keys fortnite_data ++ data_types) ->
  exists fortnite_data' game_data' s',
    fortnite_records platform_mirror data_types fortnite_data game_data s
    = (Ok (fortnite_data', game_data'), s') /\
    log_only s s' /\
    trace s' = trace s ++ replicate (length data_types) time_time /\
    pydict.keys fortnite_data' = pydict.keys fortnite_data ++ data_types /\
    (forall dt, dt ∈ data_types ->
       exists record,
         pydict.get dt fortnite_data' = Some record /\
         pydict.get ("fortnite_" +:+ dt) game_data' = Some record /\
         game_id record = "fortnite" /\ game_name record = "Fortnite" /\
         gd_platform record = FORTNITE /\ data_type record = dt /\
         String.length (gd_content_hash record) = 16%nat /\
         hex_text (gd_content_hash record) = true /\
         gd_luxbin_address record = gm_luxbin_address platform_mirror +:+ "/" +:+ dt /\
         size_bytes record = 0) /\
    (forall dt, dt ∉ data_types ->
       pydict.get dt fortnite_data' = pydict.get dt fortnite_data) /\
    (forall k, (forall dt, dt ∈ data_types -> k <> "fortnite_" +:+ dt) ->
       pydict.get k game_data' = pydict.get k game_data).
Proof.
  induction data_types as [|dt data_types IH]; intros fortnite_data game_data s Hnd; simpl.
  - exists fortnite_data, game_data, s. rewrite !app_nil_r.
    repeat split; try done. intros dt Hdt. by apply not_elem_of_nil in Hdt.
  - unfold bind at 1, call.
    set (s1 := with_trace _ s).
    set (record := {| game_id := "fortnite" |}).
    assert (Hnew : pydict.get dt fortnite_data = None).
    { apply pydict_get_None. intros Hin. apply NoDup_app in Hnd as (_ & Hdis & _).
      apply (Hdis dt Hin). left. }
    assert (Hdt : dt ∉ data_types).
    { apply NoDup_app in Hnd as (_ & _ & Hnd). by apply NoDup_cons in Hnd as [? _]. }
    destruct (IH (pydict.set dt record fortnite_data)
                 (pydict.set ("fortnite_" +:+ dt) record game_data) s1)
      as (fd' & gd' & s' & E & (Hh & Hw & Hg & Hp) & Ht & Hk & Hin & Hout & Hrest).
    { rewrite pydict_keys_set_cases, Hnew, <- app_assoc. done. }
    exists fd', gd', s'. split; [exact E|]. split.
    { repeat split; try done. etrans; [|exact Hp]. subst s1. simpl. by apply prefix_app_r. }
    split; [rewrite Ht; subst s1; simpl; by rewrite <- app_assoc|].
    split; [rewrite Hk, pydict_keys_set_cases, Hnew, <- app_assoc; done|].
    split; [|split].
    + intros dt' [->|Hdt']%elem_of_cons; [|by apply Hin].
      exists record. rewrite (Hout dt Hdt), pydict_get_set_eq.
      rewrite Hrest, pydict_get_set_eq.
      2: { intros dt' Hdt' Heq. apply String.app_inj in Heq. congruence. }
      destruct (sha256_prefix 16
                  (list_byte_of_string
                     ("fortnite_" +:+ dt +:+ "_" +:+
                      float_repr (answer_time_time (length (trace s))))))
        as [Hlen Hhex]; [lia|].
      repeat split; done.
    + intros dt' [Hne Hdt']%not_elem_of_cons.
      rewrite (Hout dt' Hdt'). by apply pydict_get_set_ne.
    + intros k Hk'. rewrite Hrest.
      * apply pydict_get_set_ne. apply Hk'. left.
      * intros dt' Hdt'. apply Hk'. by right.
Qed.

(** X25.  [mirror_fortnite_data] never raises.  It mirrors the platform Fortnite
    and returns five records, one for each data type and in the order of
    the list; each is also put into [game_data] under the data type with the
    prefix ['fortnite_'], and the other keys of [game_data] are as they
    were.  The address of a record is the address of the platform's record
    in the registry followed by a slash and the data type; its content hash
    has 16 hexadecimal digits and its size is 0. *)
Theorem mirror_fortnite_data_records game_data s :
  exists platform_mirror fortnite_data game_data' s',
    mirror_fortnite_data game_data s = (Ok (fortnite_data, game_data'), s') /\
    pydict.get FORTNITE (gaming_mirrors (gaming s')) = Some platform_mirror /\
    pydict.keys fortnite_data
    = ["game_metadata"; "item_shop"; "news"; "cosmetics"; "battle_pass"] /\
    (forall dt, dt ∈ fortnite_data_types ->
       exists record,
         pydict.get dt fortnite_data = Some record /\
         pydict.get ("fortnite_" +:+ dt) game_data' = Some record /\
         game_id record = "fortnite" /\ game_name record = "Fortnite" /\
         gd_platform record = FORTNITE /\ data_type record = dt /\
         String.length (gd_content_hash record) = 16%nat /\
         hex_text (gd_content_hash record) = true /\
         gd_luxbin_address record = gm_luxbin_address platform_mirror +:+ "/" +:+ dt /\
         size_bytes record = 0) /\
    (forall k, (forall dt, dt ∈ fortnite_data_types -> k <> "fortnite_" +:+ dt) ->
       pydict.get k game_data' = pydict.get k game_data) /\
    fetches ["https://www.fortnite.com"; "https://fortnitetracker.com/api"] s s'.
Proof.
  destruct (mirror_gaming_platform_run FORTNITE true 20 s _ eq_refl)
    as (pages & s1 & m & s2 & E1 & E & _ & Ht & _ & _ & Hg).
  destruct (mirror_main_pages_run
              (slice_to 20 ["https://www.fortnite.com"; "https://fortnitetracker.com/api"])
              [] s) as (pages' & s1' & E1' & _ & Hf & _).
  rewrite E1 in E1'. injection E1' as <- <-.
  destruct (fortnite_records_run m fortnite_data_types [] game_data s2)
    as (fd & gd & s' & E' & (Hh & Hw & Hg' & Hp) & Ht' & Hk & Hin & _ & Hrest).
  { simpl. by apply (bool_decide_unpack _). }
  exists m, fd, gd, s'. split.
  { unfold mirror_fortnite_data, bind. by rewrite E. }
  split; [rewrite Hg', Hg; simpl; apply pydict_get_set_eq|].
  split; [exact Hk|]. split; [exact Hin|]. split; [exact Hrest|].
  change ["https://www.fortnite.com"; "https://fortnitetracker.com/api"]
    with (slice_to 20 ["https://www.fortnite.com"; "https://fortnitetracker.com/api"] ++ []).
  apply (fetches_app _ [] s s1 s' Hf).
  exists ([time_time; time_time] ++ replicate (length fortnite_data_types) time_time).
  split; [by rewrite Ht', Ht, <- app_assoc|done].
Qed.

End platform_lists.

(** ** The pages that the blockchain reads from the registry *)

Lemma mirror_web_pages_from_spec web_mirror urls : forall mirrored_pages,
  mirror_web_pages_from web_mirror urls mirrored_pages
  = mirrored_pages ++
    omap (fun url =>
            (fun mirror => {| mp_url := url;
                              mp_luxbin_address := luxbin_address mirror;
                              mp_content_hash := content_hash mirror;
                              mp_mirrored_at := last_updated mirror |})
            <$> pydict.get url (mirrors web_mirror)) urls.
Proof.
  induction urls as [|url urls IH]; intros mirrored_pages; simpl.
  - by rewrite app_nil_r.
  - rewrite IH. destruct (pydict.get url (mirrors web_mirror)) as [mirror|]; simpl; [|done].
    by rewrite <- app_assoc.
Qed.

Lemma mirror_web_pages_from_nil web_mirror urls :
  let pages := mirror_web_pages_from web_mirror urls [] in
  (length pages <= length urls)%nat /\
  mp_url <$> pages
  = filter (fun url => is_Some (pydict.get url (mirrors web_mirror))) urls /\
  (forall page, page ∈ pages ->
     exists mirror,
       pydict.get (mp_url page) (mirrors web_mirror) = Some mirror /\
       mp_luxbin_address page = luxbin_address mirror /\
       mp_content_hash page = content_hash mirror /\
       mp_mirrored_at page = last_updated mirror).
Proof.
  intros pages. subst pages. rewrite mirror_web_pages_from_spec, app_nil_l.
  split; [|split].
  - induction urls as [|url urls IH]; simpl; [done|].
    destruct (pydict.get url (mirrors web_mirror)); simpl;
      [apply le_n_S, IH|apply le_S, IH].
  - induction urls as [|url urls IH]; [done|]. rewrite filter_cons.
    destruct (decide (is_Some (pydict.get url (mirrors web_mirror)))) as [[mirror E]|Hn].
    + simpl. rewrite E. simpl. f_equal. exact IH.
    + destruct (pydict.get url (mirrors web_mirror)) as [mirror|] eqn:E.
      { destruct Hn. by exists mirror. }
      simpl. rewrite E. simpl. exact IH.
  - intros page Hpage. apply list_elem_of_omap in Hpage as (url & _ & Hurl).
    destruct (pydict.get url (mirrors web_mirror)) as [mirror|] eqn:E; [|done].
    injection Hurl as <-. by exists mirror.
Qed.

(** X26.  [mirror_web_pages] raises no [KeyError]: it reports those of the three
    sample URLs that are in the registry of the web mirror, in the order of
    the samples, each with the address, the content hash and the time of its
    record as the registry holds it; other pages of the registry are not
    reported. *)
Theorem mirror_web_pages_reads_registry (web_mirror : QuantumWebMirror) :
  let pages := mirror_web_pages web_mirror in
  (length pages <= 3)%nat /\
  mp_url <$> pages
  = filter (fun url => is_Some (pydict.get url (mirrors web_mirror))) sample_urls /\
  (forall page, page ∈ pages ->
     exists mirror,
       pydict.get (mp_url page) (mirrors web_mirror) = Some mirror /\
       mp_luxbin_address page = luxbin_address mirror /\
       mp_content_hash page = content_hash mirror /\
       mp_mirrored_at page = last_updated mirror).
Proof. apply (mirror_web_pages_from_nil web_mirror sample_urls). Qed.

Section blockchain_reads.
Context `{Collaborators}.

(** X27.  A sample URL that [mirror_page] has just mirrored is reported by
    [mirror_web_pages], with the address, the content hash and the time of
    the record that [mirror_page] returned. *)
Theorem mirror_web_pages_after_mirror_page url s r s' :
  url ∈ sample_urls ->
  mirror_page url s = (Ok (Some r), s') ->
  {| mp_url := url;
     mp_luxbin_address := luxbin_address r;
     mp_content_hash := content_hash r;
     mp_mirrored_at := last_updated r |} ∈ mirror_web_pages (web s').
Proof.
  intros Hurl E. apply mirror_page_run in E. destruct (mirrored_web _ _ _ _ E) as [Hw _].
  unfold mirror_web_pages. rewrite mirror_web_pages_from_spec, app_nil_l.
  apply list_elem_of_omap. exists url. split; [done|].
  rewrite Hw. simpl. by rewrite pydict_get_set_eq.
Qed.

End blockchain_reads.

Lemma mirror_web_pages_after_mirror_page_witness :
  let run := mirror_page (H := steady 0.71) "https://example.com" (stub.start stub.backends) in
  exists r,
    "https://example.com" ∈ sample_urls /\
    run = (Ok (Some r), run.2) /\
    {| mp_url := "https://example.com";
       mp_luxbin_address := luxbin_address r;
       mp_content_hash := content_hash r;
       mp_mirrored_at := last_updated r |} ∈ mirror_web_pages (web run.2).
Proof.
  intros run. eexists.
  assert (Hin : "https://example.com" ∈ sample_urls) by left.
  refine ((fun E => conj Hin (conj E
            (mirror_web_pages_after_mirror_page (H := steady 0.71) _ _ _ _ Hin E))) _).
  vm_compute. reflexivity.
Defined.

(** ** The transaction of a page that goes into a block *)

Lemma substring_hex_of_bytes n : forall bs,
  String.substring 0 (n + n) (hashlib.hex_of_bytes bs) = hashlib.hex_of_bytes (take n bs).
Proof.
  induction n as [|n IH]; intros [|b bs]; simpl; try done.
  rewrite Nat.add_succ_r. simpl. by rewrite IH.
Qed.

Section transaction.
Context `{Collaborators}.

(** X28.  The transaction that [store_content_in_blockchain_block] hands to the
    blockchain.  What it carries inline is the hexadecimal text of the first
    500 bytes of the content, at most 1000 characters; the content hash is
    the whole SHA-256 digest, 64 hexadecimal digits, and the size is that of
    the whole content.  The mirror nodes are all the configured backends,
    not the first [mirror_replication] of them.  The light show is asked
    for two keys before the clock is read, with [None] and [False] for a
    key that is missing; nothing changes but the log, by one clock read. *)
Theorem store_content_in_blockchain_block_tx_inline http_url content light_show s tx s' :
  store_content_in_blockchain_block_tx http_url content light_show s = (Ok tx, s') ->
  ds_content (digital_space tx) = bytes_hex (take 500 content) /\
  String.length (ds_content (digital_space tx)) = (2 * (500 `min` length content))%nat /\
  tx_content_hash tx = hashlib.sha256_hexdigest content /\
  String.length (tx_content_hash tx) = 64%nat /\
  hex_text (tx_content_hash tx) = true /\
  content_size tx = Z.of_nat (length content) /\
  tx_url tx = http_url /\ tx_type tx = "WEB_MIRROR" /\ entangled tx = true /\
  tx_mirror_nodes tx = quantum_backends (web s) /\
  tx_timestamp tx = answer_time_time (length (trace s)) /\
  (exists l d,
     light_show = VRef l /\ heap s !! l = Some (ODict d) /\
     full_content_dht (digital_space tx) = default VNone (d !! "luxbin_address") /\
     ds_acoustic_encoded (digital_space tx) = default (VBool false) (d !! "acoustic_encoded")) /\
  trace s' = trace s ++ [time_time] /\
  heap s' = heap s /\ web s' = web s /\ gaming s' = gaming s.
Proof.
  unfold store_content_in_blockchain_block_tx. intros E.
  apply bind_Ok in E as (address & s1 & E1 & E).
  pose proof (py_get_state _ _ _ _ _ _ E1) as ->.
  apply bind_Ok in E as (acoustic & s2 & E2 & E).
  pose proof (py_get_state _ _ _ _ _ _ E2) as ->.
  revert E. unfold bind, call, gets, ret. simpl. intros [= <- <-]. simpl.
  assert (Hhex : String.substring 0 1000 (bytes_hex content) = bytes_hex (take 500 content)).
  { unfold bytes_hex, hashlib.bytes_to_Z. rewrite <- firstn_map.
    apply (substring_hex_of_bytes 500). }
  destruct (sha256_prefix 64 content) as [Hlen Hdigits]; [lia|].
  assert (Hfull : String.substring 0 64 (hashlib.sha256_hexdigest content)
                  = hashlib.sha256_hexdigest content).
  { unfold hashlib.sha256_hexdigest.
    pose proof (length_sha256_digest (hashlib.bytes_to_Z content)) as L.
    rewrite <- (firstn_all (hashlib.sha256_digest (hashlib.bytes_to_Z content))) at 2.
    rewrite L. apply (substring_hex_of_bytes 32). }
  rewrite Hfull in Hlen, Hdigits.
  split; [exact Hhex|]. split.
  { rewrite Hhex. unfold bytes_hex, hashlib.bytes_to_Z.
    by rewrite length_hex_of_bytes, length_map, length_take. }
  do 9 (split; [done|]). split; [|done].
  destruct light_show as [| | | | |l]; try done.
  revert E1 E2. unfold py_get, bind, deref.
  destruct (heap s !! l) as [[d|items]|] eqn:Hl; try done.
  intros [= <-] [= <-]. by exists l, d.
Qed.

End transaction.

Lemma store_content_in_blockchain_block_tx_inline_witness :
  let content := list_byte_of_string "<html>example</html>" in
  let run := store_content_in_blockchain_block_tx (H := steady 0.71) "https://example.com"
               content (VRef 5%positive) show_state in
  exists tx,
    run = (Ok tx, run.2) /\
    ds_content (digital_space tx) = bytes_hex (take 500 content) /\
    String.length (tx_content_hash tx) = 64%nat /\
    full_content_dht (digital_space tx) = VNone /\
    ds_acoustic_encoded (digital_space tx) = VBool false.
Proof.
  intros content run. eexists.
  eassert (E : run = (Ok _, run.2)) by (vm_compute; reflexivity).
  destruct (store_content_in_blockchain_block_tx_inline (H := steady 0.71) _ _ _ _ _ _ E)
    as (Hc & _ & _ & Hl & _).
  split; [exact E|]. split; [exact Hc|]. split; [exact Hl|]. split; reflexivity.
Defined.
